(** * claude-langfuse-go: watcher, log reader, dedup ledger, delivery client

    A shallow embedding of the change-detection, incremental-parse,
    deduplicate and batch-deliver pipeline of the repository
    ([internal/watcher], [internal/monitor], [internal/langfuse] and the
    [start] action of [cmd/claude-langfuse]), followed by the properties
    the specification states about it.

    Conventions.
    - Go [string] is [string] (a sequence of bytes), Go [int] is a [Z]
      kept in the signed 64-bit range by [wrap64].
    - A Go [map] is a [gmap]; a slice that is only appended to and
      emptied is a [list].
    - Calls into the Go standard library and the operating system whose
      result the program only inspects (JSON decoding, the clock, the
      HTTP round trip) are members of the classes [Transport] and
      [Runtime]; the theorems hold for every instance, and
      [Module reference] gives executable ones. MD5, the line scanner
      and the directory walk are written out.
    - Code that runs under a mutex is one atomic state transformer. *)

From Stdlib Require Import ZArith String Ascii List Lia Bool.
From stdpp Require Import gmap strings list fin_maps.
Import ListNotations.

Local Open Scope string_scope.
Local Open Scope list_scope.
Local Open Scope Z_scope.

(** ** Go base types *)

(** Two's-complement wrap-around of Go's 64-bit [int]. *)
Definition wrap64 (x : Z) : Z := (x + 2 ^ 63) mod 2 ^ 64 - 2 ^ 63.

(** [x++] on an [int]. *)
Definition int_incr (x : Z) : Z := wrap64 (x + 1).

(** [len(s)] of a slice, as an [int]. *)
Definition len {A} (l : list A) : Z := Z.of_nat (length l).

(** A [time.Time], as nanoseconds on the clock's scale. *)
Abbreviation Time := Z.

(** A Go [error] value is [None] for [nil]. *)
Inductive error : Type :=
  | ErrMarshal        (* "failed to marshal events: ..." *)
  | ErrCreateRequest  (* "failed to create request: ..." *)
  | ErrSendRequest    (* "failed to send request: ..." *)
  | ErrAPIStatus (status : Z) (* "langfuse API error: status %d" *)
  | ErrHomeDir        (* "failed to get home directory: ..." *)
  | ErrProjectsDirNotFound (dir : string)
  | ErrNewWatcher     (* fsnotify.NewWatcher failed *)
  | ErrOther (msg : string).

(** ** package strings *)

(** [strings.HasSuffix]. *)
Definition HasSuffix (s suffix : string) : bool :=
  let n := String.length s in
  let k := String.length suffix in
  (k <=? n)%nat && String.eqb (substring (n - k) k s) suffix.

(** [strings.TrimSuffix]. *)
Definition TrimSuffix (s suffix : string) : string :=
  if HasSuffix s suffix
  then substring 0 (String.length s - String.length suffix) s
  else s.

(** [strings.Split(s, sep)] for a separator of one byte. *)
Fixpoint Split (s : string) (sep : ascii) : list string :=
  match s with
  | EmptyString => [EmptyString]
  | String c rest =>
      if Ascii.eqb c sep then EmptyString :: Split rest sep
      else match Split rest sep with
           | [] => [String c EmptyString]
           | p :: ps => String c p :: ps
           end
  end.

(** [strings.ReplaceAll(s, old, new)] where [old] and [new] are one byte
    each: every occurrence of the byte is replaced. *)
Fixpoint ReplaceAll (s : string) (old new : ascii) : string :=
  match s with
  | EmptyString => EmptyString
  | String c rest =>
      String (if Ascii.eqb c old then new else c) (ReplaceAll rest old new)
  end.

(** [strings.Join]. *)
Fixpoint Join (elems : list string) (sep : string) : string :=
  match elems with
  | [] => ""
  | [x] => x
  | x :: rest => x +:+ sep +:+ Join rest sep
  end.

(** [os.PathSeparator] on the platforms the program is built for. *)
Definition PathSeparator : ascii := "/"%char.

Definition newline : string := String (ascii_of_nat 10) EmptyString.

(** ** packages crypto/md5 and encoding/hex *)

Module md5.

Definition mask32 (x : Z) : Z := x mod 2 ^ 32.

Definition rotl (x c : Z) : Z :=
  mask32 (Z.lor (Z.shiftl x c) (Z.shiftr x (32 - c))).

Definition not32 (x : Z) : Z := Z.lxor x (2 ^ 32 - 1).

Definition shifts : list Z :=
  [7; 12; 17; 22; 7; 12; 17; 22; 7; 12; 17; 22; 7; 12; 17; 22;
   5; 9; 14; 20; 5; 9; 14; 20; 5; 9; 14; 20; 5; 9; 14; 20;
   4; 11; 16; 23; 4; 11; 16; 23; 4; 11; 16; 23; 4; 11; 16; 23;
   6; 10; 15; 21; 6; 10; 15; 21; 6; 10; 15; 21; 6; 10; 15; 21].

(** The sine table: [K !! i] is the integer part of [2^32 * |sin (i+1)|]. *)
Definition K : list Z :=
  [3614090360; 3905402710; 606105819; 3250441966; 4118548399; 1200080426;
   2821735955; 4249261313; 1770035416; 2336552879; 4294925233; 2304563134;
   1804603682; 4254626195; 2792965006; 1236535329; 4129170786; 3225465664;
   643717713; 3921069994; 3593408605; 38016083; 3634488961; 3889429448;
   568446438; 3275163606; 4107603335; 1163531501; 2850285829; 4243563512;
   1735328473; 2368359562; 4294588738; 2272392833; 1839030562; 4259657740;
   2763975236; 1272893353; 4139469664; 3200236656; 681279174; 3936430074;
   3572445317; 76029189; 3654602809; 3873151461; 530742520; 3299628645;
   4096336452; 1126891415; 2878612391; 4237533241; 1700485571; 2399980690;
   4293915773; 2240044497; 1873313359; 4264355552; 2734768916; 1309151649;
   4149444226; 3174756917; 718787259; 3951481745].

Definition bytes (s : string) : list Z :=
  map (fun c => Z.of_nat (nat_of_ascii c)) (list_ascii_of_string s).

(** [n] bytes of [x], least significant first. *)
Fixpoint littleEndian (n : nat) (x : Z) : list Z :=
  match n with
  | O => []
  | S n' => x mod 256 :: littleEndian n' (x / 256)
  end.

Definition pad (msg : list Z) : list Z :=
  let l := Z.of_nat (length msg) in
  msg ++ [128] ++ repeat 0 (Z.to_nat ((55 - l) mod 64))
      ++ littleEndian 8 ((8 * l) mod 2 ^ 64).

Fixpoint words (bs : list Z) : list Z :=
  match bs with
  | b0 :: b1 :: b2 :: b3 :: rest =>
      (b0 + 256 * b1 + 65536 * b2 + 16777216 * b3) :: words rest
  | _ => []
  end.

Definition state : Type := Z * Z * Z * Z.

Definition round (M : list Z) (st : state) (i : nat) : state :=
  let '(A, B, C, D) := st in
  let iz := Z.of_nat i in
  let '(F, g) :=
    if iz <? 16 then (Z.lor (Z.land B C) (Z.land (not32 B) D), iz)
    else if iz <? 32 then (Z.lor (Z.land D B) (Z.land (not32 D) C), (5 * iz + 1) mod 16)
    else if iz <? 48 then (Z.lxor (Z.lxor B C) D, (3 * iz + 5) mod 16)
    else (Z.lxor C (Z.lor B (not32 D)), (7 * iz) mod 16) in
  let F := mask32 (F + A + nth i K 0 + nth (Z.to_nat g) M 0) in
  (D, mask32 (B + rotl F (nth i shifts 0)), B, C).

Definition block (st : state) (M : list Z) : state :=
  let '(a0, b0, c0, d0) := st in
  let '(A, B, C, D) := fold_left (round M) (seq 0 64) st in
  (mask32 (a0 + A), mask32 (b0 + B), mask32 (c0 + C), mask32 (d0 + D)).

(** The message words, sixteen at a time. *)
Fixpoint blocks (n : nat) (ws : list Z) (st : state) : state :=
  match n with
  | O => st
  | S n' =>
      match ws with
      | [] => st
      | _ => blocks n' (skipn 16 ws) (block st (firstn 16 ws))
      end
  end.

(** [md5.Sum]: the sixteen bytes of the digest. *)
Definition Sum (data : string) : list Z :=
  let ws := words (pad (bytes data)) in
  let '(a, b, c, d) :=
    blocks (length ws) ws (1732584193, 4023233417, 2562383102, 271733878) in
  littleEndian 4 a ++ littleEndian 4 b ++ littleEndian 4 c ++ littleEndian 4 d.

Definition hexDigit (x : Z) : ascii :=
  nth (Z.to_nat x) (list_ascii_of_string "0123456789abcdef") "0"%char.

(** [hex.EncodeToString]. *)
Fixpoint EncodeToString (bs : list Z) : string :=
  match bs with
  | [] => EmptyString
  | b :: rest =>
      String (hexDigit (b / 16)) (String (hexDigit (b mod 16)) (EncodeToString rest))
  end.

End md5.

(** ** package os, as far as start-up reads it *)

Module os.

(** What [os.Stat] says of a path. *)
Inductive StatResult : Type :=
  | StatOk (isDir : bool)
  | StatNotExist        (* an error for which [os.IsNotExist] holds *)
  | StatError.          (* any other error, such as a denied permission *)

Definition IsNotExist (r : StatResult) : bool :=
  match r with StatNotExist => true | _ => false end.

End os.

(** ** package langfuse: the batching delivery client *)

Module langfuse.

(** Metadata maps hold strings only in this program. *)
Record Trace := {
  Trace_ID : string;
  Trace_Name : string;
  Trace_SessionID : string;
  Trace_UserID : string;
  Trace_Metadata : gmap string string;
  Trace_Input : string;
  Trace_Timestamp : Time
}.

Record Generation := {
  Generation_ID : string;
  Generation_TraceID : string;
  Generation_Name : string;
  Generation_Model : string;
  Generation_Metadata : gmap string string;
  Generation_Output : string;
  Generation_StartTime : Time;
  Generation_EndTime : Time
}.

(** The [Body interface{}] of an event holds a trace or a generation. *)
Inductive Body : Type :=
  | BodyTrace (t : Trace)
  | BodyGeneration (g : Generation).

Record Event := { Type_ : string; Body_ : Body }.

Definition Body_ID (b : Body) : string :=
  match b with
  | BodyTrace t => Trace_ID t
  | BodyGeneration g => Generation_ID g
  end.

Record Client := {
  baseURL : string;
  publicKey : string;
  secretKey : string;
  events : list Event;
  batchSize : Z
}.

Definition set_events (c : Client) (evs : list Event) : Client :=
  {| baseURL := baseURL c; publicKey := publicKey c;
     secretKey := secretKey c; events := evs; batchSize := batchSize c |}.

(** What [httpClient.Do] gives back: a transport error (which includes
    the 30 s timeout) or a response with its status code. *)
Inductive Reply : Type :=
  | TransportError
  | Response (StatusCode : Z).

Record Request := {
  req_url : string;
  req_user : string;
  req_password : string;
  req_body : string
}.

(** One POST that went out, with the batch it carried and its reply. *)
Record Post := {
  post_request : Request;
  post_batch : list Event;
  post_reply : Reply
}.

(** The requests issued so far, oldest first. *)
Abbreviation Wire := (list Post).

(** The standard-library calls of [flushLocked]. [http_Do n r] is the
    reply to request [r] when [n] requests went out before it. *)
Class Transport := {
  json_Marshal : list Event -> option string;
  http_NewRequest : string -> bool;
  http_Do : nat -> Request -> Reply
}.

Section client.
Context `{Transport}.

Definition NewClient (baseURL publicKey secretKey : string) : Client :=
  {| baseURL := baseURL; publicKey := publicKey; secretKey := secretKey;
     events := []; batchSize := 10 |}.

(** [flushLocked]: the caller holds the lock. *)
Definition flushLocked (c : Client) (w : Wire) : option error * Client * Wire :=
  if len (events c) =? 0 then (None, c, w)
  else
    match json_Marshal (events c) with
    | None => (Some ErrMarshal, c, w)
    | Some body =>
        let url := baseURL c +:+ "/api/public/ingestion" in
        if negb (http_NewRequest url) then (Some ErrCreateRequest, c, w)
        else
          let req := {| req_url := url; req_user := publicKey c;
                        req_password := secretKey c; req_body := body |} in
          let reply := http_Do (length w) req in
          let w' := w ++ [{| post_request := req; post_batch := events c;
                             post_reply := reply |}] in
          match reply with
          | TransportError => (Some ErrSendRequest, c, w')
          | Response status =>
              if status >=? 400 then (Some (ErrAPIStatus status), c, w')
              else (None, set_events c [], w')
          end
    end.

(** [CreateTrace]: append under the lock, flush when the batch size
    is reached. *)
Definition CreateTrace (trace : Trace) (c : Client) (w : Wire)
  : option error * Client * Wire :=
  let c1 := set_events c
              (events c ++ [{| Type_ := "trace-create"; Body_ := BodyTrace trace |}]) in
  if len (events c1) >=? batchSize c1 then flushLocked c1 w
  else (None, c1, w).

(** [CreateGeneration]: the same for a generation. *)
Definition CreateGeneration (gen : Generation) (c : Client) (w : Wire)
  : option error * Client * Wire :=
  let c1 := set_events c
              (events c ++ [{| Type_ := "generation-create";
                               Body_ := BodyGeneration gen |}]) in
  if len (events c1) >=? batchSize c1 then flushLocked c1 w
  else (None, c1, w).

Definition Flush (c : Client) (w : Wire) := flushLocked c w.

Definition Shutdown (c : Client) (w : Wire) := Flush c w.

Definition EventCount (c : Client) : Z := len (events c).
End client.

(** The request [flushLocked] sends for a buffer, given its body. *)
Definition requestOf (c : Client) (body : string) : Request :=
  {| req_url := baseURL c +:+ "/api/public/ingestion"; req_user := publicKey c;
     req_password := secretKey c; req_body := body |}.

(** A POST was accepted when it got a response with a status below 400. *)
Definition accepted (p : Post) : bool :=
  match post_reply p with
  | TransportError => false
  | Response status => negb (status >=? 400)
  end.

(** The events the remote end accepted, in order of arrival. *)
Definition delivered (w : Wire) : list Event :=
  concat (map post_batch (filter (fun p => accepted p = true) w)).

(** Every event handed to the client so far that was not lost: the
    accepted ones followed by the ones still buffered. *)
Definition outbound (c : Client) (w : Wire) : list Event :=
  delivered w ++ events c.

End langfuse.

(** ** package bufio: the line scanner *)

Module bufio.

(** [dropCR]: a line without its trailing carriage return. *)
Definition dropCR (data : string) : string := TrimSuffix data (String (ascii_of_nat 13) "").

(** The lines [ScanLines] finds in the whole input: the text between
    newlines, and the text after the last newline when there is some. *)
Definition lines (content : string) : list string :=
  let pieces := Split content (ascii_of_nat 10) in
  match List.last pieces "" with
  | EmptyString => removelast pieces
  | _ => pieces
  end.

(** The tokens a scanner yields before [Scan] returns false: a line
    that, with its newline, does not fit in a buffer of [maxTokenSize]
    bytes ends the scan (ErrTooLong), and nothing after it is read. *)
Fixpoint tokens (maxTokenSize : Z) (pieces : list string) : list string :=
  match pieces with
  | [] => []
  | piece :: rest =>
      if Z.of_nat (String.length piece) <? maxTokenSize
      then dropCR piece :: tokens maxTokenSize rest
      else []
  end.

(** What [for scanner.Scan() { scanner.Text() }] iterates over. *)
Definition Scan (maxTokenSize : Z) (content : string) : list string :=
  tokens maxTokenSize (lines content).

End bufio.

(** ** package monitor: log reader, dedup ledger, content extraction *)

Module monitor.

Record Options := {
  HistoryHours : Z;
  Daemon : bool;
  DryRun : bool;
  Quiet : bool
}.

(** [config.Config], read-only here. *)
Record Config := {
  Host : string;
  PublicKey : string;
  SecretKey : string;
  UserID : string;
  Model : string;
  Source : string;
  UserTraceName : string;
  AssistantTraceName : string
}.

(** [json.RawMessage]: the bytes of one JSON value, or none. *)
Abbreviation RawMessage := string.

Record Entry := {
  Entry_Type : string;
  Entry_UUID : string;
  Entry_ParentUUID : string;
  Entry_Timestamp : string;
  Entry_Message : RawMessage;
  Entry_GitBranch : string;
  Entry_Cwd : string;
  Entry_RequestID : string
}.

Record ContentBlock := {
  Block_Type : string;
  Block_Text : string;
  Block_Name : string;
  Block_Input : RawMessage;
  Block_Content : string;
  Block_ToolUseID : string
}.

Record MessageContent := {
  Message_Text : string;
  Message_Content : list ContentBlock;
  Message_Model : string
}.

(** The monitor object. [New] always sets [config]; it is read only
    when a client is present. *)
Record Monitor := {
  options : Options;
  config : Config;
  client : option langfuse.Client;
  processedMessages : gmap string bool;
  conversationSessions : gmap string string;
  messageCount_user : Z;
  messageCount_assistant : Z
}.

(** A line written to the terminal: the activity line of
    [ProcessMessage] ("%s [%s] %s...") or a [color.Red] error line. *)
Inductive Line : Type :=
  | Activity (icon projectName preview : string)
  | RedError (what : string) (detail : option error).

(** What the monitor acts on outside itself: the requests that left
    through the client, the lines printed, the number of clock
    readings taken, and the conversation files with their contents
    (a path that cannot be opened is absent). *)
Record World := {
  wire : langfuse.Wire;
  console : list Line;
  clockReads : nat;
  files : gmap string string
}.

(** Standard-library calls of the monitor. [json_Unmarshal_*] decode
    into a fresh zero value of the named type and give [None] on an
    error; [time_Now n] is the reading of the clock after [n] earlier
    readings. *)
Class Runtime := {
  json_Unmarshal_string : RawMessage -> option string;
  json_Unmarshal_MessageContent : RawMessage -> option MessageContent;
  json_Unmarshal_Entry : string -> option Entry;
  json_Indent : RawMessage -> option string;
  time_Now : nat -> Time;
  time_Parse_RFC3339 : string -> option Time;
  strings_TrimSpace : string -> string;
  filepath_Base : string -> string
}.

Definition set_client (m : Monitor) (c : option langfuse.Client) : Monitor :=
  {| options := options m; config := config m; client := c;
     processedMessages := processedMessages m;
     conversationSessions := conversationSessions m;
     messageCount_user := messageCount_user m;
     messageCount_assistant := messageCount_assistant m |}.

Definition set_processedMessages (m : Monitor) (p : gmap string bool) : Monitor :=
  {| options := options m; config := config m; client := client m;
     processedMessages := p;
     conversationSessions := conversationSessions m;
     messageCount_user := messageCount_user m;
     messageCount_assistant := messageCount_assistant m |}.

Definition set_conversationSessions (m : Monitor) (s : gmap string string) : Monitor :=
  {| options := options m; config := config m; client := client m;
     processedMessages := processedMessages m;
     conversationSessions := s;
     messageCount_user := messageCount_user m;
     messageCount_assistant := messageCount_assistant m |}.

Definition set_messageCount (m : Monitor) (u a : Z) : Monitor :=
  {| options := options m; config := config m; client := client m;
     processedMessages := processedMessages m;
     conversationSessions := conversationSessions m;
     messageCount_user := u;
     messageCount_assistant := a |}.

Definition set_wire (w : World) (x : langfuse.Wire) : World :=
  {| wire := x; console := console w; clockReads := clockReads w; files := files w |}.

Definition print (w : World) (line : Line) : World :=
  {| wire := wire w; console := console w ++ [line];
     clockReads := clockReads w; files := files w |}.

Definition tick (w : World) : World :=
  {| wire := wire w; console := console w;
     clockReads := S (clockReads w); files := files w |}.

(** [m.processedMessages[uuid]]: a missing key reads as [false]. *)
Definition processed (m : Monitor) (uuid : string) : bool :=
  default false (processedMessages m !! uuid).

(** The part of a monitor that delivery does not touch. *)
Definition ledger (m : Monitor) : gmap string bool * gmap string string * Z * Z :=
  (processedMessages m, conversationSessions m,
   messageCount_user m, messageCount_assistant m).

(** [GetClaudeProjectsDir], given what [os.UserHomeDir] returns,
    [filepath.Join] and [os.Stat]. *)
Definition GetClaudeProjectsDir (userHomeDir : option string)
    (join : list string -> string) (stat : string -> os.StatResult)
  : string + error :=
  match userHomeDir with
  | None => inr ErrHomeDir
  | Some home =>
      let projectsDir := join [home; ".claude"; "projects"] in
      if os.IsNotExist (stat projectsDir)
      then inr (ErrProjectsDirNotFound projectsDir)
      else inl projectsDir
  end.

Section monitor.
Context `{langfuse.Transport} `{Runtime}.

(** The body of the [for _, block := range msgContent.Content] loop
    of [extractContent]: one block, appended to [parts] or not. *)
Definition extractContent_block (parts : list string) (block : ContentBlock)
  : list string :=
  if String.eqb (Block_Type block) "text" then
    if negb (String.eqb (Block_Text block) "") then parts ++ [Block_Text block]
    else parts
  else if String.eqb (Block_Type block) "tool_use" then
    let inputStr :=
      if (0 <? Z.of_nat (String.length (Block_Input block))) then
        match json_Indent (Block_Input block) with
        | Some pretty => pretty
        | None => Block_Input block
        end
      else "" in
    parts ++ ["[Tool: " +:+ Block_Name block +:+ "]" +:+ newline +:+ inputStr]
  else if String.eqb (Block_Type block) "tool_result" then
    if negb (String.eqb (Block_Content block) "") then parts ++ [Block_Content block]
    else parts
  else
    if negb (String.eqb (Block_Text block) "") then parts ++ [Block_Text block]
    else parts.

(** [extractContent]. *)
Definition extractContent (rawMessage : RawMessage) : string :=
  if (Z.of_nat (String.length rawMessage) =? 0) then ""
  else
    match json_Unmarshal_string rawMessage with
    | Some strMessage => strMessage
    | None =>
        match json_Unmarshal_MessageContent rawMessage with
        | None => ""
        | Some msgContent =>
            let fallback :=
              if negb (String.eqb (Message_Text msgContent) "")
              then Message_Text msgContent else "" in
            if (0 <? len (Message_Content msgContent)) then
              let parts := fold_left extractContent_block
                             (Message_Content msgContent) [] in
              if (0 <? len parts) then Join parts (newline +:+ newline)
              else fallback
            else fallback
        end
    end.

(** What one block contributes to the text, in the words of the
    specification (4.3): a text block its non-empty text, a tool_use
    block the section made of its name and its input, pretty-printed
    when it can be and raw otherwise, a tool_result block its
    non-empty content, any other block its text if it has one.
    [extractContent_block] above is the code; this is the statement
    it is compared with. *)
Definition spec_contribution (block : ContentBlock) : option string :=
  let nonEmpty (s : string) := if String.eqb s "" then None else Some s in
  if String.eqb (Block_Type block) "text" then nonEmpty (Block_Text block)
  else if String.eqb (Block_Type block) "tool_use" then
    Some ("[Tool: " +:+ Block_Name block +:+ "]" +:+ newline
          +:+ (if String.eqb (Block_Input block) "" then ""
               else default (Block_Input block) (json_Indent (Block_Input block))))
  else if String.eqb (Block_Type block) "tool_result"
  then nonEmpty (Block_Content block)
  else nonEmpty (Block_Text block).

(** [extractModel]. *)
Definition extractModel (rawMessage : RawMessage) : string :=
  if (Z.of_nat (String.length rawMessage) =? 0) then ""
  else
    match json_Unmarshal_MessageContent rawMessage with
    | None => ""
    | Some msgContent =>
        if negb (String.eqb (Message_Model msgContent) "")
           && negb (String.eqb (Message_Model msgContent) "<synthetic>")
        then Message_Model msgContent
        else ""
    end.

(** Lines 603-617 of [ProcessMessage]: the activity line. *)
Definition activityLine (msgType projectPath text : string) : Line :=
  let projectName := filepath_Base projectPath in
  let preview :=
    if (60 <? Z.of_nat (String.length text)) then substring 0 60 text else text in
  let preview := ReplaceAll preview (ascii_of_nat 10) " "%char in
  let icon := if String.eqb msgType "assistant" then "[assistant]" else "[user]" in
  Activity icon projectName preview.

(** Lines 623-670 of [ProcessMessage]: build the event and hand it
    to the client [c]; a delivery error is printed and dropped. *)
Definition ProcessMessage_deliver (entry : Entry)
    (sessionID projectPath conversationID : string)
    (text : string) (timestamp : Time)
    (c : langfuse.Client) (m : Monitor) (w : World) : Monitor * World :=
  let msgType := Entry_Type entry in
  let uuid := Entry_UUID entry in
  if String.eqb msgType "user" then
    let trace :=
      {| langfuse.Trace_ID := uuid;
         langfuse.Trace_Name := UserTraceName (config m);
         langfuse.Trace_SessionID := sessionID;
         langfuse.Trace_UserID := UserID (config m);
         langfuse.Trace_Metadata :=
           <["project" := projectPath]>
           (<["conversationId" := conversationID]>
           (<["gitBranch" := Entry_GitBranch entry]>
           (<["cwd" := Entry_Cwd entry]>
           (<["messageType" := msgType]>
           (<["source" := Source (config m)]> ∅)))));
         langfuse.Trace_Input := text;
         langfuse.Trace_Timestamp := timestamp |} in
    let '(err, c', wire') := langfuse.CreateTrace trace c (wire w) in
    let m := set_client m (Some c') in
    let w := set_wire w wire' in
    match err with
    | Some e => (m, print w (RedError "Error creating trace" (Some e)))
    | None => (m, w)
    end
  else if String.eqb msgType "assistant" then
    let model := extractModel (Entry_Message entry) in
    let model := if String.eqb model "" then Model (config m) else model in
    let gen :=
      {| langfuse.Generation_ID := uuid;
         langfuse.Generation_TraceID := Entry_ParentUUID entry;
         langfuse.Generation_Name := AssistantTraceName (config m);
         langfuse.Generation_Model := model;
         langfuse.Generation_Metadata :=
           <["project" := projectPath]>
           (<["conversationId" := conversationID]>
           (<["requestId" := Entry_RequestID entry]>
           (<["messageType" := msgType]>
           (<["source" := Source (config m)]> ∅))));
         langfuse.Generation_Output := text;
         langfuse.Generation_StartTime := timestamp;
         langfuse.Generation_EndTime := timestamp |} in
    let '(err, c', wire') := langfuse.CreateGeneration gen c (wire w) in
    let m := set_client m (Some c') in
    let w := set_wire w wire' in
    match err with
    | Some e => (m, print w (RedError "Error creating generation" (Some e)))
    | None => (m, w)
    end
  else (m, w).

(** [ProcessMessage]. *)
Definition ProcessMessage (entry : Entry)
    (sessionID projectPath conversationID : string)
    (m : Monitor) (w : World) : Monitor * World :=
  let msgType := Entry_Type entry in
  if negb (String.eqb msgType "user") && negb (String.eqb msgType "assistant")
  then (m, w)
  else
    let uuid := Entry_UUID entry in
    if String.eqb uuid "" then (m, w)
    else
      (* check deduplication, under the lock *)
      if processed m uuid then (m, w)
      else
        let m := set_processedMessages m (<[uuid := true]> (processedMessages m)) in
        let text := extractContent (Entry_Message entry) in
        let now := time_Now (clockReads w) in
        let w := tick w in
        let timestamp :=
          if negb (String.eqb (Entry_Timestamp entry) "") then
            match time_Parse_RFC3339 (Entry_Timestamp entry) with
            | Some t => t
            | None => now
            end
          else now in
        (* track message counts, under the lock *)
        let m :=
          if String.eqb msgType "user"
          then set_messageCount m (int_incr (messageCount_user m))
                                  (messageCount_assistant m)
          else set_messageCount m (messageCount_user m)
                                  (int_incr (messageCount_assistant m)) in
        let w :=
          if negb (Quiet (options m))
          then print w (activityLine msgType projectPath text)
          else w in
        match client m with
        | Some c =>
            if DryRun (options m) then (m, w)
            else ProcessMessage_deliver entry sessionID projectPath
                   conversationID text timestamp c m w
        | None => (m, w)
        end.

(** The loop of [ProcessConversationFile] that looks for the
    segment "projects": its index, or -1. *)
Fixpoint projectsIndex (parts : list string) (i : Z) : Z :=
  match parts with
  | [] => -1
  | part :: rest =>
      if String.eqb part "projects" then i else projectsIndex rest (i + 1)
  end.

(** The body of the scanner loop of [ProcessConversationFile]. *)
Definition ProcessConversationFile_line
    (sessionID projectPath conversationID : string)
    (st : Monitor * World) (line : string) : Monitor * World :=
  if String.eqb (strings_TrimSpace line) "" then st
  else
    match json_Unmarshal_Entry line with
    | None => st
    | Some entry =>
        ProcessMessage entry sessionID projectPath conversationID (fst st) (snd st)
    end.

(** [ProcessConversationFile]. *)
Definition ProcessConversationFile (filepath : string)
    (m : Monitor) (w : World) : Monitor * World :=
  let parts := Split filepath PathSeparator in
  let projectsIdx := projectsIndex parts 0 in
  if (projectsIdx =? -1) || (projectsIdx >=? len parts - 2) then (m, w)
  else
    let encodedProject := nth (Z.to_nat (projectsIdx + 1)) parts "" in
    let projectPath := ReplaceAll encodedProject "-"%char "/"%char in
    let conversationID := TrimSuffix (List.last parts "") ".jsonl" in
    (* get or create the session id, under the lock *)
    let '(sessionID, m) :=
      match conversationSessions m !! filepath with
      | Some sessionID => (sessionID, m)
      | None =>
          let sessionData := projectPath +:+ ":" +:+ conversationID in
          let hash := md5.Sum sessionData in
          let sessionID := md5.EncodeToString hash in
          (sessionID,
           set_conversationSessions m
             (<[filepath := sessionID]> (conversationSessions m)))
      end in
    match files w !! filepath with
    | None => (m, print w (RedError ("Error reading " +:+ filepath) None))
    | Some content =>
        (* 1 MiB is the longest line the scanner's buffer takes *)
        fold_left
          (ProcessConversationFile_line sessionID projectPath conversationID)
          (bufio.Scan (1024 * 1024) content) (m, w)
    end.

(** Lines 517-527 of [ProcessConversationFile]: the session id an
    accepted path gets when the cache has none for it. *)
Definition sessionIDOf (filepath : string) : string :=
  let parts := Split filepath PathSeparator in
  let projectsIdx := projectsIndex parts 0 in
  let encodedProject := nth (Z.to_nat (projectsIdx + 1)) parts "" in
  let projectPath := ReplaceAll encodedProject "-"%char "/"%char in
  let conversationID := TrimSuffix (List.last parts "") ".jsonl" in
  md5.EncodeToString (md5.Sum (projectPath +:+ ":" +:+ conversationID)).

(** Whether [ProcessConversationFile] rejects a path. *)
Definition rejected (filepath : string) : bool :=
  let parts := Split filepath PathSeparator in
  (projectsIndex parts 0 =? -1) || (projectsIndex parts 0 >=? len parts - 2).

(** Every session id in the cache is the one derived from its path. *)
Definition cache_ok (m : Monitor) : Prop :=
  forall filepath sid,
    conversationSessions m !! filepath = Some sid -> sid = sessionIDOf filepath.

(** [New], given what [config.Load] returned. *)
Definition New (opts : Options) (load : Config + error) : Monitor + error :=
  match load with
  | inr _ => inr (ErrOther "failed to load config")
  | inl cfg =>
      inl {| options := opts; config := cfg;
             client := if negb (DryRun opts)
                       then Some (langfuse.NewClient (Host cfg) (PublicKey cfg)
                                    (SecretKey cfg))
                       else None;
             processedMessages := ∅;
             conversationSessions := ∅;
             messageCount_user := 0;
             messageCount_assistant := 0 |}
  end.

(** [Shutdown]: flush what is pending. *)
Definition Shutdown (m : Monitor) (w : World) : option error * Monitor * World :=
  match client m with
  | Some c =>
      let '(err, c', wire') := langfuse.Shutdown c (wire w) in
      (err, set_client m (Some c'), set_wire w wire')
  | None => (None, m, w)
  end.

(** [MessageStats]. *)
Definition MessageStats (m : Monitor) : Z * Z :=
  (messageCount_user m, messageCount_assistant m).

(** The outbound events of a monitor: those the remote end accepted
    and those its client, if it has one, still buffers. *)
Definition emitted (m : Monitor) (w : World) : list langfuse.Event :=
  langfuse.delivered (wire w)
  ++ match client m with
     | Some c => langfuse.events c
     | None => []
     end.

(** What happens to a monitor during its life, one call at a time:
    the watcher's callback, a direct [ProcessMessage], the flush of
    [Shutdown] (also what the orchestrator's timer asks for), and
    the conversation files changing under it. *)
Inductive Call : Type :=
  | CallProcessConversationFile (filepath : string)
  | CallProcessMessage (entry : Entry) (sessionID projectPath conversationID : string)
  | CallShutdown
  | FilesChange (files : gmap string string).

Definition call (st : Monitor * World) (c : Call) : Monitor * World :=
  match c with
  | CallProcessConversationFile filepath =>
      ProcessConversationFile filepath (fst st) (snd st)
  | CallProcessMessage entry sessionID projectPath conversationID =>
      ProcessMessage entry sessionID projectPath conversationID (fst st) (snd st)
  | CallShutdown =>
      let '(_, m, w) := Shutdown (fst st) (snd st) in (m, w)
  | FilesChange fs =>
      (fst st, {| wire := wire (snd st); console := console (snd st);
                  clockReads := clockReads (snd st); files := fs |})
  end.

Definition calls (cs : list Call) (st : Monitor * World) : Monitor * World :=
  fold_left call cs st.
End monitor.
End monitor.

(** ** package path/filepath: Walk *)

Module filepath.

#[local] Set Warnings "-register-all".

(** The tree [Walk] sees below a path: what [os.Lstat] says of the
    path and, for a directory, whether [readDirNames] succeeds and the
    entries it lists (sorted by name). *)
Inductive Node : Type :=
  | Missing
  | File
  | Dir (readable : bool) (entries : list (string * Node)).

(** What a [WalkFunc] may return. *)
Inductive WalkRet : Type :=
  | RetNil
  | SkipDir
  | SkipAll
  | RetErr (e : error).

(** The [err] a [WalkFunc] is called with. *)
Inductive WalkErr : Type :=
  | LstatFailed
  | ReadDirFailed.

Section walk.
Context {S : Type}.
(** [walkFn path info err]: [info] is [Some isDir], or [None] for a
    nil [FileInfo]. *)
Variable walkFn : string -> option bool -> option WalkErr -> S -> WalkRet * S.

Definition isNil (r : WalkRet) : bool :=
  match r with RetNil => true | _ => false end.

Definition isSkipDir (r : WalkRet) : bool :=
  match r with SkipDir => true | _ => false end.

(** [walk(path, info, walkFn)] on a path that [Lstat] accepted. *)
Fixpoint walk (path : string) (n : Node) (s : S) {struct n} : WalkRet * S :=
  match n with
  | Missing => walkFn path None (Some LstatFailed) s
  | File => walkFn path (Some false) None s
  | Dir readable entries =>
      let err := if readable then None else Some ReadDirFailed in
      let '(err1, s) := walkFn path (Some true) err s in
      if negb readable || negb (isNil err1) then (err1, s)
      else
        (fix each (es : list (string * Node)) (s : S) {struct es} : WalkRet * S :=
           match es with
           | [] => (RetNil, s)
           | (name, child) :: rest =>
               let filename := path +:+ "/" +:+ name in
               match child with
               | Missing =>
                   let '(r, s) := walkFn filename None (Some LstatFailed) s in
                   if negb (isNil r) && negb (isSkipDir r) then (r, s)
                   else each rest s
               | File =>
                   let '(r, s) := walk filename child s in
                   if negb (isNil r) then (r, s) else each rest s
               | Dir _ _ =>
                   let '(r, s) := walk filename child s in
                   if negb (isNil r) && negb (isSkipDir r) then (r, s)
                   else each rest s
               end
           end) entries s
  end.

(** [filepath.Walk(root, fn)]. *)
Definition Walk (root : string) (n : Node) (s : S) : option error * S :=
  let '(r, s) :=
    match n with
    | Missing => walkFn root None (Some LstatFailed) s
    | _ => walk root n s
    end in
  match r with
  | RetErr e => (Some e, s)
  | _ => (None, s)
  end.
End walk.
End filepath.

(** ** package watcher: recursive watch registration and debouncing *)

Module watcher.

(** [fsnotify.Op] bits. *)
Definition Create : Z := 1.
Definition Write : Z := 2.
Definition Remove : Z := 4.
Definition Rename : Z := 8.
Definition Chmod : Z := 16.

Record Event := { Name : string; Op : Z }.

(** [time.Millisecond], a [time.Duration] in nanoseconds. *)
Definition Millisecond : Z := 1000000.

Definition maxDuration : Z := 2 ^ 63 - 1.
Definition minDuration : Z := - 2 ^ 63.

(** [t.Sub(u)]: the difference, saturated to the range of a
    [time.Duration]. *)
Definition Sub (t u : Time) : Z :=
  let d := t - u in
  if d >? maxDuration then maxDuration
  else if d <? minDuration then minDuration
  else d.

(** The watcher object; [watched] stands for the directories the
    fsnotify handle holds. The callback is fixed at construction and
    its calls are recorded in the list of dispatched paths. *)
Record Watcher := {
  rootDir : string;
  watched : gset string;
  pendingFiles : gmap string Time;
  debounceMs : Z
}.

Definition set_watched (w : Watcher) (d : gset string) : Watcher :=
  {| rootDir := rootDir w; watched := d;
     pendingFiles := pendingFiles w; debounceMs := debounceMs w |}.

Definition set_pendingFiles (w : Watcher) (p : gmap string Time) : Watcher :=
  {| rootDir := rootDir w; watched := watched w;
     pendingFiles := p; debounceMs := debounceMs w |}.

(** [New]: fails when [fsnotify.NewWatcher] does. *)
Definition New (rootDir : string) (newWatcherOk : bool) : Watcher + error :=
  if newWatcherOk then
    inl {| rootDir := rootDir; watched := ∅; pendingFiles := ∅;
           debounceMs := 500 * Millisecond |}
  else inr ErrNewWatcher.

(** [w.watcher.Add(path)]: [addOk path] tells whether fsnotify accepts
    the directory. *)
Definition Add (addOk : string -> bool) (path : string) (w : Watcher)
  : option error * Watcher :=
  if addOk path then (None, set_watched w ({[path]} ∪ watched w))
  else (Some (ErrOther "fsnotify: add failed"), w).

(** The function literal [addRecursive] passes to [filepath.Walk]. *)
Definition addRecursive_fn (addOk : string -> bool)
    (path : string) (info : option bool) (err : option filepath.WalkErr)
    (w : Watcher) : filepath.WalkRet * Watcher :=
  match err with
  | Some _ => (filepath.RetNil, w)            (* skip errors *)
  | None =>
      match info with
      | Some true =>
          match Add addOk path w with
          | (Some _, w') => (filepath.RetNil, w')  (* ignore the error *)
          | (None, w') => (filepath.RetNil, w')
          end
      | _ => (filepath.RetNil, w)
      end
  end.

(** [addRecursive]. *)
Definition addRecursive (addOk : string -> bool) (path : string)
    (tree : filepath.Node) (w : Watcher) : option error * Watcher :=
  filepath.Walk (addRecursive_fn addOk) path tree w.

(** [Start]; the two loops it spawns are [processEvents_event] and
    [processPendingFiles_tick] below, one activation each. *)
Definition Start (addOk : string -> bool) (tree : filepath.Node) (w : Watcher)
  : option error * Watcher :=
  match addRecursive addOk (rootDir w) tree w with
  | (Some err, w') => (Some err, w')
  | (None, w') => (None, w')
  end.

Definition hasOp (op flag : Z) : bool := Z.land op flag =? flag.

(** One event taken from [w.watcher.Events] by [processEvents].
    [stat] is what [os.Stat(event.Name)] gives ([Some isDir], or
    [None] on an error) and [now] the reading of [time.Now()]. *)
Definition processEvents_event (event : Event) (stat : option bool)
    (addOk : string -> bool) (now : Time) (w : Watcher) : Watcher :=
  if hasOp (Op event) Create && match stat with Some true => true | _ => false end
  then snd (Add addOk (Name event) w)
  else if negb (HasSuffix (Name event) ".jsonl") then w
  else if hasOp (Op event) Write || hasOp (Op event) Create
  then set_pendingFiles w (<[Name event := now]> (pendingFiles w))
  else w.

(** The body of the [range w.pendingFiles] loop of
    [processPendingFiles]: the watcher and the paths handed to
    [go w.callback(file)] so far. *)
Definition processPendingFiles_entry (now : Time)
    (acc : Watcher * list string) (kv : string * Time) : Watcher * list string :=
  let '(w, dispatched) := acc in
  let '(file, lastChange) := kv in
  if Sub now lastChange >=? debounceMs w
  then (set_pendingFiles w (delete file (pendingFiles w)), dispatched ++ [file])
  else (w, dispatched).

(** One tick of [processPendingFiles] at time [now]: the loop visits
    every entry the map holds when the tick starts. Go leaves the order
    of the visit open and the callbacks run as goroutines of their own,
    so the order of the paths dispatched by one tick carries no meaning;
    the properties below count dispatches and do not depend on it. *)
Definition processPendingFiles_tick (now : Time) (w : Watcher)
  : Watcher * list string :=
  fold_left (processPendingFiles_entry now) (map_to_list (pendingFiles w)) (w, []).

(** What the two loops see, one activation at a time: an event or an
    error from the fsnotify handle, or a tick of the 100 ms ticker. *)
Inductive Activation : Type :=
  | FsEvent (event : Event) (stat : option bool) (now : Time)
  | FsError
  | Tick (now : Time).

(** The watcher after an activation, and the paths dispatched by it. *)
Definition step (addOk : string -> bool) (a : Activation) (w : Watcher)
  : Watcher * list string :=
  match a with
  | FsEvent event stat now => (processEvents_event event stat addOk now w, [])
  | FsError => (w, [])
  | Tick now => processPendingFiles_tick now w
  end.

(** A run of activations: the final watcher and every dispatch, in order. *)
Fixpoint run (addOk : string -> bool) (acts : list Activation) (w : Watcher)
  : Watcher * list string :=
  match acts with
  | [] => (w, [])
  | a :: rest =>
      let '(w1, d1) := step addOk a w in
      let '(w2, d2) := run addOk rest w1 in
      (w2, d1 ++ d2)
  end.

(** Whether [path] is pending with a last event at least the debounce
    window before [now]: the test of [processPendingFiles]. *)
Definition settled (now : Time) (w : Watcher) (path : string) : bool :=
  match pendingFiles w !! path with
  | Some lastChange => Sub now lastChange >=? debounceMs w
  | None => false
  end.

(** How often [path] was handed to the callback. *)
Definition dispatches (path : string) (dispatched : list string) : nat :=
  count_occ string_dec dispatched path.

(** 1 when [path] is pending, 0 when it is not. *)
Definition pending (w : Watcher) (path : string) : nat :=
  match pendingFiles w !! path with
  | Some _ => 1%nat
  | None => 0%nat
  end.

(** An event that makes [processEvents] record [path] as pending. *)
Definition records (path : string) (a : Activation) : bool :=
  match a with
  | FsEvent event stat _ =>
      String.eqb (Name event) path
      && negb (hasOp (Op event) Create
               && match stat with Some true => true | _ => false end)
      && HasSuffix (Name event) ".jsonl"
      && (hasOp (Op event) Write || hasOp (Op event) Create)
  | FsError => false
  | Tick _ => false
  end.

(** Whether the entries [l] hold [path] with a settled time. *)
Definition dueIn (now : Time) (window : Z) (path : string)
    (l : list (string * Time)) : bool :=
  existsb (fun kv => String.eqb (fst kv) path && (Sub now (snd kv) >=? window)) l.

(** The number of events of a run that record [path]. *)
Definition recordings (path : string) (acts : list Activation) : nat :=
  length (List.filter (records path) acts).

End watcher.

(** ** package main: the part of the [start] action that starts watching *)

Module main.

(** The operating system as start-up meets it. *)
Record System := {
  UserHomeDir : option string;
  Join : list string -> string;
  Stat : string -> os.StatResult;
  NewWatcherOk : bool;
  Tree : string -> filepath.Node;
  AddOk : string -> bool
}.

(** Lines 85-88 and 109-116 of the [start] action: find the projects
    directory, create the watcher on it, start it. An error returned
    here ends the process with exit status 1. *)
Definition start_watching (sys : System) : watcher.Watcher + error :=
  match monitor.GetClaudeProjectsDir (UserHomeDir sys) (Join sys) (Stat sys) with
  | inr err => inr err
  | inl projectsDir =>
      match watcher.New projectsDir (NewWatcherOk sys) with
      | inr err => inr err
      | inl w =>
          match watcher.Start (AddOk sys) (Tree sys projectsDir) w with
          | (Some err, _) => inr err
          | (None, w') => inl w'
          end
      end
  end.

End main.

(** ** Runs of the delivery client *)

Module session.
Import langfuse.

(** One call of the client's API. *)
Inductive Op : Type :=
  | OpCreateTrace (trace : Trace)
  | OpCreateGeneration (gen : Generation)
  | OpFlush
  | OpShutdown.

Section session.
Context `{Transport}.

Definition op (o : Op) (c : Client) (w : Wire) : option error * Client * Wire :=
  match o with
  | OpCreateTrace trace => CreateTrace trace c w
  | OpCreateGeneration gen => CreateGeneration gen c w
  | OpFlush => Flush c w
  | OpShutdown => Shutdown c w
  end.

(** The client and the wire after a sequence of calls, the errors
    returned being dropped as [ProcessMessage] drops them. *)
Definition ops (os : list Op) (st : Client * Wire) : Client * Wire :=
  fold_left (fun st o => let '(_, c, w) := op o (fst st) (snd st) in (c, w)) os st.
End session.

(** The event a call hands to the client, if it hands one. *)
Definition enqueues (o : Op) : option Event :=
  match o with
  | OpCreateTrace trace => Some {| Type_ := "trace-create"; Body_ := BodyTrace trace |}
  | OpCreateGeneration gen =>
      Some {| Type_ := "generation-create"; Body_ := BodyGeneration gen |}
  | OpFlush => None
  | OpShutdown => None
  end.
End session.

(** ** What a conversation file adds *)

Module reading.
Section reading.
Context `{monitor.Runtime}.
Import monitor.

(** The ids the lines of a file add to a ledger, in the order of the
    lines: the id of each line that is not blank, decodes as an entry
    of kind user or assistant, and has an id that is not empty and not
    yet in the ledger, the ids of the lines before it included. *)
Fixpoint newIds (lines : list string) (ledger : gmap string bool) : list string :=
  match lines with
  | [] => []
  | line :: rest =>
      if String.eqb (strings_TrimSpace line) "" then newIds rest ledger
      else
        match json_Unmarshal_Entry line with
        | None => newIds rest ledger
        | Some entry =>
            if (String.eqb (Entry_Type entry) "user"
                || String.eqb (Entry_Type entry) "assistant")
               && negb (String.eqb (Entry_UUID entry) "")
               && negb (default false (ledger !! Entry_UUID entry))
            then Entry_UUID entry
                 :: newIds rest (<[Entry_UUID entry := true]> ledger)
            else newIds rest ledger
        end
  end.
End reading.
End reading.

(** ** The calls a walk makes *)

Module tree.
Import filepath.

(** The calls [Walk] makes to a function that never stops it, in order:
    the path, the [FileInfo] (whether it is a directory) and the error. *)
Fixpoint visits (path : string) (n : Node)
  : list (string * option bool * option WalkErr) :=
  match n with
  | Missing => [(path, None, Some LstatFailed)]
  | File => [(path, Some false, None)]
  | Dir readable entries =>
      (path, Some true, if readable then None else Some ReadDirFailed)
      :: (if readable then
            (fix each (es : list (string * Node)) :=
               match es with
               | [] => []
               | (name, child) :: rest =>
                   visits (path +:+ "/" +:+ name) child ++ each rest
               end) entries
          else [])
  end.

(** The regular files below [path], in the order of the walk. *)
Definition regularFiles (path : string) (n : Node) : list string :=
  omap (fun v => match v with
                 | (p, Some false, None) => Some p
                 | _ => None
                 end) (visits path n).

(** The directories below [path] that can be read, [path] included. *)
Definition readableDirs (path : string) (n : Node) : list string :=
  omap (fun v => match v with
                 | (p, Some true, None) => Some p
                 | _ => None
                 end) (visits path n).
End tree.

(** ** package monitor: the history pass *)

Module history.

(** [time.Hour], a [time.Duration] in nanoseconds. *)
Definition Hour : Z := 3600 * 1000000000.

(** The lines [ProcessExistingHistory] prints itself, on the terminal
    the lines of [monitor.console] go to: "Processing last %d hours..."
    before anything else, "Found %d recent conversations" after the
    walk and before any file is processed, and "[OK] Processed %d
    conversations (%d messages: %d user, %d assistant)" after all of
    them. *)
Inductive Report : Type :=
  | Processing (hours : Z)
  | Found (conversations : Z)
  | Processed (conversations totalMessages user assistant : Z).

(** The function literal [ProcessExistingHistory] passes to
    [filepath.Walk]; [modTime path] is what [info.ModTime()] gives for
    the path. *)
Definition ProcessExistingHistory_fn (modTime : string -> Time) (cutoffTime : Time)
    (path : string) (info : option bool) (err : option filepath.WalkErr)
    (conversations : list string) : filepath.WalkRet * list string :=
  match err with
  | Some _ => (filepath.RetNil, conversations)            (* skip errors *)
  | None =>
      match info with
      | Some isDir =>
          if negb isDir && HasSuffix path ".jsonl" then
            if modTime path >? cutoffTime
            then (filepath.RetNil, conversations ++ [path])
            else (filepath.RetNil, conversations)
          else (filepath.RetNil, conversations)
      | None => (filepath.RetNil, conversations)
      end
  end.

Section history.
Context `{langfuse.Transport} `{monitor.Runtime}.
Import monitor.

(** [ProcessExistingHistory]: the error, the lines it prints itself,
    and the monitor and the world after it. *)
Definition ProcessExistingHistory (sys : main.System) (modTime : string -> Time)
    (m : Monitor) (w : World) : option error * list Report * Monitor * World :=
  let banner := [Processing (HistoryHours (options m))] in
  match GetClaudeProjectsDir (main.UserHomeDir sys) (main.Join sys) (main.Stat sys) with
  | inr err => (Some err, banner, m, w)
  | inl projectsDir =>
      let now := time_Now (clockReads w) in
      let w := tick w in
      let cutoffTime := now + wrap64 (wrap64 (- HistoryHours (options m)) * Hour) in
      let '(err, conversations) :=
        filepath.Walk (ProcessExistingHistory_fn modTime cutoffTime)
          projectsDir (main.Tree sys projectsDir) [] in
      match err with
      | Some e => (Some e, banner, m, w)
      | None =>
          let '(m, w) :=
            fold_left (fun st filepath =>
                         ProcessConversationFile filepath (fst st) (snd st))
              conversations (m, w) in
          let totalMessages :=
            wrap64 (messageCount_user m + messageCount_assistant m) in
          (None,
           banner ++ [Found (len conversations);
                      Processed (len conversations) totalMessages
                        (messageCount_user m) (messageCount_assistant m)],
           m, w)
      end
  end.
End history.
End history.

(** ** package config: defaults, configuration file, environment *)

Module config.
Import monitor.

(** What [os.ReadFile] gives. *)
Inductive ReadFile : Type :=
  | FileContent (data : string)
  | FileNotExist        (* an error for which [os.IsNotExist] holds *)
  | FileError.          (* any other error *)

(** What the package reads outside itself: [os.Getenv] (the empty
    string for a variable that is not set), [os.UserHomeDir],
    [user.Current] (the user name, or an error), [os.ReadFile],
    [filepath.Join] and [json.Unmarshal] into a zero [Config]. *)
Record Env := {
  Getenv : string -> string;
  UserHomeDir : option string;
  Current : option string;
  ReadFileAt : string -> ReadFile;
  Join : list string -> string;
  Unmarshal : string -> option Config
}.

(** [DefaultConfigDir]. *)
Definition DefaultConfigDir (env : Env) : string :=
  match UserHomeDir env with
  | None => ""
  | Some home => Join env [home; ".claude-langfuse"]
  end.

(** [DefaultConfigFile]. *)
Definition DefaultConfigFile (env : Env) : string :=
  Join env [DefaultConfigDir env; "config.json"].

(** [getEnvOrDefault]. *)
Definition getEnvOrDefault (env : Env) (envVar defaultVal : string) : string :=
  let val := Getenv env envVar in
  if negb (String.eqb val "") then val else defaultVal.

(** [getCurrentUsername]. *)
Definition getCurrentUsername (env : Env) : string :=
  match Current env with
  | None => "unknown"
  | Some username => username
  end.

(** [if fileCfg.X != "" { cfg.X = fileCfg.X }]. *)
Definition merge (fileVal cur : string) : string :=
  if negb (String.eqb fileVal "") then fileVal else cur.

(** [Load]. *)
Definition Load (env : Env) : Config + error :=
  let cfg :=
    {| Host := "http://localhost:3001"; PublicKey := ""; SecretKey := "";
       UserID := getCurrentUsername env; Model := "claude-code";
       Source := "claude_code_monitor"; UserTraceName := "claude_code_user";
       AssistantTraceName := "claude_response" |} in
  let cfg :=
    match ReadFileAt env (DefaultConfigFile env) with
    | FileContent data =>
        match Unmarshal env data with
        | Some fileCfg =>
            {| Host := merge (Host fileCfg) (Host cfg);
               PublicKey := merge (PublicKey fileCfg) (PublicKey cfg);
               SecretKey := merge (SecretKey fileCfg) (SecretKey cfg);
               UserID := merge (UserID fileCfg) (UserID cfg);
               Model := merge (Model fileCfg) (Model cfg);
               Source := merge (Source fileCfg) (Source cfg);
               UserTraceName := merge (UserTraceName fileCfg) (UserTraceName cfg);
               AssistantTraceName :=
                 merge (AssistantTraceName fileCfg) (AssistantTraceName cfg) |}
        | None => cfg
        end
    | _ => cfg
    end in
  inl {| Host := getEnvOrDefault env "LANGFUSE_HOST" (Host cfg);
         PublicKey := getEnvOrDefault env "LANGFUSE_PUBLIC_KEY" (PublicKey cfg);
         SecretKey := getEnvOrDefault env "LANGFUSE_SECRET_KEY" (SecretKey cfg);
         UserID := getEnvOrDefault env "CLAUDE_LANGFUSE_USER_ID" (UserID cfg);
         Model := getEnvOrDefault env "CLAUDE_LANGFUSE_MODEL" (Model cfg);
         Source := getEnvOrDefault env "CLAUDE_LANGFUSE_SOURCE" (Source cfg);
         UserTraceName :=
           getEnvOrDefault env "CLAUDE_LANGFUSE_USER_TRACE_NAME" (UserTraceName cfg);
         AssistantTraceName :=
           getEnvOrDefault env "CLAUDE_LANGFUSE_ASSISTANT_TRACE_NAME"
             (AssistantTraceName cfg) |}.

(** The zero value of [Config]. *)
Definition zero : Config :=
  {| Host := ""; PublicKey := ""; SecretKey := ""; UserID := ""; Model := "";
     Source := ""; UserTraceName := ""; AssistantTraceName := "" |}.

(** [LoadFromFile]. *)
Definition LoadFromFile (env : Env) : Config + error :=
  match ReadFileAt env (DefaultConfigFile env) with
  | FileNotExist => inl zero
  | FileError => inr (ErrOther "read config file")
  | FileContent data =>
      match Unmarshal env data with
      | None => inr (ErrOther "unmarshal config file")
      | Some cfg => inl cfg
      end
  end.

(** [ServiceName]. *)
Definition ServiceName (env : Env) : string :=
  getEnvOrDefault env "CLAUDE_LANGFUSE_SERVICE_NAME" "claude-langfuse-monitor".

(** The first string of a list that is not empty, or the empty string. *)
Fixpoint firstNonEmpty (candidates : list string) : string :=
  match candidates with
  | [] => ""
  | s :: rest => if String.eqb s "" then firstNonEmpty rest else s
  end.

(** What the configuration file says: its decoded content, or the zero
    value when it is missing, unreadable or not a configuration. *)
Definition fileConfig (env : Env) : Config :=
  match ReadFileAt env (DefaultConfigFile env) with
  | FileContent data => default zero (Unmarshal env data)
  | _ => zero
  end.
End config.

(** ** Executable instances of the run-time interfaces

    [Module reference] reads JSON text the way [encoding/json] does for
    the three target types of the monitor, within these limits: string
    literals may use the two-byte escapes but not [\u] escapes, bytes
    are not checked for UTF-8, and member names are matched to field
    names up to ASCII case. As [json.Unmarshal] does, it accepts [null]
    for any target and leaves it unchanged, and it returns an error (an
    UnmarshalTypeError there) when a member does not have the JSON type
    of its field. It is used to run the definitions on concrete input;
    the general theorems hold for every instance of the interfaces. *)

Module reference.

#[local] Set Warnings "-register-all".

(** A JSON value. An object member keeps the bytes of its value, which
    is what a [json.RawMessage] field receives. *)
Inductive Json : Type :=
  | JNull
  | JBool (b : bool)
  | JNumber (literal : string)
  | JString (s : string)
  | JArray (items : list Json)
  | JObject (members : list (string * (string * Json))).

Definition isc (c : ascii) (d : string) : bool :=
  match d with
  | String d0 EmptyString => Ascii.eqb c d0
  | _ => false
  end.

Definition isQuote (c : ascii) : bool := (nat_of_ascii c =? 34)%nat.

Definition isSpace (c : ascii) : bool :=
  isc c " " || (nat_of_ascii c =? 9)%nat || (nat_of_ascii c =? 10)%nat
  || (nat_of_ascii c =? 13)%nat.

Definition isDigit (c : ascii) : bool :=
  (48 <=? nat_of_ascii c)%nat && (nat_of_ascii c <=? 57)%nat.

Fixpoint skipSpace (cs : list ascii) : list ascii :=
  match cs with
  | c :: rest => if isSpace c then skipSpace rest else cs
  | [] => []
  end.

Definition unescape (c : ascii) : option ascii :=
  if isQuote c || isc c "\" || isc c "/" then Some c
  else if isc c "b" then Some (ascii_of_nat 8)
  else if isc c "f" then Some (ascii_of_nat 12)
  else if isc c "n" then Some (ascii_of_nat 10)
  else if isc c "r" then Some (ascii_of_nat 13)
  else if isc c "t" then Some (ascii_of_nat 9)
  else None.

(** The rest of a string literal, after the opening quote. *)
Fixpoint readString (cs : list ascii) : option (string * list ascii) :=
  match cs with
  | [] => None
  | c :: rest =>
      if isQuote c then Some (EmptyString, rest)
      else if isc c "\" then
        match rest with
        | e :: rest' =>
            match unescape e, readString rest' with
            | Some x, Some (s, r) => Some (String x s, r)
            | _, _ => None
            end
        | [] => None
        end
      else if (nat_of_ascii c <? 32)%nat then None
      else
        match readString rest with
        | Some (s, r) => Some (String c s, r)
        | None => None
        end
  end.

Fixpoint spanDigits (cs : list ascii) : list ascii * list ascii :=
  match cs with
  | c :: rest =>
      if isDigit c then let '(ds, r) := spanDigits rest in (c :: ds, r)
      else ([], cs)
  | [] => ([], [])
  end.

(** A number literal: [-? int frac? exp?]. *)
Definition readNumber (cs : list ascii) : option (string * list ascii) :=
  let '(sign, cs1) :=
    match cs with
    | c :: r => if isc c "-" then ([c], r) else ([], cs)
    | [] => ([], cs)
    end in
  let '(int, cs2) := spanDigits cs1 in
  match int with
  | [] => None
  | d :: more =>
      if isc d "0" && negb (match more with [] => true | _ => false end) then None
      else
        let frac :=
          match cs2 with
          | c :: r =>
              if isc c "." then
                let '(f, r') := spanDigits r in
                match f with [] => None | _ => Some (c :: f, r') end
              else Some ([], cs2)
          | [] => Some ([], cs2)
          end in
        match frac with
        | None => None
        | Some (fr, cs3) =>
            let exp :=
              match cs3 with
              | c :: r =>
                  if isc c "e" || isc c "E" then
                    let '(sg, r1) :=
                      match r with
                      | c1 :: r1 => if isc c1 "+" || isc c1 "-" then ([c1], r1) else ([], r)
                      | [] => ([], r)
                      end in
                    let '(ds, r2) := spanDigits r1 in
                    match ds with [] => None | _ => Some (c :: sg ++ ds, r2) end
                  else Some ([], cs3)
              | [] => Some ([], cs3)
              end in
            match exp with
            | None => None
            | Some (ex, cs4) =>
                Some (string_of_list_ascii (sign ++ int ++ fr ++ ex), cs4)
            end
        end
  end.

Fixpoint hasPrefix (word : list ascii) (cs : list ascii) : option (list ascii) :=
  match word, cs with
  | [], _ => Some cs
  | w :: word', c :: cs' => if Ascii.eqb w c then hasPrefix word' cs' else None
  | _ :: _, [] => None
  end.

Definition readLiteral (cs : list ascii) : option (Json * list ascii) :=
  match hasPrefix (list_ascii_of_string "null") cs with
  | Some r => Some (JNull, r)
  | None =>
      match hasPrefix (list_ascii_of_string "true") cs with
      | Some r => Some (JBool true, r)
      | None =>
          match hasPrefix (list_ascii_of_string "false") cs with
          | Some r => Some (JBool false, r)
          | None =>
              match readNumber cs with
              | Some (lit, r) => Some (JNumber lit, r)
              | None => None
              end
          end
      end
  end.

Fixpoint readValue (fuel : nat) (cs : list ascii) {struct fuel}
  : option (Json * list ascii) :=
  match fuel with
  | O => None
  | S fuel' =>
      match skipSpace cs with
      | [] => None
      | c :: rest =>
          if isc c "{" then
            match skipSpace rest with
            | c2 :: rest2 =>
                if isc c2 "}" then Some (JObject [], rest2)
                else
                  match readMembers fuel' (c2 :: rest2) with
                  | Some (ms, r) => Some (JObject ms, r)
                  | None => None
                  end
            | [] => None
            end
          else if isc c "[" then
            match skipSpace rest with
            | c2 :: rest2 =>
                if isc c2 "]" then Some (JArray [], rest2)
                else
                  match readItems fuel' (c2 :: rest2) with
                  | Some (vs, r) => Some (JArray vs, r)
                  | None => None
                  end
            | [] => None
            end
          else if isQuote c then
            match readString rest with
            | Some (s, r) => Some (JString s, r)
            | None => None
            end
          else readLiteral (c :: rest)
      end
  end
with readItems (fuel : nat) (cs : list ascii) {struct fuel}
  : option (list Json * list ascii) :=
  match fuel with
  | O => None
  | S fuel' =>
      match readValue fuel' cs with
      | Some (v, rest) =>
          match skipSpace rest with
          | c :: rest' =>
              if isc c "," then
                match readItems fuel' rest' with
                | Some (vs, r) => Some (v :: vs, r)
                | None => None
                end
              else if isc c "]" then Some ([v], rest')
              else None
          | [] => None
          end
      | None => None
      end
  end
with readMembers (fuel : nat) (cs : list ascii) {struct fuel}
  : option (list (string * (string * Json)) * list ascii) :=
  match fuel with
  | O => None
  | S fuel' =>
      match skipSpace cs with
      | q :: rest =>
          if isQuote q then
            match readString rest with
            | Some (key, rest1) =>
                match skipSpace rest1 with
                | colon :: rest2 =>
                    if isc colon ":" then
                      let start := skipSpace rest2 in
                      match readValue fuel' start with
                      | Some (v, rest3) =>
                          let raw := string_of_list_ascii
                                       (firstn (length start - length rest3) start) in
                          match skipSpace rest3 with
                          | c :: rest4 =>
                              if isc c "," then
                                match readMembers fuel' rest4 with
                                | Some (ms, r) => Some ((key, (raw, v)) :: ms, r)
                                | None => None
                                end
                              else if isc c "}" then Some ([(key, (raw, v))], rest4)
                              else None
                          | [] => None
                          end
                      | None => None
                      end
                    else None
                | [] => None
                end
            | None => None
            end
          else None
      | [] => None
      end
  end.

(** The value a text denotes, if it is one JSON value and nothing else. *)
Definition parse (text : string) : option Json :=
  let cs := list_ascii_of_string text in
  match readValue (2 * length cs + 2) cs with
  | Some (v, rest) =>
      match skipSpace rest with
      | [] => Some v
      | _ => None
      end
  | None => None
  end.

(** *** Decoding into the monitor's types *)

Definition lower (c : ascii) : ascii :=
  let n := nat_of_ascii c in
  if (65 <=? n)%nat && (n <=? 90)%nat then ascii_of_nat (n + 32) else c.

Fixpoint equalFold (a b : string) : bool :=
  match a, b with
  | EmptyString, EmptyString => true
  | String x a', String y b' => Ascii.eqb (lower x) (lower y) && equalFold a' b'
  | _, _ => false
  end.

(** The values of the members that go to the field named [name], in
    the order they appear. *)
Definition membersFor (name : string) (ms : list (string * (string * Json)))
  : list (string * Json) :=
  map snd (filter (fun m => equalFold (fst m) name = true) ms).

(** A [string] field: every member must be a string or [null]; the
    last string wins and [null] leaves the field as it is. *)
Definition stringField (name : string) (ms : list (string * (string * Json)))
  : option string :=
  fold_left
    (fun acc m =>
       match acc, snd m with
       | Some _, JString s => Some s
       | Some cur, JNull => Some cur
       | _, _ => None
       end)
    (membersFor name ms) (Some EmptyString).

(** A [json.RawMessage] field: the bytes of the last member. *)
Definition rawField (name : string) (ms : list (string * (string * Json)))
  : string :=
  fold_left (fun _ m => fst m) (membersFor name ms) EmptyString.

Definition zeroBlock : monitor.ContentBlock :=
  {| monitor.Block_Type := ""; monitor.Block_Text := ""; monitor.Block_Name := "";
     monitor.Block_Input := ""; monitor.Block_Content := "";
     monitor.Block_ToolUseID := "" |}.

Definition decodeBlock (j : Json) : option monitor.ContentBlock :=
  match j with
  | JNull => Some zeroBlock
  | JObject ms =>
      ty ← stringField "type" ms;
      text ← stringField "text" ms;
      name ← stringField "name" ms;
      content ← stringField "content" ms;
      toolUseID ← stringField "tool_use_id" ms;
      Some {| monitor.Block_Type := ty; monitor.Block_Text := text;
              monitor.Block_Name := name; monitor.Block_Input := rawField "input" ms;
              monitor.Block_Content := content;
              monitor.Block_ToolUseID := toolUseID |}
  | _ => None
  end.

Fixpoint decodeBlocks (items : list Json) : option (list monitor.ContentBlock) :=
  match items with
  | [] => Some []
  | j :: rest =>
      b ← decodeBlock j;
      bs ← decodeBlocks rest;
      Some (b :: bs)
  end.

(** A [[]ContentBlock] field: an array replaces it, [null] leaves it. *)
Definition blocksField (name : string) (ms : list (string * (string * Json)))
  : option (list monitor.ContentBlock) :=
  fold_left
    (fun acc m =>
       match acc, snd m with
       | Some _, JArray items => decodeBlocks items
       | Some cur, JNull => Some cur
       | _, _ => None
       end)
    (membersFor name ms) (Some []).

Definition decodeString (j : Json) : option string :=
  match j with
  | JString s => Some s
  | JNull => Some EmptyString
  | _ => None
  end.

Definition decodeMessageContent (j : Json) : option monitor.MessageContent :=
  match j with
  | JNull =>
      Some {| monitor.Message_Text := ""; monitor.Message_Content := [];
              monitor.Message_Model := "" |}
  | JObject ms =>
      text ← stringField "text" ms;
      content ← blocksField "content" ms;
      model ← stringField "model" ms;
      Some {| monitor.Message_Text := text; monitor.Message_Content := content;
              monitor.Message_Model := model |}
  | _ => None
  end.

Definition decodeEntry (j : Json) : option monitor.Entry :=
  match j with
  | JNull =>
      Some {| monitor.Entry_Type := ""; monitor.Entry_UUID := "";
              monitor.Entry_ParentUUID := ""; monitor.Entry_Timestamp := "";
              monitor.Entry_Message := ""; monitor.Entry_GitBranch := "";
              monitor.Entry_Cwd := ""; monitor.Entry_RequestID := "" |}
  | JObject ms =>
      ty ← stringField "type" ms;
      uuid ← stringField "uuid" ms;
      parentUuid ← stringField "parentUuid" ms;
      timestamp ← stringField "timestamp" ms;
      gitBranch ← stringField "gitBranch" ms;
      cwd ← stringField "cwd" ms;
      requestId ← stringField "requestId" ms;
      Some {| monitor.Entry_Type := ty; monitor.Entry_UUID := uuid;
              monitor.Entry_ParentUUID := parentUuid;
              monitor.Entry_Timestamp := timestamp;
              monitor.Entry_Message := rawField "message" ms;
              monitor.Entry_GitBranch := gitBranch; monitor.Entry_Cwd := cwd;
              monitor.Entry_RequestID := requestId |}
  | _ => None
  end.

(** *** json.Indent with an empty prefix and an indent of two spaces *)

Fixpoint spaces (depth : nat) : string :=
  match depth with
  | O => EmptyString
  | S d => "  " +:+ spaces d
  end.

Definition newlineAt (depth : nat) : string := newline +:+ spaces depth.

(** The loop of [appendIndent] over text known to be valid. *)
Fixpoint indentLoop (cs : list ascii) (inString escaped needIndent : bool)
    (depth : nat) : string :=
  match cs with
  | [] => EmptyString
  | c :: rest =>
      if inString then
        String c (indentLoop rest
                    (if escaped then true else negb (isQuote c))
                    (if escaped then false else isc c "\")
                    needIndent depth)
      else if isSpace c then indentLoop rest false false needIndent depth
      else
        let closing := isc c "}" || isc c "]" in
        let opened := needIndent && negb closing in
        let depth1 := if opened then S depth else depth in
        (if opened then newlineAt depth1 else EmptyString) +:+
        (if isc c "{" || isc c "[" then
           String c (indentLoop rest false false true depth1)
         else if isc c "," then
           String c (newlineAt depth1 +:+ indentLoop rest false false false depth1)
         else if isc c ":" then
           String c (" " +:+ indentLoop rest false false false depth1)
         else if closing then
           if needIndent then String c (indentLoop rest false false false depth)
           else newlineAt (pred depth)
                +:+ String c (indentLoop rest false false false (pred depth))
         else String c (indentLoop rest (isQuote c) false false depth1))
  end.

Definition Indent (src : string) : option string :=
  match parse src with
  | Some _ => Some (indentLoop (list_ascii_of_string src) false false false 0)
  | None => None
  end.

(** *** The other calls *)

Definition isBlankByte (c : ascii) : bool :=
  isc c " " || ((9 <=? nat_of_ascii c)%nat && (nat_of_ascii c <=? 13)%nat).

Fixpoint trimLeft (cs : list ascii) : list ascii :=
  match cs with
  | c :: rest => if isBlankByte c then trimLeft rest else cs
  | [] => []
  end.

(** [strings.TrimSpace] for the white space of ASCII. *)
Definition TrimSpace (s : string) : string :=
  string_of_list_ascii
    (rev (trimLeft (rev (trimLeft (list_ascii_of_string s))))).

Fixpoint dropTrailingSlashes (rcs : list ascii) : list ascii :=
  match rcs with
  | c :: rest => if isc c "/" then dropTrailingSlashes rest else rcs
  | [] => []
  end.

Fixpoint takeUntilSlash (rcs : list ascii) : list ascii :=
  match rcs with
  | c :: rest => if isc c "/" then [] else c :: takeUntilSlash rest
  | [] => []
  end.

(** [filepath.Base]. *)
Definition Base (path : string) : string :=
  match path with
  | EmptyString => "."
  | _ =>
      match dropTrailingSlashes (rev (list_ascii_of_string path)) with
      | [] => "/"
      | rcs => string_of_list_ascii (rev (takeUntilSlash rcs))
      end
  end.

Definition digitsValue (ds : list ascii) : option Z :=
  fold_left
    (fun acc c =>
       match acc with
       | Some v => if isDigit c then Some (10 * v + Z.of_nat (nat_of_ascii c - 48)) else None
       | None => None
       end) ds (Some 0).

(** Days from 1970-01-01 to the given civil date. *)
Definition daysFromCivil (y m d : Z) : Z :=
  let y := if m <=? 2 then y - 1 else y in
  let era := y / 400 in
  let yoe := y - era * 400 in
  let doy := (153 * (if m >? 2 then m - 3 else m + 9) + 2) / 5 + d - 1 in
  let doe := yoe * 365 + yoe / 4 - yoe / 100 + doy in
  era * 146097 + doe - 719468.

(** [time.Parse(time.RFC3339, s)] for timestamps of the form
    [2006-01-02T15:04:05Z]; other forms are refused. *)
Definition ParseRFC3339 (s : string) : option Time :=
  let part (from count : nat) := digitsValue (list_ascii_of_string (substring from count s)) in
  if negb ((String.length s =? 20)%nat
           && String.eqb (substring 4 1 s) "-" && String.eqb (substring 7 1 s) "-"
           && String.eqb (substring 10 1 s) "T" && String.eqb (substring 13 1 s) ":"
           && String.eqb (substring 16 1 s) ":" && String.eqb (substring 19 1 s) "Z")
  then None
  else
    y ← part 0%nat 4%nat; mo ← part 5%nat 2%nat; d ← part 8%nat 2%nat;
    h ← part 11%nat 2%nat; mi ← part 14%nat 2%nat; sec ← part 17%nat 2%nat;
    if (1 <=? mo) && (mo <=? 12) && (1 <=? d) && (d <=? 31)
       && (h <=? 23) && (mi <=? 59) && (sec <=? 59)
    then Some ((((daysFromCivil y mo d * 24 + h) * 60 + mi) * 60 + sec) * 1000000000)
    else None.

(** A clock that starts on 2024-06-01T00:00:00Z and advances one
    millisecond per reading. *)
Definition Now (n : nat) : Time := 1717200000000000000 + Z.of_nat n * 1000000.

#[export] Instance runtime : monitor.Runtime := {|
  monitor.json_Unmarshal_string raw := j ← parse raw; decodeString j;
  monitor.json_Unmarshal_MessageContent raw := j ← parse raw; decodeMessageContent j;
  monitor.json_Unmarshal_Entry line := j ← parse line; decodeEntry j;
  monitor.json_Indent := Indent;
  monitor.time_Now := Now;
  monitor.time_Parse_RFC3339 := ParseRFC3339;
  monitor.strings_TrimSpace := TrimSpace;
  monitor.filepath_Base := Base
|}.

(** Text written with an apostrophe where it has a double quote. *)
Definition text (s : string) : string :=
  ReplaceAll s "'"%char (ascii_of_nat 34).

(** *** Sample data, after the repository's tests *)

Definition defaults : monitor.Config :=
  {| monitor.Host := "http://localhost:3001"; monitor.PublicKey := "";
     monitor.SecretKey := ""; monitor.UserID := "unknown";
     monitor.Model := "claude-code"; monitor.Source := "claude_code_monitor";
     monitor.UserTraceName := "claude_code_user";
     monitor.AssistantTraceName := "claude_response" |}.

Definition dryRun : monitor.Options :=
  {| monitor.HistoryHours := 24; monitor.Daemon := false;
     monitor.DryRun := true; monitor.Quiet := true |}.

Definition live : monitor.Options :=
  {| monitor.HistoryHours := 24; monitor.Daemon := false;
     monitor.DryRun := false; monitor.Quiet := true |}.

(** The monitor [New] builds from the default configuration. *)
Definition started (opts : monitor.Options) : monitor.Monitor :=
  {| monitor.options := opts; monitor.config := defaults;
     monitor.client :=
       if negb (monitor.DryRun opts)
       then Some (langfuse.NewClient "http://localhost:3001" "" "")
       else None;
     monitor.processedMessages := ∅; monitor.conversationSessions := ∅;
     monitor.messageCount_user := 0; monitor.messageCount_assistant := 0 |}.

Definition world (fs : gmap string string) : monitor.World :=
  {| monitor.wire := []; monitor.console := []; monitor.clockReads := 0;
     monitor.files := fs |}.

Definition userEntry : monitor.Entry :=
  {| monitor.Entry_Type := "user"; monitor.Entry_UUID := "test-uuid-123";
     monitor.Entry_ParentUUID := "";
     monitor.Entry_Timestamp := "2024-01-01T00:00:00Z";
     monitor.Entry_Message := text "'Test message'";
     monitor.Entry_GitBranch := ""; monitor.Entry_Cwd := "";
     monitor.Entry_RequestID := "" |}.

Definition systemEntry : monitor.Entry :=
  {| monitor.Entry_Type := "system"; monitor.Entry_UUID := "system-uuid";
     monitor.Entry_ParentUUID := "";
     monitor.Entry_Timestamp := "2024-01-01T00:00:00Z";
     monitor.Entry_Message := text "'System message'";
     monitor.Entry_GitBranch := ""; monitor.Entry_Cwd := "";
     monitor.Entry_RequestID := "" |}.

(** *** Systems to start on *)

(** [filepath.Join] for elements that need no cleaning. *)
Definition JoinPath (elems : list string) : string := Join elems "/".

Definition projectsDir : string := "/home/dev/.claude/projects".

(** The projects directory exists, with one project in it. *)
Definition healthy : main.System :=
  {| main.UserHomeDir := Some "/home/dev";
     main.Join := JoinPath;
     main.Stat := fun path =>
       if String.eqb path projectsDir then os.StatOk true else os.StatNotExist;
     main.NewWatcherOk := true;
     main.Tree := fun path =>
       if String.eqb path projectsDir
       then filepath.Dir true
              [("-home-dev-app",
                filepath.Dir true [("conv-123.jsonl", filepath.File)])]
       else filepath.Missing;
     main.AddOk := fun _ => true |}.

(** The same, but no watch handle can be created. *)
Definition noHandle : main.System :=
  {| main.UserHomeDir := main.UserHomeDir healthy; main.Join := JoinPath;
     main.Stat := main.Stat healthy; main.NewWatcherOk := false;
     main.Tree := main.Tree healthy; main.AddOk := main.AddOk healthy |}.

(** The projects directory exists but cannot be opened: [os.Stat] and
    [os.Lstat] are denied and no directory can be registered. *)
Definition denied : main.System :=
  {| main.UserHomeDir := Some "/home/dev"; main.Join := JoinPath;
     main.Stat := fun _ => os.StatError; main.NewWatcherOk := true;
     main.Tree := fun _ => filepath.Missing; main.AddOk := fun _ => false |}.

(** A watcher on the projects directory, as [watcher.New] makes it. *)
Definition watching : watcher.Watcher :=
  {| watcher.rootDir := projectsDir; watcher.watched := ∅;
     watcher.pendingFiles := ∅; watcher.debounceMs := 500 * watcher.Millisecond |}.

(** A trace event with the given id. *)
Definition traceEvent (id : string) : langfuse.Event :=
  {| langfuse.Type_ := "trace-create";
     langfuse.Body_ :=
       langfuse.BodyTrace
         {| langfuse.Trace_ID := id; langfuse.Trace_Name := "claude_code_user";
            langfuse.Trace_SessionID := "session-1"; langfuse.Trace_UserID := "unknown";
            langfuse.Trace_Metadata := ∅; langfuse.Trace_Input := "Hello";
            langfuse.Trace_Timestamp := 1704067200000000000 |} |}.

(** A client that buffers the given events. *)
Definition buffering (evs : list langfuse.Event) : langfuse.Client :=
  langfuse.set_events (langfuse.NewClient "http://localhost:3001" "pk" "sk") evs.

Definition nineEvents : list langfuse.Event :=
  map traceEvent ["m1"; "m2"; "m3"; "m4"; "m5"; "m6"; "m7"; "m8"; "m9"].

(** The file of the repository's test with an invalid line. *)
Definition conversationPath : string := "/tmp/projects/test-project/conv-123.jsonl".

(** A text of [n] times the byte [c]. *)
Fixpoint filler (n : nat) (c : ascii) : string :=
  match n with
  | O => EmptyString
  | S n' => String c (filler n' c)
  end.

Definition validUserLine : string :=
  text "{'type':'user','uuid':'valid-msg','message':'Hello','timestamp':'2024-01-01T00:00:00Z'}".

Definition toolUsePayload : string :=
  text "{'content':[{'type':'tool_use','name':'Read','input':{'file_path':'/test.js'}}]}".

(** *** Remote ends *)

(** The body sent for a batch, abridged to the kinds and ids of its events. *)
Definition Marshal (evs : list langfuse.Event) : option string :=
  Some ("batch: "
        +:+ Join (map (fun ev => langfuse.Type_ ev +:+ " "
                                 +:+ langfuse.Body_ID (langfuse.Body_ ev)) evs) ", ").

(** An endpoint that answers every request with the given reply. *)
Definition answering (reply : langfuse.Reply) : langfuse.Transport := {|
  langfuse.json_Marshal := Marshal;
  langfuse.http_NewRequest := fun _ => true;
  langfuse.http_Do := fun _ _ => reply
|}.

Definition accepting : langfuse.Transport := answering (langfuse.Response 200).

Definition refusing : langfuse.Transport := answering (langfuse.Response 500).

Definition unreachable : langfuse.Transport := answering langfuse.TransportError.

End reference.

(** ** Further sample data *)

Module scenario.

(** The trace [reference.traceEvent id] carries. *)
Definition trace (id : string) : langfuse.Trace :=
  {| langfuse.Trace_ID := id; langfuse.Trace_Name := "claude_code_user";
     langfuse.Trace_SessionID := "session-1"; langfuse.Trace_UserID := "unknown";
     langfuse.Trace_Metadata := ∅; langfuse.Trace_Input := "Hello";
     langfuse.Trace_Timestamp := 1704067200000000000 |}.

(** Twelve traces handed to the client one after the other. *)
Definition twelveTraces : list session.Op :=
  map (fun id => session.OpCreateTrace (trace id))
    ["m1"; "m2"; "m3"; "m4"; "m5"; "m6"; "m7"; "m8"; "m9"; "m10"; "m11"; "m12"].

(** An assistant entry whose payload names its model. *)
Definition assistantEntry : monitor.Entry :=
  {| monitor.Entry_Type := "assistant"; monitor.Entry_UUID := "reply-1";
     monitor.Entry_ParentUUID := "test-uuid-123";
     monitor.Entry_Timestamp := "2024-01-01T00:00:05Z";
     monitor.Entry_Message :=
       reference.text
         "{'model':'claude-opus-4','content':[{'type':'text','text':'Hi there'}]}";
     monitor.Entry_GitBranch := ""; monitor.Entry_Cwd := "";
     monitor.Entry_RequestID := "req-1" |}.

(** The conversation file of [reference.healthy]. *)
Definition conversation : string :=
  "/home/dev/.claude/projects/-home-dev-app/conv-123.jsonl".

(** Every file was modified one hour before the first clock reading. *)
Definition modTime (path : string) : Time := reference.Now 0 - history.Hour.

(** The user entry processed twice, as a watcher that fires twice does. *)
Definition twice : list monitor.Call :=
  [monitor.CallProcessMessage reference.userEntry "session-1" "/test/project" "conv-1";
   monitor.CallProcessMessage reference.userEntry "session-1" "/test/project" "conv-1"].

(** A write to the conversation file, then ticks every 100 ms. *)
Definition writeThenTicks : list watcher.Activation :=
  watcher.FsEvent {| watcher.Name := conversation; watcher.Op := watcher.Write |}
    (Some false) 0
  :: map (fun t => watcher.Tick (t * watcher.Millisecond)) [100; 200; 300; 400; 500; 600].

(** A file with a user entry, a line that is not JSON, the same entry
    again and a second user entry. *)
Definition secondUserLine : string :=
  reference.text
    "{'type':'user','uuid':'second-msg','message':'Again','timestamp':'2024-01-01T00:01:00Z'}".

Definition fourLines : string :=
  reference.validUserLine +:+ newline +:+ "invalid json" +:+ newline
  +:+ reference.validUserLine +:+ newline +:+ secondUserLine +:+ newline.

(** [json.Unmarshal] into a zero [config.Config]. *)
Definition decodeConfig (data : string) : option monitor.Config :=
  j ← reference.parse data;
  match j with
  | reference.JNull => Some config.zero
  | reference.JObject ms =>
      host ← reference.stringField "host" ms;
      publicKey ← reference.stringField "publicKey" ms;
      secretKey ← reference.stringField "secretKey" ms;
      userId ← reference.stringField "userId" ms;
      model ← reference.stringField "model" ms;
      source ← reference.stringField "source" ms;
      userTraceName ← reference.stringField "userTraceName" ms;
      assistantTraceName ← reference.stringField "assistantTraceName" ms;
      Some {| monitor.Host := host; monitor.PublicKey := publicKey;
              monitor.SecretKey := secretKey; monitor.UserID := userId;
              monitor.Model := model; monitor.Source := source;
              monitor.UserTraceName := userTraceName;
              monitor.AssistantTraceName := assistantTraceName |}
  | _ => None
  end.

(** A user "dev" whose configuration file sets the host, the public
    key and the model, with a host and a secret key in the environment. *)
Definition environment : config.Env :=
  {| config.Getenv := fun name =>
       if String.eqb name "LANGFUSE_HOST" then "http://test:3000"
       else if String.eqb name "LANGFUSE_SECRET_KEY" then "sk-test"
       else "";
     config.UserHomeDir := Some "/home/dev";
     config.Current := Some "dev";
     config.ReadFileAt := fun path =>
       if String.eqb path "/home/dev/.claude-langfuse/config.json"
       then config.FileContent
              (reference.text
                 "{'host':'http://file:3001','publicKey':'pk-file','model':'claude-file'}")
       else config.FileNotExist;
     config.Join := reference.JoinPath;
     config.Unmarshal := decodeConfig |}.
End scenario.

(** * Properties *)

(** ** The digest used for session ids *)

Example md5_empty : md5.EncodeToString (md5.Sum "") = "d41d8cd98f00b204e9800998ecf8427e".
Proof. vm_compute. reflexivity. Qed.

Example md5_abc : md5.EncodeToString (md5.Sum "abc") = "900150983cd24fb0d6963f7d28e17f72".
Proof. vm_compute. reflexivity. Qed.

(** ** The delivery client *)

(** Two wires that differ by their last request. *)
Ltac wire_absurd :=
  match goal with
  | H : ?w = ?w ++ [_] |- _ =>
      apply (f_equal length) in H; rewrite length_app in H; simpl in H; lia
  end.

Ltac wire_inj :=
  match goal with
  | H : ?w ++ [_] = ?w ++ [_] |- _ => apply app_inj_tail in H; destruct H as [_ H]
  end.

Section client_facts.
Context `{langfuse.Transport}.
Import langfuse.

Lemma delivered_snoc (w : Wire) (p : Post) :
  delivered (w ++ [p]) = delivered w ++ (if accepted p then post_batch p else []).
Proof.
  unfold delivered. rewrite filter_app, map_app, concat_app. f_equal.
  destruct (accepted p) eqn:E.
  - rewrite filter_cons_True by done. simpl. by rewrite app_nil_r.
  - rewrite filter_cons_False by congruence. done.
Qed.

Lemma len_nil_iff {A} (l : list A) : (len l =? 0) = true <-> l = [].
Proof.
  unfold len. rewrite Z.eqb_eq. destruct l; simpl; split; intros; try done; lia.
Qed.

(** A flush of a non-empty buffer that can be marshalled and addressed
    issues exactly one POST, which carries the whole buffer. *)
Lemma flushLocked_posts_once (c : Client) (w : Wire) (body : string) :
  events c <> [] ->
  json_Marshal (events c) = Some body ->
  http_NewRequest (baseURL c +:+ "/api/public/ingestion") = true ->
  snd (flushLocked c w)
  = w ++ [{| post_request := requestOf c body; post_batch := events c;
             post_reply := http_Do (length w) (requestOf c body) |}].
Proof.
  intros Hne Hm Hr. unfold flushLocked.
  destruct (len (events c) =? 0) eqn:E; [apply len_nil_iff in E; done|].
  rewrite Hm, Hr. simpl. fold (requestOf c body).
  destruct (http_Do (length w) (requestOf c body)) as [|st]; [done|].
  by destruct (st >=? 400).
Qed.

(** The wire only grows, by at most the one POST of this flush. *)
Lemma flushLocked_wire (c : Client) (w : Wire) :
  snd (flushLocked c w) = w
  \/ exists p, snd (flushLocked c w) = w ++ [p] /\ post_batch p = events c.
Proof.
  unfold flushLocked.
  destruct (len (events c) =? 0); [by left|].
  destruct (json_Marshal (events c)) as [body|]; [|by left].
  destruct (http_NewRequest _); simpl; [|by left].
  right. destruct (http_Do _ _) as [|st]; [by eexists|].
  destruct (st >=? 400); by eexists.
Qed.

(** A flush loses nothing: what was accepted or buffered before is
    accepted or buffered after, in the same order. *)
Lemma flushLocked_outbound (c : Client) (w : Wire) :
  outbound (snd (fst (flushLocked c w))) (snd (flushLocked c w)) = outbound c w.
Proof.
  unfold flushLocked, outbound.
  destruct (len (events c) =? 0); [done|].
  destruct (json_Marshal (events c)) as [body|]; [|done].
  destruct (http_NewRequest _); simpl; [|done].
  destruct (http_Do _ _) as [|st] eqn:Hr.
  - simpl. rewrite delivered_snoc. unfold accepted. simpl.
    by rewrite app_nil_r.
  - destruct (st >=? 400) eqn:Hs; simpl; rewrite delivered_snoc;
      unfold accepted; simpl; rewrite Hs; simpl.
    + by rewrite app_nil_r.
    + by rewrite app_nil_r.
Qed.

Lemma flushLocked_batchSize (c : Client) (w : Wire) :
  batchSize (snd (fst (flushLocked c w))) = batchSize c.
Proof.
  unfold flushLocked.
  destruct (len (events c) =? 0); [done|].
  destruct (json_Marshal (events c)); [|done].
  destruct (http_NewRequest _); simpl; [|done].
  destruct (http_Do _ _) as [|st]; [done|]. by destruct (st >=? 400).
Qed.

(** The batch size is the one [NewClient] set, whatever is called. *)
Lemma NewClient_batchSize (baseURL publicKey secretKey : string) :
  batchSize (NewClient baseURL publicKey secretKey) = 10.
Proof. reflexivity. Qed.

Lemma CreateTrace_batchSize (t : Trace) (c : Client) (w : Wire) :
  batchSize (snd (fst (CreateTrace t c w))) = batchSize c.
Proof.
  unfold CreateTrace. destruct (_ >=? _); [|done].
  by rewrite flushLocked_batchSize.
Qed.

Lemma CreateGeneration_batchSize (g : Generation) (c : Client) (w : Wire) :
  batchSize (snd (fst (CreateGeneration g c w))) = batchSize c.
Proof.
  unfold CreateGeneration. destruct (_ >=? _); [|done].
  by rewrite flushLocked_batchSize.
Qed.

(** Only an accepted POST empties a buffer that held events. *)
Lemma flushLocked_empties_on_acceptance (c : Client) (w : Wire) :
  events c <> [] -> events (snd (fst (flushLocked c w))) = [] ->
  exists p, snd (flushLocked c w) = w ++ [p]
            /\ post_batch p = events c /\ accepted p = true.
Proof.
  unfold flushLocked. intros Hne.
  destruct (len (events c) =? 0); [done|].
  destruct (json_Marshal (events c)) as [body|]; [|done].
  destruct (http_NewRequest _); simpl; [|done].
  destruct (http_Do _ _) as [|st] eqn:Hr; [done|].
  destruct (st >=? 400) eqn:Hs; [done|]. simpl. intros _.
  eexists. split; [reflexivity|]. split; [done|].
  unfold accepted. simpl. by rewrite Hs.
Qed.

(** An error from a flush leaves the client as it was. *)
Lemma flushLocked_error_keeps (c : Client) (w : Wire) :
  fst (fst (flushLocked c w)) <> None -> snd (fst (flushLocked c w)) = c.
Proof.
  unfold flushLocked.
  destruct (len (events c) =? 0); [done|].
  destruct (json_Marshal (events c)); [|done].
  destruct (http_NewRequest _); simpl; [|done].
  destruct (http_Do _ _) as [|st]; [done|]. by destruct (st >=? 400).
Qed.
End client_facts.

Section client_claims.
Context `{langfuse.Transport}.
Import langfuse.

(** C2. A flush of an empty buffer does nothing and succeeds. When the
    POST of a flush fails in transport or is answered with a status of
    400 or more, the flush returns an error and the client, its buffer
    included, is exactly as before; when it is answered with a status
    below 400, the flush succeeds and the whole buffer is dropped at
    once. Whatever the cause, a flush that returns an error keeps the
    buffer. *)
Theorem flush_keeps_or_clears (c : Client) (w : Wire) :
  (events c = [] -> Flush c w = (None, c, w))
  /\ (forall err c' w' p,
        Flush c w = (err, c', w') -> w' = w ++ [p] ->
        (post_reply p = TransportError
         \/ exists status, post_reply p = Response status /\ 400 <= status) ->
        (exists e, err = Some e) /\ c' = c /\ events c' = events c)
  /\ (forall err c' w' p status,
        Flush c w = (err, c', w') -> w' = w ++ [p] ->
        post_reply p = Response status -> status < 400 ->
        err = None /\ events c' = [] /\ c' = set_events c []
        /\ post_batch p = events c)
  /\ (forall err c' w',
        Flush c w = (err, c', w') -> err <> None -> events c' = events c).
Proof.
  unfold Flush, flushLocked.
  destruct (len (events c) =? 0) eqn:E.
  { apply len_nil_iff in E.
    repeat split; intros; simplify_eq; try wire_absurd; done. }
  assert (events c <> []) as Hne
    by (intros X; apply len_nil_iff in X; congruence).
  destruct (json_Marshal (events c)) as [body|];
    [|repeat split; intros; simplify_eq; try wire_absurd; done].
  destruct (http_NewRequest _); simpl;
    [|repeat split; intros; simplify_eq; try wire_absurd; done].
  destruct (http_Do _ _) as [|st] eqn:R.
  { repeat split; intros; simplify_eq; try wire_inj; simpl in *;
      try congruence; eauto. }
  destruct (st >=? 400) eqn:S.
  - apply Z.geb_le in S.
    repeat split; intros; simplify_eq; try wire_inj; simpl in *;
      simplify_eq; try lia; eauto.
  - rewrite Z.geb_leb in S. apply Z.leb_gt in S.
    repeat split; intros; simplify_eq; try wire_inj; simpl in *;
      simplify_eq; try lia; eauto; try done.
    all: match goal with
         | Hd : _ \/ _ |- _ => destruct Hd as [|(? & ? & ?)]; simplify_eq; lia
         end.
Qed.

(** C6. [CreateTrace] and [CreateGeneration] append the event to the
    buffer. When the buffer then holds at least 10 events, the call is
    a flush of that buffer, made before it returns; when it holds
    fewer, nothing is sent, the call succeeds and the buffer is left
    non-empty, ending with the event. In both cases the event joins
    the outbound events and nothing else changes among them. *)
Theorem enqueue_flushes_at_threshold (c : Client) (w : Wire)
    (Hsize : batchSize c = 10) :
  (forall trace,
     let ev := {| Type_ := "trace-create"; Body_ := BodyTrace trace |} in
     let c1 := set_events c (events c ++ [ev]) in
     (10 <= len (events c1) -> CreateTrace trace c w = flushLocked c1 w)
     /\ (len (events c1) < 10 ->
         CreateTrace trace c w = (None, c1, w) /\ events c1 <> [])
     /\ outbound (snd (fst (CreateTrace trace c w))) (snd (CreateTrace trace c w))
        = outbound c w ++ [ev])
  /\ (forall gen,
     let ev := {| Type_ := "generation-create"; Body_ := BodyGeneration gen |} in
     let c1 := set_events c (events c ++ [ev]) in
     (10 <= len (events c1) -> CreateGeneration gen c w = flushLocked c1 w)
     /\ (len (events c1) < 10 ->
         CreateGeneration gen c w = (None, c1, w) /\ events c1 <> [])
     /\ outbound (snd (fst (CreateGeneration gen c w)))
                 (snd (CreateGeneration gen c w))
        = outbound c w ++ [ev]).
Proof.
  split; intros x ev c1; unfold CreateTrace, CreateGeneration;
    fold ev; fold c1; replace (batchSize c1) with 10 by (symmetry; exact Hsize).
  all: destruct (len (events c1) >=? 10) eqn:E;
    [apply Z.geb_le in E | rewrite Z.geb_leb in E; apply Z.leb_gt in E].
  all: repeat split; try done; try lia.
  all: try (intros X; apply (f_equal length) in X; subst c1; simpl in X;
            rewrite length_app in X; simpl in X; lia).
  all: try rewrite flushLocked_outbound.
  all: unfold outbound; subst c1; simpl; by rewrite app_assoc.
Qed.
End client_claims.

(** ** The message processor and its ledger *)

Section monitor_facts.
Context `{langfuse.Transport} `{monitor.Runtime}.
Import monitor.

Lemma processed_insert (m : Monitor) (uuid id : string) :
  processed (set_processedMessages m (<[uuid := true]> (processedMessages m))) id
  = if decide (uuid = id) then true else processed m id.
Proof.
  unfold processed. simpl. rewrite lookup_insert. by case_decide.
Qed.

(** An id in the ledger makes [ProcessMessage] return at once. *)
Lemma ProcessMessage_known (entry : Entry) (sid pp cid : string)
    (m : Monitor) (w : World) :
  processed m (Entry_UUID entry) = true ->
  ProcessMessage entry sid pp cid m w = (m, w).
Proof.
  intros Hp. unfold ProcessMessage.
  destruct (negb _ && negb _); [done|].
  destruct (String.eqb (Entry_UUID entry) ""); [done|].
  by rewrite Hp.
Qed.

Lemma ProcessMessage_deliver_ledger (entry : Entry) (sid pp cid text : string)
    (ts : Time) (c : langfuse.Client) (m : Monitor) (w : World) :
  let st := ProcessMessage_deliver entry sid pp cid text ts c m w in
  ledger (fst st) = ledger m
  /\ options (fst st) = options m /\ config (fst st) = config m
  /\ files (snd st) = files w /\ clockReads (snd st) = clockReads w
  /\ (client m <> None -> client (fst st) <> None).
Proof.
  unfold ProcessMessage_deliver.
  destruct (String.eqb (Entry_Type entry) "user").
  { destruct (langfuse.CreateTrace _ _ _) as [[[e|] c'] w']; simpl; done. }
  destruct (String.eqb (Entry_Type entry) "assistant"); [|done].
  destruct (langfuse.CreateGeneration _ _ _) as [[[e|] c'] w']; simpl; done.
Qed.

Lemma CreateTrace_outbound (t : langfuse.Trace) (c : langfuse.Client)
    (w : langfuse.Wire) :
  langfuse.outbound (snd (fst (langfuse.CreateTrace t c w)))
                    (snd (langfuse.CreateTrace t c w))
  = langfuse.outbound c w
    ++ [{| langfuse.Type_ := "trace-create"; langfuse.Body_ := langfuse.BodyTrace t |}].
Proof.
  unfold langfuse.CreateTrace.
  destruct (_ >=? _).
  - rewrite flushLocked_outbound. unfold langfuse.outbound. simpl.
    by rewrite app_assoc.
  - unfold langfuse.outbound. simpl. by rewrite app_assoc.
Qed.

Lemma CreateGeneration_outbound (g : langfuse.Generation) (c : langfuse.Client)
    (w : langfuse.Wire) :
  langfuse.outbound (snd (fst (langfuse.CreateGeneration g c w)))
                    (snd (langfuse.CreateGeneration g c w))
  = langfuse.outbound c w
    ++ [{| langfuse.Type_ := "generation-create";
           langfuse.Body_ := langfuse.BodyGeneration g |}].
Proof.
  unfold langfuse.CreateGeneration.
  destruct (_ >=? _).
  - rewrite flushLocked_outbound. unfold langfuse.outbound. simpl.
    by rewrite app_assoc.
  - unfold langfuse.outbound. simpl. by rewrite app_assoc.
Qed.

(** Delivery of a user or assistant entry emits exactly one event,
    which carries the entry's id, whatever the client answers. *)
Lemma ProcessMessage_deliver_emitted (entry : Entry) (sid pp cid text : string)
    (ts : Time) (c : langfuse.Client) (m : Monitor) (w : World) :
  client m = Some c ->
  Entry_Type entry = "user" \/ Entry_Type entry = "assistant" ->
  let st := ProcessMessage_deliver entry sid pp cid text ts c m w in
  exists ev, emitted (fst st) (snd st) = emitted m w ++ [ev]
             /\ langfuse.Body_ID (langfuse.Body_ ev) = Entry_UUID entry.
Proof.
  intros Hc Hk. unfold ProcessMessage_deliver, emitted. rewrite Hc.
  destruct (String.eqb (Entry_Type entry) "user") eqn:Eu.
  { match goal with |- context [langfuse.CreateTrace ?t c (wire w)] =>
      pose proof (CreateTrace_outbound t c (wire w)) as Ho;
      destruct (langfuse.CreateTrace t c (wire w)) as [[[e|] c'] w'] eqn:Ec
    end; simpl in *; eexists; (split; [exact Ho|done]). }
  destruct Hk as [Hk|Hk]; [rewrite Hk in Eu; done|].
  rewrite Hk. simpl.
  match goal with |- context [langfuse.CreateGeneration ?t c (wire w)] =>
    pose proof (CreateGeneration_outbound t c (wire w)) as Ho;
    destruct (langfuse.CreateGeneration t c (wire w)) as [[[e|] c'] w'] eqn:Ec
  end; simpl in *; eexists; (split; [exact Ho|done]).
Qed.

(** [ProcessMessage] on an entry that passes the guards and is not in
    the ledger: the id is inserted and the message counted in [m1]
    before anything is handed to the client, and the client works on
    [m1]. *)
Lemma ProcessMessage_fresh (entry : Entry) (sid pp cid : string)
    (m : Monitor) (w : World) :
  Entry_Type entry = "user" \/ Entry_Type entry = "assistant" ->
  Entry_UUID entry <> "" ->
  processed m (Entry_UUID entry) = false ->
  exists m1 w1 text ts,
    processedMessages m1 = <[Entry_UUID entry := true]> (processedMessages m)
    /\ conversationSessions m1 = conversationSessions m
    /\ options m1 = options m /\ config m1 = config m /\ client m1 = client m
    /\ (Entry_Type entry = "user" ->
        messageCount_user m1 = int_incr (messageCount_user m)
        /\ messageCount_assistant m1 = messageCount_assistant m)
    /\ (Entry_Type entry = "assistant" ->
        messageCount_user m1 = messageCount_user m
        /\ messageCount_assistant m1 = int_incr (messageCount_assistant m))
    /\ wire w1 = wire w /\ files w1 = files w
    /\ clockReads w1 = S (clockReads w)
    /\ ProcessMessage entry sid pp cid m w
       = match client m1 with
         | Some c =>
             if DryRun (options m1) then (m1, w1)
             else ProcessMessage_deliver entry sid pp cid text ts c m1 w1
         | None => (m1, w1)
         end.
Proof.
  intros Hk Hid Hp. unfold ProcessMessage. cbv zeta.
  assert (negb (String.eqb (Entry_Type entry) "user")
          && negb (String.eqb (Entry_Type entry) "assistant") = false) as ->
    by (destruct Hk as [->| ->]; done).
  apply String.eqb_neq in Hid. rewrite Hid, Hp.
  destruct (String.eqb (Entry_Type entry) "user") eqn:Eu;
    destruct (negb (Quiet (options _)));
    (eexists _, _, _, _; split_and!; [..|reflexivity]; simpl; try done).
  all: try (intros X; rewrite X in Eu; done).
  all: try (apply String.eqb_eq in Eu; rewrite Eu; done).
Qed.

(** Every call of [ProcessMessage] is either a return at a guard or
    the processing of a fresh entry. *)
Lemma ProcessMessage_guards (entry : Entry) (sid pp cid : string)
    (m : Monitor) (w : World) :
  ProcessMessage entry sid pp cid m w = (m, w)
  \/ ((Entry_Type entry = "user" \/ Entry_Type entry = "assistant")
      /\ Entry_UUID entry <> ""
      /\ processed m (Entry_UUID entry) = false).
Proof.
  unfold ProcessMessage.
  destruct (String.eqb (Entry_Type entry) "user") eqn:Eu;
    destruct (String.eqb (Entry_Type entry) "assistant") eqn:Ea; simpl;
    try (by left).
  all: destruct (String.eqb (Entry_UUID entry) "") eqn:Ei; [by left|].
  all: destruct (processed m (Entry_UUID entry)) eqn:Ep; [by left|].
  all: right; apply String.eqb_neq in Ei; repeat split; try done.
  all: try apply String.eqb_eq in Eu; try apply String.eqb_eq in Ea; auto.
Qed.

(** The result of processing a fresh entry, read off the ledger. *)
Lemma ProcessMessage_fresh_ledger (entry : Entry) (sid pp cid : string)
    (m : Monitor) (w : World) :
  Entry_Type entry = "user" \/ Entry_Type entry = "assistant" ->
  Entry_UUID entry <> "" ->
  processed m (Entry_UUID entry) = false ->
  let m' := fst (ProcessMessage entry sid pp cid m w) in
  processedMessages m' = <[Entry_UUID entry := true]> (processedMessages m)
  /\ conversationSessions m' = conversationSessions m
  /\ options m' = options m /\ config m' = config m
  /\ (client m = None <-> client m' = None)
  /\ (Entry_Type entry = "user" ->
      messageCount_user m' = int_incr (messageCount_user m)
      /\ messageCount_assistant m' = messageCount_assistant m)
  /\ (Entry_Type entry = "assistant" ->
      messageCount_user m' = messageCount_user m
      /\ messageCount_assistant m' = int_incr (messageCount_assistant m)).
Proof.
  intros Hk Hid Hp.
  destruct (ProcessMessage_fresh entry sid pp cid m w Hk Hid Hp)
    as (m1 & w1 & text & ts & H1 & H2 & H3 & H4 & H5 & H6 & H7 & _ & _ & _ & Heq).
  simpl. rewrite Heq. clear Heq.
  assert (forall m2 : Monitor,
            ledger m2 = ledger m1 -> options m2 = options m1 ->
            config m2 = config m1 -> (client m1 = None <-> client m2 = None) ->
            processedMessages m2 = <[Entry_UUID entry := true]> (processedMessages m)
            /\ conversationSessions m2 = conversationSessions m
            /\ options m2 = options m /\ config m2 = config m
            /\ (client m = None <-> client m2 = None)
            /\ (Entry_Type entry = "user" ->
                messageCount_user m2 = int_incr (messageCount_user m)
                /\ messageCount_assistant m2 = messageCount_assistant m)
            /\ (Entry_Type entry = "assistant" ->
                messageCount_user m2 = messageCount_user m
                /\ messageCount_assistant m2 = int_incr (messageCount_assistant m)))
    as Hall.
  { intros m2 Hl Ho Hc Hcl. unfold ledger in Hl. simplify_eq.
    rewrite <- H5. split_and!; try congruence; try done.
    - intros X. destruct (H6 X). split; congruence.
    - intros X. destruct (H7 X). split; congruence. }
  destruct (client m1) as [c|] eqn:Ec; [|apply Hall; done || tauto].
  destruct (DryRun (options m1));
    [apply Hall; simpl; rewrite ?Ec; first [done | tauto]|].
  pose proof (ProcessMessage_deliver_ledger entry sid pp cid text ts c m1 w1)
    as (Hl & Ho & Hc & _ & _ & Hcl).
  apply Hall; try done.
  split; [done|]. intros X. exfalso. apply Hcl; [by rewrite Ec|done].
Qed.

(** What processing a fresh entry adds to the outbound events. *)
Lemma ProcessMessage_fresh_emitted (entry : Entry) (sid pp cid : string)
    (m : Monitor) (w : World) :
  Entry_Type entry = "user" \/ Entry_Type entry = "assistant" ->
  Entry_UUID entry <> "" ->
  processed m (Entry_UUID entry) = false ->
  let st := ProcessMessage entry sid pp cid m w in
  (client m <> None -> DryRun (options m) = false ->
   exists ev, emitted (fst st) (snd st) = emitted m w ++ [ev]
              /\ langfuse.Body_ID (langfuse.Body_ ev) = Entry_UUID entry)
  /\ (client m = None \/ DryRun (options m) = true ->
      emitted (fst st) (snd st) = emitted m w).
Proof.
  intros Hk Hid Hp.
  destruct (ProcessMessage_fresh entry sid pp cid m w Hk Hid Hp)
    as (m1 & w1 & text & ts & _ & _ & Ho & _ & Hc & _ & _ & Hw & _ & _ & Heq).
  simpl. rewrite Heq. clear Heq.
  assert (emitted m1 w1 = emitted m w) as Hem
    by (unfold emitted; by rewrite Hc, Hw).
  rewrite Ho, Hc. split.
  - intros Hsome Hdry. rewrite Hdry.
    destruct (client m) as [c|] eqn:Ec; [|done].
    rewrite <- Hem.
    apply ProcessMessage_deliver_emitted; [congruence|done].
  - intros [Hnone|Hdry].
    + by rewrite Hnone.
    + rewrite Hdry. by destruct (client m).
Qed.

Lemma ProcessMessage_processed_mono (entry : Entry) (sid pp cid id : string)
    (m : Monitor) (w : World) :
  processed m id = true ->
  processed (fst (ProcessMessage entry sid pp cid m w)) id = true.
Proof.
  intros Hp.
  destruct (ProcessMessage_guards entry sid pp cid m w) as [->|(Hk & Hid & Hf)];
    [done|].
  destruct (ProcessMessage_fresh_ledger entry sid pp cid m w Hk Hid Hf) as (Hpm & _).
  unfold processed in *. rewrite Hpm, lookup_insert. by case_decide.
Qed.

(** A property of the monitor object that [ProcessMessage] keeps is
    kept by the scanner loop. *)
Lemma lines_loop_keeps (P : Monitor -> Prop) :
  (forall entry sid pp cid m w,
      P m -> P (fst (ProcessMessage entry sid pp cid m w))) ->
  forall lines sid pp cid m w,
    P m -> P (fst (fold_left (ProcessConversationFile_line sid pp cid) lines (m, w))).
Proof.
  intros Hpm lines sid pp cid.
  induction lines as [|line lines IH]; intros m w HP; [done|].
  simpl. unfold ProcessConversationFile_line at 2. simpl.
  destruct (String.eqb _ ""); [by apply IH|].
  destruct (json_Unmarshal_Entry line) as [entry|]; [|by apply IH].
  destruct (ProcessMessage entry sid pp cid m w) as [m' w'] eqn:E.
  apply IH. change m' with (fst (m', w')). rewrite <- E. by apply Hpm.
Qed.

(** A property of the monitor object that [ProcessMessage] keeps, and
    that does not depend on the session cache, is kept by
    [ProcessConversationFile]. *)
Lemma ProcessConversationFile_keeps (P : Monitor -> Prop) :
  (forall entry sid pp cid m w,
      P m -> P (fst (ProcessMessage entry sid pp cid m w))) ->
  (forall m s, P m -> P (set_conversationSessions m s)) ->
  forall filepath m w, P m -> P (fst (ProcessConversationFile filepath m w)).
Proof.
  intros Hpm Hcs filepath m w HP. unfold ProcessConversationFile.
  destruct (_ || _); [done|].
  match goal with
  | |- context [match conversationSessions m !! filepath with _ => _ end] =>
      destruct (conversationSessions m !! filepath) as [sessionID|]
  end.
  - destruct (files w !! filepath) as [content|]; [|done].
    by apply lines_loop_keeps.
  - destruct (files w !! filepath) as [content|]; [|by apply Hcs].
    apply lines_loop_keeps; [done|]. by apply Hcs.
Qed.

Lemma Shutdown_ledger (m : Monitor) (w : World) :
  ledger (snd (fst (Shutdown m w))) = ledger m.
Proof.
  unfold Shutdown. destruct (client m) as [c|]; [|done].
  by destruct (langfuse.Shutdown c (wire w)) as [[e c'] w'].
Qed.

(** No call removes an id from the ledger. *)
Lemma calls_processed_mono (cs : list Call) (st : Monitor * World) (id : string) :
  processed (fst st) id = true -> processed (fst (calls cs st)) id = true.
Proof.
  revert st. induction cs as [|c cs IH]; intros st Hp; [done|].
  simpl. apply IH. destruct c; simpl.
  - apply (ProcessConversationFile_keeps (fun m => processed m id = true));
      [intros; by apply ProcessMessage_processed_mono|done|done].
  - by apply ProcessMessage_processed_mono.
  - pose proof (Shutdown_ledger (fst st) (snd st)) as Hl.
    destruct (Shutdown (fst st) (snd st)) as [[e m'] w']. simpl in *.
    unfold ledger in Hl. unfold processed in *. simplify_eq. congruence.
  - done.
Qed.

(** C3. An entry whose kind is neither user nor assistant, or whose id
    is empty, leaves everything as it was, whatever its other fields:
    the ledger, both counters, the client's buffer and the outbound
    events. *)
Theorem ProcessMessage_rejects_other_kinds_and_empty_ids
    (entry : Entry) (sid pp cid : string) (m : Monitor) (w : World) :
  (Entry_Type entry <> "user" /\ Entry_Type entry <> "assistant")
  \/ Entry_UUID entry = "" ->
  let st := ProcessMessage entry sid pp cid m w in
  st = (m, w)
  /\ processedMessages (fst st) = processedMessages m
  /\ MessageStats (fst st) = MessageStats m
  /\ client (fst st) = client m
  /\ emitted (fst st) (snd st) = emitted m w.
Proof.
  intros Hr.
  assert (ProcessMessage entry sid pp cid m w = (m, w)) as ->; [|done].
  unfold ProcessMessage. destruct Hr as [[Hu Ha]|Hid].
  - apply String.eqb_neq in Hu, Ha. by rewrite Hu, Ha.
  - rewrite Hid. simpl. by destruct (negb _ && negb _).
Qed.

(** C1, as the code has it. For an entry of kind user or assistant
    with a non-empty id that the ledger does not hold yet, processing
    it twice inserts the id exactly once and counts it once; exactly
    one outbound event, carrying the id, is emitted when the monitor
    has a client and is not in dry-run mode, and none otherwise; the
    second call changes nothing at all. *)
Theorem ProcessMessage_twice_processes_once
    (entry : Entry) (sid pp cid : string) (m : Monitor) (w : World) :
  Entry_Type entry = "user" \/ Entry_Type entry = "assistant" ->
  Entry_UUID entry <> "" ->
  processed m (Entry_UUID entry) = false ->
  let st1 := ProcessMessage entry sid pp cid m w in
  let st2 := ProcessMessage entry sid pp cid (fst st1) (snd st1) in
  processedMessages (fst st1)
    = <[Entry_UUID entry := true]> (processedMessages m)
  /\ st2 = st1
  /\ MessageStats (fst st2)
     = (if String.eqb (Entry_Type entry) "user"
        then (int_incr (messageCount_user m), messageCount_assistant m)
        else (messageCount_user m, int_incr (messageCount_assistant m)))
  /\ (client m <> None -> DryRun (options m) = false ->
      exists ev, emitted (fst st2) (snd st2) = emitted m w ++ [ev]
                 /\ langfuse.Body_ID (langfuse.Body_ ev) = Entry_UUID entry)
  /\ (client m = None \/ DryRun (options m) = true ->
      emitted (fst st2) (snd st2) = emitted m w).
Proof.
  intros Hk Hid Hp st1 st2.
  destruct (ProcessMessage_fresh_ledger entry sid pp cid m w Hk Hid Hp)
    as (Hpm & _ & _ & _ & _ & Hu & Ha).
  pose proof (ProcessMessage_fresh_emitted entry sid pp cid m w Hk Hid Hp)
    as [Hone Hnone].
  fold st1 in Hpm, Hu, Ha, Hone, Hnone.
  assert (st2 = st1) as Hsame.
  { subst st2. rewrite ProcessMessage_known; [by destruct st1|].
    unfold processed. rewrite Hpm. by rewrite lookup_insert_eq. }
  rewrite Hsame. split_and!; try done.
  unfold MessageStats. destruct Hk as [Hk|Hk].
  - destruct (Hu Hk) as [-> ->]. by rewrite Hk.
  - destruct (Ha Hk) as [-> ->]. by rewrite Hk.
Qed.

(** C10. No call ever removes an id from the ledger. For an entry that
    passes the guards and is new to the ledger, [ProcessMessage]
    inserts the id and counts the message before it builds the event:
    the client is handed the event by a monitor [m1] that already holds
    the id. So whatever the client returns, and also in dry-run mode or
    without a client, the entry ends up marked and counted, and any
    later [ProcessMessage] for the same id, after any calls whatever,
    changes nothing and emits nothing. *)
Theorem ledger_insertion_precedes_delivery :
  (forall (cs : list Call) (st : Monitor * World) (id : string),
      processed (fst st) id = true -> processed (fst (calls cs st)) id = true)
  /\ (forall (entry : Entry) (sid pp cid : string) (m : Monitor) (w : World),
        Entry_Type entry = "user" \/ Entry_Type entry = "assistant" ->
        Entry_UUID entry <> "" ->
        processed m (Entry_UUID entry) = false ->
        let st1 := ProcessMessage entry sid pp cid m w in
        (exists m1 w1 text ts,
            processed m1 (Entry_UUID entry) = true
            /\ MessageStats m1 = MessageStats (fst st1)
            /\ st1 = match client m1 with
                     | Some c =>
                         if DryRun (options m1) then (m1, w1)
                         else ProcessMessage_deliver entry sid pp cid text ts c m1 w1
                     | None => (m1, w1)
                     end)
        /\ processed (fst st1) (Entry_UUID entry) = true
        /\ MessageStats (fst st1)
           = (if String.eqb (Entry_Type entry) "user"
              then (int_incr (messageCount_user m), messageCount_assistant m)
              else (messageCount_user m, int_incr (messageCount_assistant m)))
        /\ (forall (cs : list Call) (entry' : Entry) (sid' pp' cid' : string),
              Entry_UUID entry' = Entry_UUID entry ->
              let st := calls cs st1 in
              ProcessMessage entry' sid' pp' cid' (fst st) (snd st) = st)).
Proof.
  split; [intros; by apply calls_processed_mono|].
  intros entry sid pp cid m w Hk Hid Hp st1.
  destruct (ProcessMessage_fresh_ledger entry sid pp cid m w Hk Hid Hp)
    as (Hpm & _ & _ & _ & _ & Hu & Ha).
  fold st1 in Hpm, Hu, Ha.
  assert (processed (fst st1) (Entry_UUID entry) = true) as Hin
    by (unfold processed; rewrite Hpm; by rewrite lookup_insert_eq).
  assert (MessageStats (fst st1)
          = (if String.eqb (Entry_Type entry) "user"
             then (int_incr (messageCount_user m), messageCount_assistant m)
             else (messageCount_user m, int_incr (messageCount_assistant m))))
    as Hstats.
  { unfold MessageStats. destruct Hk as [Hk|Hk].
    - destruct (Hu Hk) as [-> ->]. by rewrite Hk.
    - destruct (Ha Hk) as [-> ->]. by rewrite Hk. }
  split_and!; try done.
  - destruct (ProcessMessage_fresh entry sid pp cid m w Hk Hid Hp)
      as (m1 & w1 & text & ts & H1 & _ & _ & _ & _ & H6 & H7 & _ & _ & _ & Heq).
    exists m1, w1, text, ts. split_and!.
    + unfold processed. rewrite H1. by rewrite lookup_insert_eq.
    + rewrite Hstats. unfold MessageStats. destruct Hk as [Hk|Hk].
      * destruct (H6 Hk) as [-> ->]. by rewrite Hk.
      * destruct (H7 Hk) as [-> ->]. by rewrite Hk.
    + exact Heq.
  - intros cs entry' sid' pp' cid' Hsame st.
    rewrite ProcessMessage_known; [by destruct st|].
    rewrite Hsame. by apply calls_processed_mono.
Qed.

(** ** Content extraction *)

Lemma length_zero_iff_empty (s : string) :
  (Z.of_nat (String.length s) =? 0) = String.eqb s "".
Proof. by destruct s. Qed.

Lemma extractContent_block_spec (parts : list string) (block : ContentBlock) :
  extractContent_block parts block
  = parts ++ match spec_contribution block with Some part => [part] | None => [] end.
Proof.
  unfold extractContent_block, spec_contribution.
  assert ((0 <? Z.of_nat (String.length (Block_Input block)))
          = negb (String.eqb (Block_Input block) "")) as ->
    by (by destruct (Block_Input block)).
  repeat match goal with
         | |- context [String.eqb ?a ?b] => destruct (String.eqb a b); simpl
         end; rewrite ?app_nil_r; done.
Qed.

(** The loop of [extractContent] collects the contributions of the
    blocks, in order. *)
Lemma extractContent_loop (blocks : list ContentBlock) (parts : list string) :
  fold_left extractContent_block blocks parts
  = parts ++ omap spec_contribution blocks.
Proof.
  revert parts. induction blocks as [|b blocks IH]; intros parts; simpl.
  - by rewrite app_nil_r.
  - rewrite IH, extractContent_block_spec, <- app_assoc.
    by destruct (spec_contribution b).
Qed.

(** The payloads of the repository's tests, read as JSON text. *)
Example extractContent_text_block :
  @extractContent reference.runtime
    (reference.text "{'content':[{'type':'text','text':'Hello, world!'}]}")
  = "Hello, world!".
Proof. vm_compute. reflexivity. Qed.

Example extractContent_string_message :
  @extractContent reference.runtime (reference.text "'Simple string message'")
  = "Simple string message".
Proof. vm_compute. reflexivity. Qed.

Example extractContent_text_fallback :
  @extractContent reference.runtime (reference.text "{'text':'Fallback text'}")
  = "Fallback text".
Proof. vm_compute. reflexivity. Qed.

(** C4, as the code has it. [extractContent] is a function of the
    payload alone and always returns a text. A payload that decodes as
    a JSON string gives that string. Otherwise, when it decodes as a
    message object: if the content array is not empty and its blocks
    contribute at least one part, the result is the parts joined by a
    blank line, each block contributing by its type; if not, the result
    is the flat text field. A payload that is empty or decodes as
    neither gives the empty text, whatever content array or text field
    it holds. *)
Theorem extractContent_by_cases (rawMessage : RawMessage) :
  (forall s, rawMessage <> "" ->
     json_Unmarshal_string rawMessage = Some s ->
     extractContent rawMessage = s)
  /\ (forall msgContent,
        rawMessage <> "" ->
        json_Unmarshal_string rawMessage = None ->
        json_Unmarshal_MessageContent rawMessage = Some msgContent ->
        let parts := omap spec_contribution (Message_Content msgContent) in
        (Message_Content msgContent <> [] -> parts <> [] ->
         extractContent rawMessage = Join parts (newline +:+ newline))
        /\ (Message_Content msgContent = [] \/ parts = [] ->
            extractContent rawMessage = Message_Text msgContent))
  /\ (rawMessage = ""
      \/ (json_Unmarshal_string rawMessage = None
          /\ json_Unmarshal_MessageContent rawMessage = None) ->
      extractContent rawMessage = "").
Proof.
  unfold extractContent. rewrite length_zero_iff_empty. split_and!.
  - intros s Hne Hs. apply String.eqb_neq in Hne. by rewrite Hne, Hs.
  - intros mc Hne Hs Hmc. apply String.eqb_neq in Hne.
    rewrite Hne, Hs, Hmc, extractContent_loop. simpl.
    set (parts := omap spec_contribution (Message_Content mc)).
    assert ((if negb (String.eqb (Message_Text mc) "") then Message_Text mc else "")
            = Message_Text mc) as ->.
    { destruct (String.eqb (Message_Text mc) "") eqn:E; [|done].
      apply String.eqb_eq in E. by rewrite E. }
    split.
    + intros Hc Hp. destruct (Message_Content mc); [done|].
      destruct parts; [done|]. done.
    + intros [Hc|Hp]; [by rewrite Hc|].
      rewrite Hp. by destruct (0 <? len (Message_Content mc)).
  - intros [->|[Hs Hmc]]; [done|].
    destruct (String.eqb rawMessage ""); [done|]. by rewrite Hs, Hmc.
Qed.

(** ** The log reader *)

(** A line that is blank or does not parse leaves everything as it was. *)
Lemma skipped_line (sid pp cid line : string) (st : Monitor * World) :
  strings_TrimSpace line = "" \/ json_Unmarshal_Entry line = None ->
  ProcessConversationFile_line sid pp cid st line = st.
Proof.
  unfold ProcessConversationFile_line. intros [->| ->]; [done|].
  by destruct (String.eqb _ "").
Qed.

Lemma ProcessMessage_sessions (entry : Entry) (sid pp cid : string)
    (m : Monitor) (w : World) :
  let m' := fst (ProcessMessage entry sid pp cid m w) in
  conversationSessions m' = conversationSessions m
  /\ options m' = options m /\ config m' = config m.
Proof.
  destruct (ProcessMessage_guards entry sid pp cid m w) as [->|(Hk & Hid & Hf)];
    [done|].
  destruct (ProcessMessage_fresh_ledger entry sid pp cid m w Hk Hid Hf)
    as (_ & ? & ? & ? & _). done.
Qed.

Lemma ProcessMessage_files (entry : Entry) (sid pp cid : string)
    (m : Monitor) (w : World) :
  files (snd (ProcessMessage entry sid pp cid m w)) = files w.
Proof.
  destruct (ProcessMessage_guards entry sid pp cid m w) as [->|(Hk & Hid & Hf)];
    [done|].
  destruct (ProcessMessage_fresh entry sid pp cid m w Hk Hid Hf)
    as (m1 & w1 & text & ts & _ & _ & _ & _ & _ & _ & _ & _ & Hfs & _ & ->).
  destruct (client m1) as [c|]; [|done].
  destruct (DryRun (options m1)); [done|].
  pose proof (ProcessMessage_deliver_ledger entry sid pp cid text ts c m1 w1)
    as (_ & _ & _ & Hf' & _). simpl in Hf'. congruence.
Qed.

(** [ProcessConversationFile] on an accepted path, with the session id
    read from the cache or derived from the path. *)
Lemma ProcessConversationFile_accepted (filepath : string) (m : Monitor) (w : World) :
  rejected filepath = false ->
  let parts := Split filepath PathSeparator in
  let projectPath :=
    ReplaceAll (nth (Z.to_nat (projectsIndex parts 0 + 1)) parts "") "-"%char "/"%char in
  let conversationID := TrimSuffix (List.last parts "") ".jsonl" in
  let sessionID := default (sessionIDOf filepath) (conversationSessions m !! filepath) in
  let m1 := set_conversationSessions m
              (<[filepath := sessionID]> (conversationSessions m)) in
  ProcessConversationFile filepath m w
  = match files w !! filepath with
    | None => (m1, print w (RedError ("Error reading " +:+ filepath) None))
    | Some content =>
        fold_left (ProcessConversationFile_line sessionID projectPath conversationID)
          (bufio.Scan (1024 * 1024) content) (m1, w)
    end.
Proof.
  unfold rejected. intros Hacc. unfold ProcessConversationFile.
  rewrite Hacc. cbv zeta.
  destruct (conversationSessions m !! filepath) as [sid|] eqn:Ec; simpl.
  - rewrite insert_id by done.
    assert (set_conversationSessions m (conversationSessions m) = m) as ->
      by (by destruct m).
    done.
  - done.
Qed.

(** The scanner yields the lines in order, without their carriage
    returns, up to the first line that does not fit its buffer. *)
Lemma tokens_spec (maxTokenSize : Z) (pieces : list string) :
  exists short rest,
    pieces = short ++ rest
    /\ bufio.tokens maxTokenSize pieces = map bufio.dropCR short
    /\ Forall (fun piece => Z.of_nat (String.length piece) < maxTokenSize) short
    /\ match rest with
       | [] => True
       | piece :: _ => maxTokenSize <= Z.of_nat (String.length piece)
       end.
Proof.
  induction pieces as [|p ps (short & rest & -> & Ht & Hs & Hr)]; simpl.
  - by exists [], [].
  - destruct (Z.of_nat (String.length p) <? maxTokenSize) eqn:E.
    + apply Z.ltb_lt in E. exists (p :: short), rest. simpl.
      rewrite Ht. split_and!; try done. by constructor.
    + apply Z.ltb_ge in E. by exists [], (p :: short ++ rest).
Qed.

Lemma length_filler (n : nat) (c : ascii) :
  String.length (reference.filler n c) = n.
Proof. induction n; simpl; congruence. Qed.

Lemma Split_nonempty (s : string) (sep : ascii) : Split s sep <> [].
Proof.
  destruct s as [|c s]; simpl; [done|].
  destruct (Ascii.eqb c sep); [done|]. by destruct (Split s sep).
Qed.

Lemma Split_filler (n : nat) (c sep : ascii) (rest : string) :
  c <> sep ->
  Split (reference.filler n c +:+ String sep rest) sep
  = reference.filler n c :: Split rest sep.
Proof.
  intros Hne. induction n as [|n IH]; simpl.
  - by rewrite Ascii.eqb_refl.
  - apply Ascii.eqb_neq in Hne. rewrite Hne. by rewrite IH.
Qed.

(** A first line that does not fit the buffer: nothing is scanned. *)
Lemma Scan_overlong (maxTokenSize : Z) (n : nat) (c : ascii) (rest : string) :
  c <> ascii_of_nat 10 -> maxTokenSize <= Z.of_nat n ->
  bufio.Scan maxTokenSize (reference.filler n c +:+ newline +:+ rest) = [].
Proof.
  intros Hc Hn. unfold bufio.Scan, bufio.lines, newline.
  change (String (ascii_of_nat 10) "" +:+ rest) with (String (ascii_of_nat 10) rest).
  rewrite Split_filler by done.
  pose proof (Split_nonempty rest (ascii_of_nat 10)) as Hne.
  destruct (Split rest (ascii_of_nat 10)) as [|p ps]; [done|].
  assert (forall l, bufio.tokens maxTokenSize (reference.filler n c :: l) = [])
    as Hstop.
  { intros l. simpl. rewrite length_filler.
    destruct (Z.of_nat n <? maxTokenSize) eqn:E; [|done].
    apply Z.ltb_lt in E. lia. }
  destruct (List.last _ _); [|apply Hstop].
  change (removelast (reference.filler n c :: p :: ps))
    with (reference.filler n c :: removelast (p :: ps)).
  apply Hstop.
Qed.

Lemma overlong_first_line (filepath : string) (m : Monitor) (w : World)
    (n : nat) (c : ascii) (rest : string) :
  rejected filepath = false ->
  files w !! filepath = Some (reference.filler n c +:+ newline +:+ rest) ->
  c <> ascii_of_nat 10 -> 1024 * 1024 <= Z.of_nat n ->
  let m' := fst (ProcessConversationFile filepath m w) in
  MessageStats m' = MessageStats m /\ processedMessages m' = processedMessages m.
Proof.
  intros Hacc Hfile Hc Hn.
  rewrite ProcessConversationFile_accepted by done.
  rewrite Hfile, Scan_overlong by done. done.
Qed.

(** C7, as the code has it. The reader of a conversation file takes
    the lines in order up to the first line of 1 MiB or more, where it
    stops. A line it takes that is blank (white space only) or that
    does not parse as JSON is skipped and reading goes on: the lines
    after it are processed from the state the lines before it left, as
    if the line were not there. In particular a file read as one
    malformed line followed by one valid user entry counts and
    processes exactly one user message. *)
Theorem malformed_and_blank_lines_are_skipped
    (filepath content : string) (m : Monitor) (w : World) :
  rejected filepath = false ->
  files w !! filepath = Some content ->
  let parts := Split filepath PathSeparator in
  let projectPath :=
    ReplaceAll (nth (Z.to_nat (projectsIndex parts 0 + 1)) parts "") "-"%char "/"%char in
  let conversationID := TrimSuffix (List.last parts "") ".jsonl" in
  let sessionID := default (sessionIDOf filepath) (conversationSessions m !! filepath) in
  let m1 := set_conversationSessions m
              (<[filepath := sessionID]> (conversationSessions m)) in
  let read := ProcessConversationFile_line sessionID projectPath conversationID in
  (exists taken rest,
     bufio.lines content = taken ++ rest
     /\ Forall (fun line => Z.of_nat (String.length line) < 1024 * 1024) taken
     /\ match rest with
        | [] => True
        | line :: _ => 1024 * 1024 <= Z.of_nat (String.length line)
        end
     /\ bufio.Scan (1024 * 1024) content = map bufio.dropCR taken
     /\ ProcessConversationFile filepath m w
        = fold_left read (map bufio.dropCR taken) (m1, w))
  /\ (forall before line after,
        bufio.Scan (1024 * 1024) content = before ++ line :: after ->
        strings_TrimSpace line = "" \/ json_Unmarshal_Entry line = None ->
        ProcessConversationFile filepath m w
        = fold_left read after (fold_left read before (m1, w)))
  /\ (forall line good entry,
        bufio.Scan (1024 * 1024) content = [line; good] ->
        strings_TrimSpace line = "" \/ json_Unmarshal_Entry line = None ->
        strings_TrimSpace good <> "" ->
        json_Unmarshal_Entry good = Some entry ->
        Entry_Type entry = "user" -> Entry_UUID entry <> "" ->
        processed m (Entry_UUID entry) = false ->
        let m' := fst (ProcessConversationFile filepath m w) in
        MessageStats m' = (int_incr (messageCount_user m), messageCount_assistant m)
        /\ processedMessages m' = <[Entry_UUID entry := true]> (processedMessages m)).
Proof.
  intros Hacc Hfile parts projectPath conversationID sessionID m1 read.
  assert (ProcessConversationFile filepath m w
          = fold_left read (bufio.Scan (1024 * 1024) content) (m1, w)) as Hrun.
  { rewrite ProcessConversationFile_accepted by done. by rewrite Hfile. }
  assert (forall before line after,
            bufio.Scan (1024 * 1024) content = before ++ line :: after ->
            strings_TrimSpace line = "" \/ json_Unmarshal_Entry line = None ->
            ProcessConversationFile filepath m w
            = fold_left read after (fold_left read before (m1, w))) as Heq.
  { intros before line after Hscan Hskip. rewrite Hrun, Hscan.
    rewrite fold_left_app. simpl. f_equal. subst read.
    by apply skipped_line. }
  split_and!.
  - destruct (tokens_spec (1024 * 1024) (bufio.lines content))
      as (taken & rest & Hl & Ht & Hs & Hr).
    exists taken, rest. split_and!; try done.
    rewrite Hrun. unfold bufio.Scan. by rewrite Ht.
  - exact Heq.
  - intros line good entry Hscan Hskip Hnb Hparse Hu Hid Hp.
    rewrite (Heq [] line [good] Hscan Hskip). simpl.
    subst read. unfold ProcessConversationFile_line.
    apply String.eqb_neq in Hnb. rewrite Hnb, Hparse. simpl.
    assert (processed m1 (Entry_UUID entry) = false) as Hp1 by done.
    destruct (ProcessMessage_fresh_ledger entry sessionID projectPath conversationID
                m1 w (or_introl Hu) Hid Hp1) as (Hpm & _ & _ & _ & _ & Hc & _).
    destruct (Hc Hu) as [Hcu Hca]. unfold MessageStats.
    by rewrite Hpm, Hcu, Hca.
Qed.

(** ** Session identity *)

Lemma projectsIndex_first (pre post : list string) (i : Z) :
  "projects" ∉ pre ->
  projectsIndex (pre ++ "projects" :: post) i = i + len pre.
Proof.
  revert i. induction pre as [|p pre IH]; intros i Hnotin; simpl.
  - unfold len. simpl. lia.
  - apply not_elem_of_cons in Hnotin as [Hne Hnotin].
    destruct (String.eqb p "projects") eqn:E;
      [apply String.eqb_eq in E; congruence|].
    rewrite IH by done. unfold len. simpl length. lia.
Qed.

Lemma ProcessMessage_cache_ok (entry : Entry) (sid pp cid : string)
    (m : Monitor) (w : World) :
  cache_ok m -> cache_ok (fst (ProcessMessage entry sid pp cid m w)).
Proof.
  intros Hok. unfold cache_ok.
  destruct (ProcessMessage_sessions entry sid pp cid m w) as [-> _]. done.
Qed.

Lemma ProcessConversationFile_cache_ok (filepath : string) (m : Monitor) (w : World) :
  cache_ok m -> cache_ok (fst (ProcessConversationFile filepath m w)).
Proof.
  intros Hok. destruct (rejected filepath) eqn:Hr.
  { unfold ProcessConversationFile. unfold rejected in Hr. by rewrite Hr. }
  rewrite ProcessConversationFile_accepted by done.
  match goal with
  | |- context [set_conversationSessions m ?cache] =>
      assert (cache_ok (set_conversationSessions m cache)) as Hok1
  end.
  { intros fp sid. simpl. rewrite lookup_insert. case_decide as Hfp.
    - subst fp. intros [= <-].
      destruct (conversationSessions m !! filepath) as [sid0|] eqn:Ec; [|done].
      simpl. by apply Hok.
    - apply Hok. }
  destruct (files w !! filepath) as [content|]; [|done].
  apply (lines_loop_keeps cache_ok); [|done].
  intros. by apply ProcessMessage_cache_ok.
Qed.

Lemma calls_cache_ok (cs : list Call) (st : Monitor * World) :
  cache_ok (fst st) -> cache_ok (fst (calls cs st)).
Proof.
  revert st. induction cs as [|c cs IH]; intros st Hok; [done|].
  simpl. apply IH. destruct c; simpl.
  - by apply ProcessConversationFile_cache_ok.
  - by apply ProcessMessage_cache_ok.
  - pose proof (Shutdown_ledger (fst st) (snd st)) as Hl.
    destruct (Shutdown (fst st) (snd st)) as [[e m'] w']. simpl in *.
    unfold ledger in Hl. unfold cache_ok in *. simplify_eq.
    intros fp sid.
    match goal with
    | Hc : conversationSessions _ = conversationSessions _ |- _ => rewrite Hc
    end. apply Hok.
  - done.
Qed.

Lemma New_cache_ok (opts : Options) (cfg : Config) (m0 : Monitor) :
  New opts (inl cfg) = inl m0 -> cache_ok m0.
Proof. intros [= <-]. intros fp sid. simpl. by rewrite lookup_empty. Qed.

(** The paths [ProcessConversationFile] accepts are those whose
    segments hold "projects" with at least two segments after its first
    occurrence. *)
Lemma projectsIndex_absent (parts : list string) (i : Z) :
  "projects" ∉ parts -> projectsIndex parts i = -1.
Proof.
  revert i. induction parts as [|p parts IH]; intros i Hnotin; [done|].
  apply not_elem_of_cons in Hnotin as [Hne Hnotin]. simpl.
  destruct (String.eqb p "projects") eqn:E;
    [apply String.eqb_eq in E; congruence|by apply IH].
Qed.

Lemma accepted_shape (filepath : string) :
  rejected filepath = false <->
  exists pre encoded mid final,
    Split filepath PathSeparator = pre ++ "projects" :: encoded :: mid ++ [final]
    /\ "projects" ∉ pre.
Proof.
  unfold rejected. split.
  - intros Hacc. apply orb_false_iff in Hacc as [Hfound Hroom].
    apply Z.eqb_neq in Hfound. rewrite Z.geb_leb in Hroom. apply Z.leb_gt in Hroom.
    destruct (decide ("projects" ∈ Split filepath PathSeparator)) as [Hin|Hnotin];
      [|by rewrite projectsIndex_absent in Hfound].
    apply list_elem_of_split_l in Hin as (pre & post & Hparts & Hpre).
    rewrite Hparts in Hroom. rewrite projectsIndex_first in Hroom by done.
    unfold len in Hroom. rewrite length_app in Hroom. simpl in Hroom.
    destruct post as [|encoded rest]; [simpl in Hroom; lia|].
    destruct (exists_last (l:=rest)) as (mid & final & ->);
      [intros ->; simpl in Hroom; lia|].
    by exists pre, encoded, mid, final.
  - intros (pre & encoded & mid & final & Hparts & Hpre).
    rewrite Hparts, projectsIndex_first by done. unfold len.
    rewrite length_app. simpl. rewrite length_app. simpl.
    apply orb_false_iff. split; [apply Z.eqb_neq; lia|].
    rewrite Z.geb_leb. apply Z.leb_gt. lia.
Qed.

(** C5. For a path whose segments hold "projects" with at least two
    segments after its first occurrence, a monitor created by [New]
    and used in any way derives: the project path, which is the
    segment after the anchor with every '-' replaced by '/'; the
    conversation id, which is the last segment without its ".jsonl"
    suffix; and the session id, which is the MD5 digest, in hex, of
    the two joined by ':'. These are what the lines of the file are
    processed with and what the cache holds for the path afterwards,
    whatever the file contains. *)
Theorem session_identity_is_derived_from_the_path
    (opts : Options) (cfg : Config) (m0 : Monitor) (w0 : World) (cs : list Call)
    (filepath : string) (pre mid : list string) (encoded final : string) :
  New opts (inl cfg) = inl m0 ->
  Split filepath PathSeparator = pre ++ "projects" :: encoded :: mid ++ [final] ->
  "projects" ∉ pre ->
  let st := calls cs (m0, w0) in
  let projectPath := ReplaceAll encoded "-"%char "/"%char in
  let conversationID := TrimSuffix final ".jsonl" in
  let sessionID :=
    md5.EncodeToString (md5.Sum (projectPath +:+ ":" +:+ conversationID)) in
  let m1 := set_conversationSessions (fst st)
              (<[filepath := sessionID]> (conversationSessions (fst st))) in
  ProcessConversationFile filepath (fst st) (snd st)
    = match files (snd st) !! filepath with
      | None => (m1, print (snd st) (RedError ("Error reading " +:+ filepath) None))
      | Some content =>
          fold_left (ProcessConversationFile_line sessionID projectPath conversationID)
            (bufio.Scan (1024 * 1024) content) (m1, snd st)
      end
  /\ conversationSessions (fst (ProcessConversationFile filepath (fst st) (snd st)))
       !! filepath = Some sessionID
  /\ ReplaceAll "Users-test-Documents-github-myproject" "-"%char "/"%char
     = "Users/test/Documents/github/myproject"
  /\ ReplaceAll "simple" "-"%char "/"%char = "simple".
Proof.
  intros Hnew Hparts Hpre st projectPath conversationID sessionID m1.
  assert (projectsIndex (Split filepath PathSeparator) 0 = len pre) as Hidx
    by (rewrite Hparts, projectsIndex_first by done; lia).
  assert (rejected filepath = false) as Hacc.
  { unfold rejected. rewrite Hidx. rewrite Hparts. unfold len.
    rewrite length_app. simpl. rewrite length_app. simpl.
    apply orb_false_iff. split; [apply Z.eqb_neq; lia|].
    rewrite Z.geb_leb. apply Z.leb_gt. lia. }
  assert (nth (Z.to_nat (len pre + 1)) (Split filepath PathSeparator) "" = encoded)
    as Hnth.
  { rewrite Hparts. unfold len.
    replace (Z.to_nat (Z.of_nat (length pre) + 1)) with (length pre + 1)%nat by lia.
    rewrite app_nth2 by lia.
    replace (length pre + 1 - length pre)%nat with 1%nat by lia. done. }
  assert (List.last (Split filepath PathSeparator) "" = final) as Hlast.
  { rewrite Hparts.
    change (pre ++ "projects" :: encoded :: mid ++ [final])
      with (pre ++ ["projects"; encoded] ++ mid ++ [final]).
    rewrite !app_assoc. apply last_last. }
  assert (sessionIDOf filepath = sessionID) as Hsid.
  { unfold sessionIDOf. cbv zeta. by rewrite Hidx, Hnth, Hlast. }
  assert (cache_ok (fst st)) as Hok
    by (apply calls_cache_ok; simpl; by eapply New_cache_ok).
  assert (default (sessionIDOf filepath) (conversationSessions (fst st) !! filepath)
          = sessionID) as Hdef.
  { destruct (conversationSessions (fst st) !! filepath) as [sid|] eqn:Ec; [|done].
    simpl. rewrite <- Hsid. by apply Hok. }
  assert (ProcessConversationFile filepath (fst st) (snd st)
          = match files (snd st) !! filepath with
            | None => (m1, print (snd st) (RedError ("Error reading " +:+ filepath) None))
            | Some content =>
                fold_left
                  (ProcessConversationFile_line sessionID projectPath conversationID)
                  (bufio.Scan (1024 * 1024) content) (m1, snd st)
            end) as Heq.
  { rewrite ProcessConversationFile_accepted by done. cbv zeta.
    by rewrite Hdef, Hidx, Hnth, Hlast. }
  split_and!; [done| |done|done].
  rewrite Heq. destruct (files (snd st) !! filepath) as [content|].
  - apply (lines_loop_keeps
             (fun m => conversationSessions m !! filepath = Some sessionID)).
    + intros entry sid pp cid m w Hm.
      destruct (ProcessMessage_sessions entry sid pp cid m w) as [-> _]. done.
    + simpl. by rewrite lookup_insert_eq.
  - simpl. by rewrite lookup_insert_eq.
Qed.
End monitor_facts.

(** ** The watcher's debounce table *)

Section watcher_facts.
Import watcher.
Variable addOk : string -> bool.

(** Saturation does not change the comparison with a window that is
    itself a duration. *)
Lemma Sub_window (now t window : Z) :
  minDuration < window <= maxDuration ->
  (Sub now t >=? window) = true <-> window <= now - t.
Proof.
  intros Hw. unfold Sub. rewrite Z.geb_le.
  destruct (now - t >? maxDuration) eqn:E1; [apply Z.gtb_lt in E1; lia|].
  destruct (now - t <? minDuration) eqn:E2; [apply Z.ltb_lt in E2; lia|].
  done.
Qed.

Lemma dueIn_absent now window path (l : list (string * Time)) :
  path ∉ l.*1 -> dueIn now window path l = false.
Proof.
  induction l as [|[k t] l IH]; [done|]. simpl.
  intros Hnotin. apply not_elem_of_cons in Hnotin as [Hne Hnotin].
  rewrite IH by done.
  destruct (String.eqb k path) eqn:E; [apply String.eqb_eq in E; congruence|done].
Qed.

Lemma tick_loop (now : Time) (l : list (string * Time)) :
  forall (w : Watcher) (d : list string),
    NoDup (l.*1) ->
    let r := fold_left (processPendingFiles_entry now) l (w, d) in
    debounceMs (fst r) = debounceMs w
    /\ rootDir (fst r) = rootDir w /\ watched (fst r) = watched w
    /\ (forall k, pendingFiles (fst r) !! k
                  = if dueIn now (debounceMs w) k l then None else pendingFiles w !! k)
    /\ (forall k, dispatches k (snd r)
                  = (dispatches k d
                     + if dueIn now (debounceMs w) k l then 1 else 0)%nat).
Proof.
  induction l as [|[file lastChange] l IH]; intros w d Hnd.
  { simpl. split_and!; try done; intros k; lia. }
  apply NoDup_cons in Hnd as [Hnotin Hnd]. simpl fold_left.
  destruct (Sub now lastChange >=? debounceMs w) eqn:Es.
  - specialize (IH (set_pendingFiles w (delete file (pendingFiles w)))
                   (d ++ [file]) Hnd).
    simpl in IH. destruct IH as (H1 & H2 & H3 & H4 & H5).
    split_and!; try done.
    + intros k. rewrite H4. simpl. rewrite Es.
      destruct (String.eqb file k) eqn:Ek; simpl.
      * apply String.eqb_eq in Ek. subst k.
        rewrite dueIn_absent by done. apply lookup_delete_eq.
      * apply String.eqb_neq in Ek.
        destruct (dueIn _ _ _ _); [done|]. by apply lookup_delete_ne.
    + intros k. rewrite H5. simpl. rewrite Es. unfold dispatches.
      rewrite count_occ_app. simpl.
      destruct (String.eqb file k) eqn:Ek; simpl.
      * apply String.eqb_eq in Ek. subst k.
        rewrite dueIn_absent by done.
        destruct (string_dec file file); [lia|done].
      * apply String.eqb_neq in Ek.
        destruct (string_dec file k); [done|]. lia.
  - specialize (IH w d Hnd). simpl in IH.
    destruct IH as (H1 & H2 & H3 & H4 & H5).
    split_and!; try done.
    + intros k. rewrite H4. simpl. rewrite Es.
      by rewrite andb_false_r.
    + intros k. rewrite H5. simpl. rewrite Es.
      by rewrite andb_false_r.
Qed.

Lemma dueIn_map_to_list (now : Time) (w : Watcher) (path : string) :
  dueIn now (debounceMs w) path (map_to_list (pendingFiles w)) = settled now w path.
Proof.
  unfold settled, dueIn.
  destruct (pendingFiles w !! path) as [t|] eqn:El.
  - destruct (Sub now t >=? debounceMs w) eqn:Es.
    + apply existsb_exists. exists (path, t). split.
      * apply list_elem_of_In. by apply elem_of_map_to_list.
      * simpl. by rewrite String.eqb_refl, Es.
    + apply not_true_is_false. intros Hex.
      apply existsb_exists in Hex as ([k t'] & Hin & Hf). simpl in Hf.
      apply andb_true_iff in Hf as [Hk Hs]. apply String.eqb_eq in Hk. subst k.
      apply list_elem_of_In, elem_of_map_to_list in Hin. congruence.
  - apply not_true_is_false. intros Hex.
    apply existsb_exists in Hex as ([k t'] & Hin & Hf). simpl in Hf.
    apply andb_true_iff in Hf as [Hk Hs]. apply String.eqb_eq in Hk. subst k.
    apply list_elem_of_In, elem_of_map_to_list in Hin. congruence.
Qed.

(** One tick: a path is dispatched, once, and leaves the table exactly
    when it is settled; any other path stays as it is. *)
Lemma tick_spec (now : Time) (w : Watcher) (path : string) :
  let r := processPendingFiles_tick now w in
  debounceMs (fst r) = debounceMs w
  /\ pendingFiles (fst r) !! path
     = (if settled now w path then None else pendingFiles w !! path)
  /\ dispatches path (snd r) = (if settled now w path then 1 else 0)%nat.
Proof.
  unfold processPendingFiles_tick.
  destruct (tick_loop now (map_to_list (pendingFiles w)) w []
              (NoDup_fst_map_to_list _)) as (H1 & _ & _ & H4 & H5).
  split_and!; [done| |].
  - by rewrite H4, dueIn_map_to_list.
  - by rewrite H5, dueIn_map_to_list.
Qed.

(** One event: nothing is dispatched; the path is given the time of
    the event when the event records it, and is left alone otherwise. *)
Lemma event_spec (event : Event) (stat : option bool) (now : Time)
    (w : Watcher) (path : string) :
  let w' := processEvents_event event stat addOk now w in
  debounceMs w' = debounceMs w
  /\ pendingFiles w' !! path
     = (if records path (FsEvent event stat now) then Some now
        else pendingFiles w !! path).
Proof.
  unfold processEvents_event, records, Add.
  destruct (hasOp (Op event) Create
            && match stat with Some true => true | _ => false end).
  { rewrite andb_false_r. simpl. by destruct (addOk (Name event)). }
  destruct (HasSuffix (Name event) ".jsonl"); simpl;
    [|by rewrite !andb_false_r].
  destruct (hasOp (Op event) Write || hasOp (Op event) Create); simpl;
    [|by rewrite !andb_false_r].
  rewrite !andb_true_r. split; [done|].
  destruct (String.eqb (Name event) path) eqn:E.
  - apply String.eqb_eq in E. subst path. apply lookup_insert_eq.
  - apply String.eqb_neq in E. by apply lookup_insert_ne.
Qed.

Lemma pending_cases (w : Watcher) (path : string) :
  pending w path = match pendingFiles w !! path with Some _ => 1 | None => 0 end%nat.
Proof. done. Qed.

Lemma run_app (acts1 acts2 : list Activation) (w : Watcher) :
  run addOk (acts1 ++ acts2) w
  = (fst (run addOk acts2 (fst (run addOk acts1 w))),
     snd (run addOk acts1 w) ++ snd (run addOk acts2 (fst (run addOk acts1 w)))).
Proof.
  revert w. induction acts1 as [|a acts1 IH]; intros w; simpl.
  - by destruct (run addOk acts2 w).
  - destruct (step addOk a w) as [w1 d1]. rewrite IH.
    destruct (run addOk acts1 w1) as [w2 d2]. simpl.
    by rewrite app_assoc.
Qed.

Lemma run_debounceMs (acts : list Activation) (w : Watcher) :
  debounceMs (fst (run addOk acts w)) = debounceMs w.
Proof.
  revert w. induction acts as [|a acts IH]; intros w; [done|]. simpl.
  destruct (step addOk a w) as [w1 d1] eqn:Es.
  specialize (IH w1). destruct (run addOk acts w1) as [w2 d2]. simpl in *.
  rewrite IH. destruct a as [event stat now| |now]; simpl in Es.
  - injection Es as <- _. apply (event_spec event stat now w "").
  - by injection Es as <- _.
  - pose proof (tick_spec now w "") as (Hd & _). rewrite Es in Hd. done.
Qed.

(** Without a recording event for the path, a run dispatches it at
    most once, and exactly when it takes it out of the table; while it
    stays in the table its time is the one it had. *)
Lemma run_quiet (acts : list Activation) (path : string) :
  forall w,
    (forall a, a ∈ acts -> records path a = false) ->
    let r := run addOk acts w in
    (dispatches path (snd r) + pending (fst r) path = pending w path)%nat
    /\ (pendingFiles (fst r) !! path = pendingFiles w !! path
        \/ pendingFiles (fst r) !! path = None).
Proof.
  induction acts as [|a acts IH]; intros w Hq; [by split; [|left]|].
  simpl. destruct (step addOk a w) as [w1 d1] eqn:Es.
  assert (forall a0, a0 ∈ acts -> records path a0 = false) as Hq'
    by (intros; apply Hq; by right).
  specialize (IH w1 Hq'). destruct (run addOk acts w1) as [w2 d2]. simpl in *.
  destruct IH as [Hcount Htime].
  assert ((dispatches path d1 + pending w1 path = pending w path)%nat
          /\ (pendingFiles w1 !! path = pendingFiles w !! path
              \/ pendingFiles w1 !! path = None)) as [Hc1 Ht1].
  { destruct a as [event stat now| |now]; simpl in Es.
    - injection Es as <- <-.
      destruct (event_spec event stat now w path) as [_ Hp].
      rewrite (Hq (FsEvent event stat now)) in Hp by left.
      rewrite !pending_cases, Hp. split; [done|by left].
    - injection Es as <- <-. split; [done|by left].
    - pose proof (tick_spec now w path) as (_ & Hp & Hd).
      rewrite Es in Hp, Hd. simpl in Hp, Hd.
      rewrite !pending_cases, Hp, Hd. unfold settled.
      destruct (pendingFiles w !! path) as [t|]; [|by split; [|left]].
      destruct (Sub now t >=? debounceMs w); split; auto. }
  split.
  - unfold dispatches in *. rewrite count_occ_app. lia.
  - destruct Htime as [->| ->]; auto.
Qed.

(** In any run, the dispatches of a path are bounded by the events
    that recorded it. *)
Lemma run_bound (acts : list Activation) (path : string) :
  forall w,
    let r := run addOk acts w in
    (dispatches path (snd r) + pending (fst r) path
     <= pending w path + recordings path acts)%nat.
Proof.
  induction acts as [|a acts IH]; intros w; [simpl; lia|].
  simpl. destruct (step addOk a w) as [w1 d1] eqn:Es.
  specialize (IH w1). destruct (run addOk acts w1) as [w2 d2]. simpl in *.
  unfold dispatches in *. rewrite count_occ_app.
  assert (count_occ string_dec d1 path + pending w1 path
          <= pending w path + (if records path a then 1 else 0))%nat as Hstep.
  { destruct a as [event stat now| |now]; simpl in Es.
    - injection Es as <- <-.
      destruct (event_spec event stat now w path) as [_ Hp].
      rewrite !pending_cases, Hp.
      destruct (records path (FsEvent event stat now)); simpl; [lia|].
      destruct (pendingFiles w !! path); lia.
    - injection Es as <- <-. simpl. lia.
    - pose proof (tick_spec now w path) as (_ & Hp & Hd).
      rewrite Es in Hp, Hd. simpl in Hp, Hd. unfold dispatches in Hd.
      rewrite !pending_cases, Hp, Hd. unfold settled. simpl.
      destruct (pendingFiles w !! path) as [t|]; [|lia].
      destruct (Sub now t >=? debounceMs w); lia. }
  unfold recordings in *. simpl.
  destruct (records path a); simpl; lia.
Qed.

(** A pending path whose window has elapsed at some tick of a run
    without further events on it is dispatched exactly once by the run. *)
Lemma run_settles (acts : list Activation) (path : string) (w : Watcher)
    (lastEvent now : Time) :
  (forall a, a ∈ acts -> records path a = false) ->
  pendingFiles w !! path = Some lastEvent ->
  Tick now ∈ acts ->
  (Sub now lastEvent >=? debounceMs w) = true ->
  dispatches path (snd (run addOk acts w)) = 1%nat
  /\ pendingFiles (fst (run addOk acts w)) !! path = None.
Proof.
  intros Hq Hp Hin Hs.
  destruct (run_quiet acts path w Hq) as [Hcount _].
  rewrite (pending_cases w), Hp in Hcount.
  apply list_elem_of_split in Hin as (acts1 & acts2 & ->).
  assert (forall a, a ∈ acts1 -> records path a = false) as Hq1
    by (intros; apply Hq; apply elem_of_app; by left).
  assert (forall a, a ∈ acts2 -> records path a = false) as Hq2
    by (intros; apply Hq; apply elem_of_app; right; by right).
  rewrite run_app in Hcount |- *. simpl fst in *. simpl snd in *.
  destruct (run_quiet acts1 path w Hq1) as [_ Ht1].
  pose proof (run_debounceMs acts1 w) as Hd1.
  set (w1 := fst (run addOk acts1 w)) in *.
  simpl run in *.
  pose proof (tick_spec now w1 path) as (_ & Hpt & _).
  destruct (processPendingFiles_tick now w1) as [wt dt] eqn:Et. simpl in Hpt.
  assert (pendingFiles wt !! path = None) as Hnone.
  { rewrite Hpt. unfold settled.
    destruct Ht1 as [Ht1|Ht1]; rewrite Ht1; [|done].
    by rewrite Hp, Hd1, Hs. }
  destruct (run_quiet acts2 path wt Hq2) as [Hc2 _].
  rewrite (pending_cases wt), Hnone in Hc2.
  destruct (run addOk acts2 wt) as [w2 d2]. simpl in *.
  assert (pending w2 path = 0%nat) as Hz by lia.
  split; [lia|].
  rewrite pending_cases in Hz. by destruct (pendingFiles w2 !! path).
Qed.

(** C8. With the debounce window of 500 ms set by [New], for every
    path: a tick dispatches the path, once, and removes it from the
    pending table exactly when the table holds it with a last event at
    least 500 ms before the tick, and otherwise leaves it as it is; an
    event never dispatches anything, and an event that qualifies only
    sets the path's last-event time to its own; so a run of ticks and
    events without a new event on the path dispatches it at most once,
    and exactly once when one of its ticks comes 500 ms or more after
    the last event; and in any run the path is dispatched no more
    often than events recorded it. *)
Theorem debounce_dispatches_once_per_settled_burst (w : Watcher) (path : string) :
  debounceMs w = 500 * Millisecond ->
  (forall now,
      let r := processPendingFiles_tick now w in
      (forall lastEvent,
          pendingFiles w !! path = Some lastEvent ->
          500 * Millisecond <= now - lastEvent ->
          dispatches path (snd r) = 1%nat /\ pendingFiles (fst r) !! path = None)
      /\ (forall lastEvent,
             pendingFiles w !! path = Some lastEvent ->
             now - lastEvent < 500 * Millisecond ->
             dispatches path (snd r) = 0%nat
             /\ pendingFiles (fst r) !! path = Some lastEvent)
      /\ (pendingFiles w !! path = None ->
          dispatches path (snd r) = 0%nat /\ pendingFiles (fst r) !! path = None))
  /\ (forall event stat now,
         let a := FsEvent event stat now in
         snd (step addOk a w) = []
         /\ pendingFiles (fst (step addOk a w)) !! path
            = (if records path a then Some now else pendingFiles w !! path))
  /\ (forall acts,
         (forall a, a ∈ acts -> records path a = false) ->
         let r := run addOk acts w in
         (dispatches path (snd r) <= 1)%nat
         /\ (dispatches path (snd r) + pending (fst r) path = pending w path)%nat
         /\ (forall lastEvent now,
                pendingFiles w !! path = Some lastEvent ->
                Tick now ∈ acts ->
                500 * Millisecond <= now - lastEvent ->
                dispatches path (snd r) = 1%nat))
  /\ (forall acts,
         let r := run addOk acts w in
         (dispatches path (snd r) + pending (fst r) path
          <= pending w path + recordings path acts)%nat).
Proof.
  intros Hwin.
  assert (minDuration < 500 * Millisecond <= maxDuration) as Hrange
    by (unfold minDuration, maxDuration, Millisecond; lia).
  split_and!.
  - intros now r. pose proof (tick_spec now w path) as (_ & Hp & Hd).
    fold r in Hp, Hd. unfold settled in Hp, Hd. rewrite Hwin in Hp, Hd.
    split_and!.
    + intros t Ht Hge. rewrite Ht in Hp, Hd.
      apply (Sub_window now t _ Hrange) in Hge. by rewrite Hge in Hp, Hd.
    + intros t Ht Hlt. rewrite Ht in Hp, Hd.
      destruct (Sub now t >=? 500 * Millisecond) eqn:E; [|done].
      apply (Sub_window now t _ Hrange) in E. lia.
    + intros Hn. by rewrite Hn in Hp, Hd.
  - intros event stat now a. simpl. split; [done|].
    apply event_spec.
  - intros acts Hq r.
    destruct (run_quiet acts path w Hq) as [Hcount _]. fold r in Hcount.
    split_and!; [|done|].
    + unfold pending in Hcount.
      destruct (pendingFiles w !! path);
        destruct (pendingFiles (fst r) !! path); lia.
    + intros t now Ht Hin Hge.
      apply (Sub_window now t _ Hrange) in Hge. rewrite <- Hwin in Hge.
      by destruct (run_settles acts path w t now Hq Ht Hin Hge).
  - intros acts. apply run_bound.
Qed.
End watcher_facts.

(** ** Starting the watcher *)

Section start_facts.
Import filepath.

(** Induction on a directory tree, with the property available for
    every entry of a directory. *)
Lemma Node_tree_ind (P : Node -> Prop) :
  P Missing -> P File ->
  (forall readable entries,
      Forall (fun e => P (snd e)) entries -> P (Dir readable entries)) ->
  forall n, P n.
Proof.
  intros HM HF HD.
  refine (fix IH (n : Node) : P n :=
            match n with
            | Missing => HM
            | File => HF
            | Dir readable entries =>
                HD readable entries
                  ((fix each (es : list (string * Node))
                      : Forall (fun e => P (snd e)) es :=
                      match es with
                      | [] => @List.Forall_nil _ _
                      | e :: rest =>
                          @List.Forall_cons _ _ e rest (IH (snd e)) (each rest)
                      end) entries)
            end).
Qed.

(** A walk whose function always returns nil returns nil. *)
Lemma walk_nil {S : Type}
    (walkFn : string -> option bool -> option WalkErr -> S -> WalkRet * S) :
  (forall path info err s, fst (walkFn path info err s) = RetNil) ->
  forall n path s, fst (walk walkFn path n s) = RetNil.
Proof.
  intros Hnil n. induction n as [| |readable entries Hall] using Node_tree_ind;
    intros path s; simpl; try apply Hnil.
  pose proof (Hnil path (Some true) (if readable then None else Some ReadDirFailed) s)
    as Hr.
  destruct (walkFn path (Some true) _ s) as [r s1]. simpl in Hr. subst r.
  destruct readable; simpl; [|done].
  clear s. revert s1.
  induction Hall as [|[name child] rest Hc Hrest IH]; intros s; [done|].
  simpl in Hc. simpl.
  destruct child as [| |readable' entries'].
  - pose proof (Hnil (path +:+ "/" +:+ name) None (Some LstatFailed) s) as Hr.
    destruct (walkFn _ None _ s) as [r s']. simpl in Hr. subst r. simpl.
    apply IH.
  - pose proof (Hc (path +:+ "/" +:+ name) s) as Hr.
    destruct (walk walkFn _ File s) as [r s']. simpl in Hr. subst r. simpl.
    apply IH.
  - pose proof (Hc (path +:+ "/" +:+ name) s) as Hr.
    destruct (walk walkFn _ (Dir readable' entries') s) as [r s'].
    simpl in Hr. subst r. simpl. apply IH.
Qed.

Lemma Walk_nil {S : Type}
    (walkFn : string -> option bool -> option WalkErr -> S -> WalkRet * S) :
  (forall path info err s, fst (walkFn path info err s) = RetNil) ->
  forall root n s, fst (Walk walkFn root n s) = None.
Proof.
  intros Hnil root n s. unfold Walk.
  destruct n as [| |readable entries].
  - pose proof (Hnil root None (Some LstatFailed) s) as Hr.
    destruct (walkFn root None _ s) as [r s']. simpl in Hr. by subst r.
  - pose proof (walk_nil walkFn Hnil File root s) as Hr.
    destruct (walk walkFn root File s) as [r s']. simpl in Hr. by subst r.
  - pose proof (walk_nil walkFn Hnil (Dir readable entries) root s) as Hr.
    destruct (walk walkFn root (Dir readable entries) s) as [r s'].
    simpl in Hr. by subst r.
Qed.

Lemma addRecursive_fn_nil (addOk : string -> bool) path info err w :
  fst (watcher.addRecursive_fn addOk path info err w) = RetNil.
Proof.
  unfold watcher.addRecursive_fn. destruct err; [done|].
  destruct info as [[|]|]; try done.
  by destruct (watcher.Add addOk path w) as [[e|] w'].
Qed.

(** [Start] never returns an error. *)
Lemma Start_never_fails (addOk : string -> bool) (tree : Node) (w : watcher.Watcher) :
  fst (watcher.Start addOk tree w) = None.
Proof.
  unfold watcher.Start, watcher.addRecursive.
  pose proof (Walk_nil (watcher.addRecursive_fn addOk) (addRecursive_fn_nil addOk)
                (watcher.rootDir w) tree w) as Hw.
  destruct (Walk _ _ tree w) as [[e|] w']; [done|done].
Qed.

(** C9, as the code has it. [Start] itself never fails: every error
    met while registering directories is swallowed, for a subdirectory
    and for the root alike, whether the path is missing, unreadable or
    refused by the watch handle. Starting to watch fails exactly when
    the home directory cannot be determined, when the projects
    directory does not exist, or when the watch handle cannot be
    created. *)
Theorem start_fails_on_missing_root_or_handle_only (sys : main.System) :
  (forall addOk tree w, fst (watcher.Start addOk tree w) = None)
  /\ ((exists err, main.start_watching sys = inr err)
      <-> main.UserHomeDir sys = None
          \/ (exists home,
                 main.UserHomeDir sys = Some home
                 /\ main.Stat sys (main.Join sys [home; ".claude"; "projects"])
                    = os.StatNotExist)
          \/ main.NewWatcherOk sys = false).
Proof.
  split; [apply Start_never_fails|].
  unfold main.start_watching, monitor.GetClaudeProjectsDir, watcher.New.
  destruct (main.UserHomeDir sys) as [home|]; [|split; eauto].
  destruct (main.Stat sys _) eqn:Es; simpl.
  - destruct (main.NewWatcherOk sys).
    + match goal with
      | |- context [watcher.Start ?a ?t ?w] =>
          pose proof (Start_never_fails a t w) as Hs;
          destruct (watcher.Start a t w) as [[e|] w']; [done|]
      end.
      split; [intros [err Herr]; done|].
      intros [?|[(h & ? & ?)|?]]; simplify_eq; congruence.
    + split; eauto.
  - split; [|eauto]. intros _. right. left. eauto.
  - destruct (main.NewWatcherOk sys).
    + match goal with
      | |- context [watcher.Start ?a ?t ?w] =>
          pose proof (Start_never_fails a t w) as Hs;
          destruct (watcher.Start a t w) as [[e|] w']; [done|]
      end.
      split; [intros [err Herr]; done|].
      intros [?|[(h & ? & ?)|?]]; simplify_eq; congruence.
    + split; eauto.
Qed.
End start_facts.

(** * Further properties of the code *)

(** ** Runs of the delivery client *)

Section session_facts.
Context `{langfuse.Transport}.
Import langfuse session.

Lemma ops_cons (o : Op) (os : list Op) (c : Client) (w : Wire) :
  ops (o :: os) (c, w) = ops os (snd (fst (op o c w)), snd (op o c w)).
Proof. unfold ops. simpl. by destruct (op o c w) as [[e c'] w']. Qed.

(** A call adds the event it hands over, if any, to the outbound
    events, and nothing else. *)
Lemma op_outbound (o : Op) (c : Client) (w : Wire) :
  outbound (snd (fst (op o c w))) (snd (op o c w))
  = outbound c w ++ match enqueues o with Some ev => [ev] | None => [] end.
Proof.
  destruct o; simpl.
  - apply CreateTrace_outbound.
  - apply CreateGeneration_outbound.
  - unfold Flush. rewrite flushLocked_outbound. by rewrite app_nil_r.
  - unfold Shutdown, Flush. rewrite flushLocked_outbound. by rewrite app_nil_r.
Qed.

(** X1. The client loses, duplicates and reorders nothing: after any
    sequence of calls of [CreateTrace], [CreateGeneration], [Flush] and
    [Shutdown], whatever the remote end answers, the events it accepted
    followed by the events still buffered are the events that were
    accepted or buffered before, followed by the events handed over, in
    the order of the calls. *)
Theorem client_keeps_every_event_in_order (os : list Op) (c : Client) (w : Wire) :
  outbound (fst (ops os (c, w))) (snd (ops os (c, w)))
  = outbound c w ++ omap enqueues os.
Proof.
  revert c w. induction os as [|o os IH]; intros c w.
  - simpl. by rewrite app_nil_r.
  - rewrite ops_cons, IH, op_outbound, <- app_assoc. f_equal.
    simpl. by destruct (enqueues o).
Qed.

(** No call changes the address, the keys or the batch size. *)
Lemma op_identity (o : Op) (c : Client) (w : Wire) :
  let c' := snd (fst (op o c w)) in
  baseURL c' = baseURL c /\ publicKey c' = publicKey c
  /\ secretKey c' = secretKey c /\ batchSize c' = batchSize c.
Proof.
  assert (forall c w, let c' := snd (fst (flushLocked c w)) in
            baseURL c' = baseURL c /\ publicKey c' = publicKey c
            /\ secretKey c' = secretKey c /\ batchSize c' = batchSize c) as Hf.
  { intros c0 w0. unfold flushLocked.
    destruct (len (events c0) =? 0); [done|].
    destruct (json_Marshal (events c0)); [|done].
    destruct (http_NewRequest _); simpl; [|done].
    destruct (http_Do _ _) as [|st]; [done|]. by destruct (st >=? 400). }
  destruct o; simpl; unfold CreateTrace, CreateGeneration, Shutdown, Flush;
    try apply Hf.
  - destruct (_ >=? _); [|done]. apply (Hf (set_events c _)).
  - destruct (_ >=? _); [|done]. apply (Hf (set_events c _)).
Qed.

(** What one call puts on the wire: nothing, or one request with the
    whole buffer, which is then not empty. *)
Lemma op_wire (o : Op) (c : Client) (w : Wire) :
  snd (op o c w) = w
  \/ exists p, snd (op o c w) = w ++ [p]
       /\ post_batch p <> []
       /\ post_batch p = events c ++ match enqueues o with Some ev => [ev] | None => [] end
       /\ req_url (post_request p) = baseURL c +:+ "/api/public/ingestion"
       /\ req_user (post_request p) = publicKey c
       /\ req_password (post_request p) = secretKey c.
Proof.
  assert (forall c w,
            snd (flushLocked c w) = w
            \/ exists p, snd (flushLocked c w) = w ++ [p]
                 /\ post_batch p <> [] /\ post_batch p = events c
                 /\ req_url (post_request p) = baseURL c +:+ "/api/public/ingestion"
                 /\ req_user (post_request p) = publicKey c
                 /\ req_password (post_request p) = secretKey c) as Hf.
  { intros c0 w0. unfold flushLocked.
    destruct (len (events c0) =? 0) eqn:E; [by left|].
    assert (events c0 <> []) as Hne
      by (intros X; apply len_nil_iff in X; congruence).
    destruct (json_Marshal (events c0)); [|by left].
    destruct (http_NewRequest _); simpl; [|by left].
    right. destruct (http_Do _ _) as [|st]; [by eexists|].
    destruct (st >=? 400); by eexists. }
  destruct o; simpl; unfold CreateTrace, CreateGeneration, Shutdown, Flush.
  - destruct (_ >=? _); [|by left]. apply (Hf (set_events c _)).
  - destruct (_ >=? _); [|by left]. apply (Hf (set_events c _)).
  - destruct (Hf c w) as [?|(p & ? & ? & ? & ?)]; [by left|right].
    exists p. by rewrite app_nil_r.
  - destruct (Hf c w) as [?|(p & ? & ? & ? & ?)]; [by left|right].
    exists p. by rewrite app_nil_r.
Qed.

(** X2. Whatever is called, the client sends at most one request per
    call, never sends an empty batch, and sends every request to the
    ingestion path of its base URL with its own two keys. *)
Theorem client_never_posts_an_empty_batch (os : list Op) (c : Client) (w : Wire) :
  exists posts,
    snd (ops os (c, w)) = w ++ posts
    /\ (length posts <= length os)%nat
    /\ Forall (fun p =>
                 post_batch p <> []
                 /\ req_url (post_request p) = baseURL c +:+ "/api/public/ingestion"
                 /\ req_user (post_request p) = publicKey c
                 /\ req_password (post_request p) = secretKey c) posts.
Proof.
  revert c w. induction os as [|o os IH]; intros c w.
  - exists []. simpl. by rewrite app_nil_r.
  - rewrite ops_cons.
    pose proof (op_wire o c w) as Hw. pose proof (op_identity o c w) as Hi.
    destruct (op o c w) as [[e c'] w']. simpl in *.
    destruct Hi as (Hb & Hp & Hs & _).
    destruct (IH c' w') as (posts & Heq & Hlen & Hall).
    rewrite Hb, Hp, Hs in Hall.
    destruct Hw as [->|(p & -> & Hne & _ & Hu & Hpk & Hsk)].
    + exists posts. split_and!; [done|lia|done].
    + exists (p :: posts). rewrite Heq, <- app_assoc. split_and!; [done|simpl; lia|].
      by constructor.
Qed.

(** X3. A flush that returns no error leaves nothing pending:
    [EventCount] is 0, and a [Flush] or [Shutdown] right after it
    returns no error, sends nothing and changes nothing. *)
Theorem successful_flush_leaves_nothing_pending (c : Client) (w : Wire) :
  fst (fst (Flush c w)) = None ->
  let c' := snd (fst (Flush c w)) in
  let w' := snd (Flush c w) in
  EventCount c' = 0
  /\ Flush c' w' = (None, c', w')
  /\ Shutdown c' w' = (None, c', w').
Proof.
  unfold Shutdown, Flush, EventCount. intros Hok.
  assert (events (snd (fst (flushLocked c w))) = []) as He.
  { revert Hok. unfold flushLocked.
    destruct (len (events c) =? 0) eqn:E; [intros _; by apply len_nil_iff in E|].
    destruct (json_Marshal (events c)); [|done].
    destruct (http_NewRequest _); simpl; [|done].
    destruct (http_Do _ _) as [|st]; [done|]. by destruct (st >=? 400). }
  simpl. rewrite He. split; [done|].
  remember (snd (fst (flushLocked c w))) as c' eqn:Ec.
  remember (snd (flushLocked c w)) as w' eqn:Ew.
  unfold flushLocked. by rewrite He.
Qed.

(** X4. With a remote end that accepts every request (a status below
    400, batches that can be marshalled and addressed), a client with
    the batch size 10 that holds fewer than 10 events holds fewer than
    10 after any sequence of calls. *)
Theorem healthy_endpoint_bounds_the_buffer (os : list Op) (c : Client) (w : Wire) :
  (forall evs, json_Marshal evs <> None) ->
  (forall url, http_NewRequest url = true) ->
  (forall n req, exists status, http_Do n req = Response status /\ status < 400) ->
  batchSize c = 10 -> EventCount c < 10 ->
  0 <= EventCount (fst (ops os (c, w))) < 10.
Proof.
  intros Hm Hr Hd Hb Hc.
  revert c w Hb Hc. induction os as [|o os IH]; intros c w Hb Hc.
  { simpl. unfold EventCount, len in *. lia. }
  rewrite ops_cons.
  pose proof (op_identity o c w) as (_ & _ & _ & Hb').
  assert (EventCount (snd (fst (op o c w))) < 10) as Hc'.
  { assert (forall c0 w0, events c0 <> [] ->
              events (snd (fst (flushLocked c0 w0))) = []) as Hf.
    { intros c0 w0 Hne. unfold flushLocked.
      destruct (len (events c0) =? 0) eqn:E; [by apply len_nil_iff in E|].
      destruct (json_Marshal (events c0)) eqn:Em; [|by apply Hm in Em].
      rewrite Hr. simpl.
      destruct (Hd (length w0) {| req_url := baseURL c0 +:+ "/api/public/ingestion";
                                  req_user := publicKey c0;
                                  req_password := secretKey c0;
                                  req_body := s |}) as (st & -> & Hst).
      destruct (st >=? 400) eqn:E4; [apply Z.geb_le in E4; lia|done]. }
    assert (len (@nil Event) < 10) as H0 by done.
    unfold EventCount in *.
    destruct o; simpl; unfold CreateTrace, CreateGeneration, Shutdown, Flush.
    - destruct (_ >=? _) eqn:E.
      + rewrite Hf; [done|]. simpl. by destruct (events c).
      + simpl in *. rewrite Hb in E. rewrite Z.geb_leb in E. by apply Z.leb_gt in E.
    - destruct (_ >=? _) eqn:E.
      + rewrite Hf; [done|]. simpl. by destruct (events c).
      + simpl in *. rewrite Hb in E. rewrite Z.geb_leb in E. by apply Z.leb_gt in E.
    - destruct (events c) eqn:Ee.
      + unfold flushLocked. rewrite Ee. simpl. by rewrite Ee.
      + rewrite Hf; [done|]. by rewrite Ee.
    - destruct (events c) eqn:Ee.
      + unfold flushLocked. rewrite Ee. simpl. by rewrite Ee.
      + rewrite Hf; [done|]. by rewrite Ee. }
  destruct (op o c w) as [[e c'] w']. simpl in *.
  apply IH; [congruence|done].
Qed.

(** X5. With a remote end that cannot be reached nothing is delivered
    and nothing is dropped: after any sequence of calls the buffer
    holds what it held followed by every event handed over, in order,
    so it grows without bound. *)
Theorem unreachable_endpoint_keeps_every_event (os : list Op) (c : Client) (w : Wire) :
  (forall n req, http_Do n req = TransportError) ->
  let c' := fst (ops os (c, w)) in
  events c' = events c ++ omap enqueues os
  /\ delivered (snd (ops os (c, w))) = delivered w.
Proof.
  intros Hd. cbv zeta.
  assert (forall c0 w0, snd (fst (flushLocked c0 w0)) = c0
                        /\ delivered (snd (flushLocked c0 w0)) = delivered w0) as Hf.
  { intros c0 w0. unfold flushLocked.
    destruct (len (events c0) =? 0); [done|].
    destruct (json_Marshal (events c0)); [|done].
    destruct (http_NewRequest _); simpl; [|done].
    rewrite Hd. simpl. rewrite delivered_snoc. unfold accepted. simpl.
    by rewrite app_nil_r. }
  revert c w. induction os as [|o os IH]; intros c w.
  { simpl. by rewrite app_nil_r. }
  rewrite ops_cons.
  assert (events (snd (fst (op o c w)))
          = events c ++ match enqueues o with Some ev => [ev] | None => [] end
          /\ delivered (snd (op o c w)) = delivered w) as [He Hw].
  { destruct o; simpl; unfold CreateTrace, CreateGeneration, Shutdown, Flush.
    - destruct (_ >=? _); [|done].
      by destruct (Hf (set_events c (events c ++ [{| Type_ := "trace-create";
                                                   Body_ := BodyTrace trace |}])) w)
        as [-> ->].
    - destruct (_ >=? _); [|done].
      by destruct (Hf (set_events c (events c ++ [{| Type_ := "generation-create";
                                                   Body_ := BodyGeneration gen |}])) w)
        as [-> ->].
    - destruct (Hf c w) as [-> ->]. by rewrite app_nil_r.
    - destruct (Hf c w) as [-> ->]. by rewrite app_nil_r. }
  destruct (op o c w) as [[e c'] w']. simpl in *.
  destruct (IH c' w') as [IH1 IH2].
  rewrite IH1, IH2, He, Hw, <- app_assoc. split; [|done]. f_equal.
  by destruct (enqueues o).
Qed.
End session_facts.

(** ** Runs of the monitor *)

Section monitor_runs.
Context `{langfuse.Transport} `{monitor.Runtime}.
Import monitor.

(** A property of the monitor and its world that [ProcessMessage]
    keeps is kept by the scanner loop. *)
Lemma lines_loop_keeps_state (P : Monitor * World -> Prop) :
  (forall entry sid pp cid m w,
      P (m, w) -> P (ProcessMessage entry sid pp cid m w)) ->
  forall lines sid pp cid st,
    P st -> P (fold_left (ProcessConversationFile_line sid pp cid) lines st).
Proof.
  intros Hpm lines sid pp cid.
  induction lines as [|line lines IH]; intros [m w] HP; [done|].
  simpl. apply IH. unfold ProcessConversationFile_line. simpl.
  destruct (String.eqb _ ""); [done|].
  destruct (json_Unmarshal_Entry line) as [entry|]; [|done].
  by apply Hpm.
Qed.

Lemma ProcessConversationFile_keeps_state (P : Monitor * World -> Prop) :
  (forall entry sid pp cid m w,
      P (m, w) -> P (ProcessMessage entry sid pp cid m w)) ->
  (forall m w s, P (m, w) -> P (set_conversationSessions m s, w)) ->
  (forall m w line, P (m, w) -> P (m, print w line)) ->
  forall filepath m w, P (m, w) -> P (ProcessConversationFile filepath m w).
Proof.
  intros Hpm Hcs Hpr filepath m w HP. unfold ProcessConversationFile.
  destruct (_ || _); [done|].
  match goal with
  | |- context [match conversationSessions m !! filepath with _ => _ end] =>
      destruct (conversationSessions m !! filepath) as [sessionID|]
  end.
  - destruct (files w !! filepath) as [content|]; [|by apply Hpr].
    by apply lines_loop_keeps_state.
  - destruct (files w !! filepath) as [content|]; [|by apply Hpr, Hcs].
    apply lines_loop_keeps_state; [done|]. by apply Hcs.
Qed.

(** A property kept by [ProcessMessage], by a change of the session
    cache, by a printed line, by [Shutdown] and by a change of the
    files is kept by every sequence of calls. *)
Lemma calls_keep_state (P : Monitor * World -> Prop) :
  (forall entry sid pp cid m w,
      P (m, w) -> P (ProcessMessage entry sid pp cid m w)) ->
  (forall m w s, P (m, w) -> P (set_conversationSessions m s, w)) ->
  (forall m w line, P (m, w) -> P (m, print w line)) ->
  (forall m w, P (m, w) -> P (snd (fst (Shutdown m w)), snd (Shutdown m w))) ->
  (forall m w fs,
      P (m, w) -> P (m, {| wire := wire w; console := console w;
                           clockReads := clockReads w; files := fs |})) ->
  forall cs st, P st -> P (calls cs st).
Proof.
  intros Hpm Hcs Hpr Hsh Hfs cs.
  induction cs as [|c cs IH]; intros [m w] HP; [done|].
  simpl. apply IH. destruct c; simpl.
  - by apply ProcessConversationFile_keeps_state.
  - by apply Hpm.
  - specialize (Hsh m w HP). by destruct (Shutdown m w) as [[e m'] w'].
  - by apply Hfs.
Qed.

(** A flush moves events from the buffer to the remote end or leaves
    them: the outbound events are the same. *)
Lemma Shutdown_emitted (m : Monitor) (w : World) :
  emitted (snd (fst (Shutdown m w))) (snd (Shutdown m w)) = emitted m w.
Proof.
  unfold Shutdown, emitted. destruct (client m) as [c|] eqn:Ec; simpl; [|by rewrite Ec].
  pose proof (flushLocked_outbound c (wire w)) as Ho.
  unfold langfuse.Shutdown, langfuse.Flush.
  destruct (langfuse.flushLocked c (wire w)) as [[e c'] w']. simpl in *. done.
Qed.

(** X6. A monitor created by [New], started with nothing sent yet
    and used in any way (files processed, entries processed, flushes,
    files changing), never emits two events with the same id, and
    every id it emitted is marked in the ledger. *)
Theorem no_id_is_emitted_twice (opts : Options) (cfg : Config)
    (m0 : Monitor) (w0 : World) (cs : list Call) :
  New opts (inl cfg) = inl m0 ->
  wire w0 = [] ->
  let st := calls cs (m0, w0) in
  let ids := map (fun ev => langfuse.Body_ID (langfuse.Body_ ev))
               (emitted (fst st) (snd st)) in
  NoDup ids /\ (forall id, id ∈ ids -> processed (fst st) id = true).
Proof.
  intros Hnew Hwire. cbv zeta.
  set (P := fun st : Monitor * World =>
              let ids := map (fun ev => langfuse.Body_ID (langfuse.Body_ ev))
                           (emitted (fst st) (snd st)) in
              NoDup ids /\ (forall id, id ∈ ids -> processed (fst st) id = true)).
  change (P (calls cs (m0, w0))).
  apply calls_keep_state; subst P; cbv beta zeta; simpl.
  - intros entry sid pp cid m w [Hnd Hin].
    destruct (ProcessMessage_guards entry sid pp cid m w) as [->|(Hk & Hid & Hf)];
      [done|].
    pose proof (ProcessMessage_fresh_emitted entry sid pp cid m w Hk Hid Hf)
      as [Hlive Hdry].
    pose proof (ProcessMessage_fresh_ledger entry sid pp cid m w Hk Hid Hf)
      as (Hpm & _).
    assert (forall id, processed m id = true ->
                       processed (fst (ProcessMessage entry sid pp cid m w)) id = true)
      as Hmono by (intros; by apply ProcessMessage_processed_mono).
    destruct (client m) as [c|] eqn:Ec; [destruct (DryRun (options m)) eqn:Ed|].
    + rewrite Hdry by auto. split; [done|]. intros id Hid'. by apply Hmono, Hin.
    + destruct Hlive as (ev & -> & Hev); [done|done|].
      rewrite map_app. simpl. rewrite Hev. split.
      * apply NoDup_app. split; [done|]. split; [|apply NoDup_singleton].
        intros id Hid' Hx. apply list_elem_of_singleton in Hx. subst id.
        apply Hin in Hid'. congruence.
      * intros id Hid'. apply elem_of_app in Hid' as [Hid'|Hid'].
        -- by apply Hmono, Hin.
        -- apply list_elem_of_singleton in Hid'. subst id.
           unfold processed. rewrite Hpm. by rewrite lookup_insert_eq.
    + rewrite Hdry by auto. split; [done|]. intros id Hid'. by apply Hmono, Hin.
  - done.
  - done.
  - intros m w [Hnd Hin]. rewrite Shutdown_emitted. split; [done|].
    intros id Hid'. pose proof (Shutdown_ledger m w) as Hl.
    unfold ledger in Hl. unfold processed. simplify_eq.
    match goal with Hp : processedMessages _ = processedMessages _ |- _ => rewrite Hp end.
    by apply Hin.
  - done.
  - unfold New in Hnew. simplify_eq. unfold emitted. simpl. rewrite Hwire.
    destruct (negb (DryRun opts)); simpl; split; try apply NoDup_nil_2;
      intros id Hid'; by apply elem_of_nil in Hid'.
Qed.

(** X7. A monitor created by [New] in dry-run mode has no client and
    keeps none: whatever is called, no request is sent and no event is
    buffered. *)
Theorem dry_run_never_sends (opts : Options) (cfg : Config)
    (m0 : Monitor) (w0 : World) (cs : list Call) :
  New opts (inl cfg) = inl m0 ->
  DryRun opts = true ->
  let st := calls cs (m0, w0) in
  client (fst st) = None
  /\ wire (snd st) = wire w0
  /\ emitted (fst st) (snd st) = langfuse.delivered (wire w0).
Proof.
  intros Hnew Hdry. cbv zeta.
  assert (client (fst (calls cs (m0, w0))) = None
          /\ wire (snd (calls cs (m0, w0))) = wire w0) as [Hc Hw].
  { set (P := fun st : Monitor * World =>
                client (fst st) = None /\ wire (snd st) = wire w0).
    change (P (calls cs (m0, w0))).
    apply calls_keep_state; subst P; cbv beta; simpl; try done.
    - intros entry sid pp cid m w [Hc Hw].
      destruct (ProcessMessage_guards entry sid pp cid m w) as [->|(Hk & Hid & Hf)];
        [done|].
      destruct (ProcessMessage_fresh entry sid pp cid m w Hk Hid Hf)
        as (m1 & w1 & text & ts & _ & _ & _ & _ & Hc1 & _ & _ & Hw1 & _ & _ & ->).
      rewrite Hc1, Hc. simpl. split; congruence.
    - intros m w [Hc Hw]. unfold Shutdown. by rewrite Hc.
    - unfold New in Hnew. simplify_eq. simpl. by rewrite Hdry. }
  split_and!; try done. unfold emitted. rewrite Hc, Hw. by rewrite app_nil_r.
Qed.

(** X8. For a monitor created by [New] and used in any way, the ids
    that read as processed are exactly the keys of the ledger, and as
    long as the ledger holds fewer than 2^63 ids the two counters are
    not negative and add up to the number of ids in the ledger. *)
Theorem counters_count_the_ledger (opts : Options) (cfg : Config)
    (m0 : Monitor) (w0 : World) (cs : list Call) :
  New opts (inl cfg) = inl m0 ->
  let m := fst (calls cs (m0, w0)) in
  (forall id, processed m id = true <-> id ∈ dom (processedMessages m))
  /\ (Z.of_nat (size (processedMessages m)) < 2 ^ 63 ->
      0 <= fst (MessageStats m) /\ 0 <= snd (MessageStats m)
      /\ fst (MessageStats m) + snd (MessageStats m)
         = Z.of_nat (size (processedMessages m))).
Proof.
  intros Hnew. cbv zeta.
  set (P := fun st : Monitor * World =>
              (forall id v, processedMessages (fst st) !! id = Some v -> v = true)
              /\ (Z.of_nat (size (processedMessages (fst st))) < 2 ^ 63 ->
                  0 <= messageCount_user (fst st)
                  /\ 0 <= messageCount_assistant (fst st)
                  /\ messageCount_user (fst st) + messageCount_assistant (fst st)
                     = Z.of_nat (size (processedMessages (fst st))))).
  assert (P (calls cs (m0, w0))) as [Hv Hc].
  { apply calls_keep_state; subst P; cbv beta; simpl; try done.
    - intros entry sid pp cid m w [Hv Hc].
      destruct (ProcessMessage_guards entry sid pp cid m w) as [->|(Hk & Hid & Hf)];
        [done|].
      destruct (ProcessMessage_fresh_ledger entry sid pp cid m w Hk Hid Hf)
        as (Hpm & _ & _ & _ & _ & Hu & Ha).
      assert (processedMessages m !! Entry_UUID entry = None) as Hnone.
      { unfold processed in Hf.
        destruct (processedMessages m !! Entry_UUID entry) as [v|] eqn:E; [|done].
        apply Hv in E. subst v. done. }
      rewrite Hpm. split.
      + intros id v. rewrite lookup_insert. case_decide; [congruence|apply Hv].
      + rewrite map_size_insert_None by done. intros Hsz.
        destruct Hc as (H0u & H0a & Hsum); [lia|].
        assert (forall x, 0 <= x < 2 ^ 63 - 1 -> int_incr x = x + 1) as Hincr.
        { intros x Hx. unfold int_incr, wrap64.
          rewrite Z.mod_small by lia. lia. }
        destruct Hk as [Hk|Hk].
        * destruct (Hu Hk) as [-> ->]. rewrite Hincr by lia. lia.
        * destruct (Ha Hk) as [-> ->]. rewrite Hincr by lia. lia.
    - intros m w [Hv Hc]. pose proof (Shutdown_ledger m w) as Hl.
      unfold ledger in Hl. simplify_eq.
      repeat match goal with Hp : _ (snd (fst (Shutdown m w))) = _ |- _ =>
                               rewrite Hp; clear Hp end.
      done.
    - unfold New in Hnew. simplify_eq. simpl. split; [intros id v; by rewrite lookup_empty|].
      rewrite map_size_empty. lia. }
  split; [|exact Hc].
  intros id. unfold processed. rewrite elem_of_dom. split.
  - destruct (processedMessages _ !! id); [eauto|done].
  - intros [v Hid]. rewrite Hid. simpl. by apply Hv in Hid.
Qed.
End monitor_runs.

(** ** Reading a file again *)

Section reread.
Context `{langfuse.Transport} `{monitor.Runtime}.
Import monitor.

(** After the scanner loop every entry of the lines that passes the
    guards of [ProcessMessage] is in the ledger. *)
Lemma lines_loop_marks (lines : list string) (sid pp cid : string)
    (st : Monitor * World) (line : string) (entry : Entry) :
  line ∈ lines ->
  strings_TrimSpace line <> "" ->
  json_Unmarshal_Entry line = Some entry ->
  Entry_Type entry = "user" \/ Entry_Type entry = "assistant" ->
  Entry_UUID entry <> "" ->
  processed (fst (fold_left (ProcessConversationFile_line sid pp cid) lines st))
    (Entry_UUID entry) = true.
Proof.
  intros Hin Hnb Hparse Hk Hid. revert st.
  induction lines as [|l lines IH]; intros [m w]; [by apply elem_of_nil in Hin|].
  apply elem_of_cons in Hin as [<-|Hin]; [|by apply IH].
  simpl.
  match goal with
  | |- context [fold_left ?f lines ?st0] => destruct st0 as [m1 w1] eqn:E
  end.
  apply (lines_loop_keeps (fun m => processed m (Entry_UUID entry) = true));
    [intros; by apply ProcessMessage_processed_mono|].
  unfold ProcessConversationFile_line in E. simpl in E.
  apply String.eqb_neq in Hnb. rewrite Hnb, Hparse in E.
  change m1 with (fst (m1, w1)). rewrite <- E.
  destruct (processed m (Entry_UUID entry)) eqn:Ep.
  - by apply ProcessMessage_processed_mono.
  - destruct (ProcessMessage_fresh_ledger entry sid pp cid m w Hk Hid Ep) as (Hpm & _).
    unfold processed. rewrite Hpm. by rewrite lookup_insert_eq.
Qed.

(** On a state whose ledger holds every entry of the lines that passes
    the guards, the scanner loop does nothing. *)
Lemma lines_loop_done (lines : list string) (sid pp cid : string)
    (m : Monitor) (w : World) :
  (forall line entry,
      line ∈ lines -> strings_TrimSpace line <> "" ->
      json_Unmarshal_Entry line = Some entry ->
      Entry_Type entry = "user" \/ Entry_Type entry = "assistant" ->
      Entry_UUID entry <> "" ->
      processed m (Entry_UUID entry) = true) ->
  fold_left (ProcessConversationFile_line sid pp cid) lines (m, w) = (m, w).
Proof.
  induction lines as [|l lines IH]; intros Hdone; [done|].
  simpl.
  assert (ProcessConversationFile_line sid pp cid (m, w) l = (m, w)) as ->.
  { unfold ProcessConversationFile_line. simpl.
    destruct (String.eqb (strings_TrimSpace l) "") eqn:Eb; [done|].
    destruct (json_Unmarshal_Entry l) as [entry|] eqn:Ep; [|done].
    destruct (ProcessMessage_guards entry sid pp cid m w) as [->|(Hk & Hid & Hf)];
      [done|].
    apply String.eqb_neq in Eb.
    rewrite (Hdone l entry) in Hf; [done|by left|done..]. }
  apply IH. intros line entry Hin. apply Hdone. by right.
Qed.

(** A session id in the cache stays there, unchanged, whatever is called. *)
Lemma calls_keep_session (cs : list Call) (st : Monitor * World)
    (filepath sid : string) :
  conversationSessions (fst st) !! filepath = Some sid ->
  conversationSessions (fst (calls cs st)) !! filepath = Some sid.
Proof.
  revert st. induction cs as [|c cs IH]; intros [m w] Hs; [done|].
  simpl. apply IH. destruct c; simpl in *.
  - unfold ProcessConversationFile. destruct (_ || _); [done|].
    match goal with
    | |- context [match conversationSessions m !! ?p with _ => _ end] =>
        destruct (conversationSessions m !! p) as [sessionID|] eqn:Ec
    end.
    + destruct (files w !! filepath0) as [content|]; [|done].
      apply (lines_loop_keeps
               (fun m => conversationSessions m !! filepath = Some sid)); [|done].
      intros entry s p c0 m' w' Hm'.
      by destruct (ProcessMessage_sessions entry s p c0 m' w') as [-> _].
    + assert (filepath0 <> filepath) as Hne by (intros ->; congruence).
      destruct (files w !! filepath0) as [content|];
        [|simpl; by rewrite lookup_insert_ne].
      apply (lines_loop_keeps
               (fun m => conversationSessions m !! filepath = Some sid)).
      * intros entry s p c0 m' w' Hm'.
        by destruct (ProcessMessage_sessions entry s p c0 m' w') as [-> _].
      * simpl. by rewrite lookup_insert_ne.
  - by destruct (ProcessMessage_sessions entry sessionID projectPath conversationID m w)
      as [-> _].
  - pose proof (Shutdown_ledger m w) as Hl.
    destruct (Shutdown m w) as [[e m'] w']. simpl in *.
    unfold ledger in Hl. simplify_eq. congruence.
  - done.
Qed.

(** A further call for a file that was read, after any calls, the
    file holding the same content: nothing changes. *)
Lemma reread_noop
    (filepath content : string) (m : Monitor) (w : World) (cs : list Call) :
  rejected filepath = false ->
  files w !! filepath = Some content ->
  let st := calls cs (ProcessConversationFile filepath m w) in
  files (snd st) !! filepath = Some content ->
  ProcessConversationFile filepath (fst st) (snd st) = st.
Proof.
  intros Hacc Hfile st Hsame.
  rewrite (ProcessConversationFile_accepted filepath (fst st) (snd st) Hacc).
  rewrite Hsame.
  pose proof (ProcessConversationFile_accepted filepath m w Hacc) as H1.
  cbv zeta in H1. rewrite Hfile in H1.
  set (sid := default (sessionIDOf filepath) (conversationSessions m !! filepath)) in *.
  set (m1 := set_conversationSessions m (<[filepath := sid]> (conversationSessions m)))
    in *.
  assert (conversationSessions (fst st) !! filepath = Some sid) as Hsid.
  { subst st. apply calls_keep_session. rewrite H1.
    apply (lines_loop_keeps (fun m => conversationSessions m !! filepath = Some sid)).
    - intros entry s p c0 m' w' Hm'.
      by destruct (ProcessMessage_sessions entry s p c0 m' w') as [-> _].
    - subst m1. simpl. by rewrite lookup_insert_eq. }
  rewrite Hsid. simpl. rewrite insert_id by done.
  assert (set_conversationSessions (fst st) (conversationSessions (fst st)) = fst st)
    as -> by (by destruct (fst st)).
  rewrite lines_loop_done; [by destruct st|].
  intros line entry Hin Hnb Hparse Hk Hid.
  subst st. apply calls_processed_mono. rewrite H1.
  by apply (lines_loop_marks _ _ _ _ _ line).
Qed.
(** X9. Reading a conversation file again changes nothing: once
    [ProcessConversationFile] has read a file that can be opened, and
    whatever is called afterwards, a further call for the same path,
    the file holding the same content, returns the monitor and the
    world as they are; nothing is counted, printed, sent or buffered,
    and the clock is not read. *)
Theorem reading_a_file_again_changes_nothing
    (filepath content : string) (m : Monitor) (w : World) (cs : list Call) :
  rejected filepath = false ->
  files w !! filepath = Some content ->
  let st := calls cs (ProcessConversationFile filepath m w) in
  files (snd st) !! filepath = Some content ->
  ProcessConversationFile filepath (fst st) (snd st) = st.
Proof. apply reread_noop. Qed.
End reread.

(** ** What is emitted and printed for an entry *)

Section events.
Context `{langfuse.Transport} `{monitor.Runtime}.
Import monitor.

(** X10. On a monitor with a client and not in dry-run mode, a user
    entry with an id that is not in the ledger adds exactly one event
    to the outbound events, after those that are there: a trace-create
    with the entry's id, the session id, the user id and the trace name
    of the configuration, the text extracted from the payload as input,
    the six metadata entries, and as timestamp the entry's timestamp
    when it is not empty and parses as RFC 3339, the clock otherwise. *)
Theorem user_entry_becomes_a_trace (entry : Entry) (sid pp cid : string)
    (m : Monitor) (w : World) (c : langfuse.Client) :
  client m = Some c -> DryRun (options m) = false ->
  Entry_Type entry = "user" -> Entry_UUID entry <> "" ->
  processed m (Entry_UUID entry) = false ->
  let st := ProcessMessage entry sid pp cid m w in
  let now := time_Now (clockReads w) in
  emitted (fst st) (snd st)
  = emitted m w
    ++ [{| langfuse.Type_ := "trace-create";
           langfuse.Body_ :=
             langfuse.BodyTrace
               {| langfuse.Trace_ID := Entry_UUID entry;
                  langfuse.Trace_Name := UserTraceName (config m);
                  langfuse.Trace_SessionID := sid;
                  langfuse.Trace_UserID := UserID (config m);
                  langfuse.Trace_Metadata :=
                    <["project" := pp]>
                    (<["conversationId" := cid]>
                    (<["gitBranch" := Entry_GitBranch entry]>
                    (<["cwd" := Entry_Cwd entry]>
                    (<["messageType" := "user"]>
                    (<["source" := Source (config m)]> ∅)))));
                  langfuse.Trace_Input := extractContent (Entry_Message entry);
                  langfuse.Trace_Timestamp :=
                    if String.eqb (Entry_Timestamp entry) "" then now
                    else default now (time_Parse_RFC3339 (Entry_Timestamp entry)) |} |}].
Proof.
  intros Hc Hdry Hu Hid Hp. cbv zeta.
  unfold ProcessMessage. rewrite Hu. simpl.
  apply String.eqb_neq in Hid. rewrite Hid, Hp. simpl. rewrite Hdry, Hc.
  match goal with
  | |- context [ProcessMessage_deliver ?e ?a ?b ?c0 ?t ?ts ?cl ?mm ?ww] =>
      set (m1 := mm); set (w1 := ww); set (ts0 := ts)
  end.
  unfold ProcessMessage_deliver. rewrite Hu. simpl.
  match goal with
  | |- context [langfuse.CreateTrace ?t c ?wi] =>
      pose proof (CreateTrace_outbound t c wi) as Ho;
      destruct (langfuse.CreateTrace t c wi) as [[e c'] w'] eqn:Ec
  end.
  simpl in Ho.
  assert (wire w1 = wire w) as Hw1 by (subst w1; by destruct (negb (Quiet _))).
  assert (ts0 = if String.eqb (Entry_Timestamp entry) "" then time_Now (clockReads w)
                else default (time_Now (clockReads w))
                       (time_Parse_RFC3339 (Entry_Timestamp entry))) as Hts.
  { subst ts0. destruct (String.eqb (Entry_Timestamp entry) ""); simpl; [done|].
    by destruct (time_Parse_RFC3339 _). }
  unfold emitted. rewrite Hc.
  unfold langfuse.outbound in Ho. rewrite Hw1 in Ho.
  destruct e; simpl; rewrite Ho; subst m1; simpl; by rewrite Hts.
Qed.

(** X11. On a monitor with a client and not in dry-run mode, an
    assistant entry with an id that is not in the ledger adds exactly
    one event to the outbound events: a generation-create with the
    entry's id, its parent's id as trace id, equal start and end
    times, and a model that is the payload's model when the payload
    decodes with a model that is neither empty nor "<synthetic>", and
    the configured model in every other case. *)
Theorem assistant_entry_becomes_a_generation (entry : Entry) (sid pp cid : string)
    (m : Monitor) (w : World) (c : langfuse.Client) :
  client m = Some c -> DryRun (options m) = false ->
  Entry_Type entry = "assistant" -> Entry_UUID entry <> "" ->
  processed m (Entry_UUID entry) = false ->
  let st := ProcessMessage entry sid pp cid m w in
  let now := time_Now (clockReads w) in
  let timestamp :=
    if String.eqb (Entry_Timestamp entry) "" then now
    else default now (time_Parse_RFC3339 (Entry_Timestamp entry)) in
  exists model,
    emitted (fst st) (snd st)
    = emitted m w
      ++ [{| langfuse.Type_ := "generation-create";
             langfuse.Body_ :=
               langfuse.BodyGeneration
                 {| langfuse.Generation_ID := Entry_UUID entry;
                    langfuse.Generation_TraceID := Entry_ParentUUID entry;
                    langfuse.Generation_Name := AssistantTraceName (config m);
                    langfuse.Generation_Model := model;
                    langfuse.Generation_Metadata :=
                      <["project" := pp]>
                      (<["conversationId" := cid]>
                      (<["requestId" := Entry_RequestID entry]>
                      (<["messageType" := "assistant"]>
                      (<["source" := Source (config m)]> ∅))));
                    langfuse.Generation_Output := extractContent (Entry_Message entry);
                    langfuse.Generation_StartTime := timestamp;
                    langfuse.Generation_EndTime := timestamp |} |}]
    /\ (model = Model (config m)
        \/ (exists msgContent,
              json_Unmarshal_MessageContent (Entry_Message entry) = Some msgContent
              /\ model = Message_Model msgContent)
           /\ model <> "" /\ model <> "<synthetic>")
    /\ (forall msgContent,
          Entry_Message entry <> "" ->
          json_Unmarshal_MessageContent (Entry_Message entry) = Some msgContent ->
          Message_Model msgContent <> "" ->
          Message_Model msgContent <> "<synthetic>" ->
          model = Message_Model msgContent).
Proof.
  intros Hc Hdry Ha Hid Hp. cbv zeta.
  unfold ProcessMessage. rewrite Ha. simpl.
  apply String.eqb_neq in Hid. rewrite Hid, Hp. simpl. rewrite Hdry, Hc.
  match goal with
  | |- context [ProcessMessage_deliver ?e ?a ?b ?c0 ?t ?ts ?cl ?mm ?ww] =>
      set (m1 := mm); set (w1 := ww); set (ts0 := ts)
  end.
  unfold ProcessMessage_deliver. rewrite Ha. simpl.
  set (model := if String.eqb (extractModel (Entry_Message entry)) ""
                then Model (config m1) else extractModel (Entry_Message entry)).
  exists model.
  match goal with
  | |- context [langfuse.CreateGeneration ?t c ?wi] =>
      pose proof (CreateGeneration_outbound t c wi) as Ho;
      destruct (langfuse.CreateGeneration t c wi) as [[e c'] w'] eqn:Ec
  end.
  simpl in Ho.
  assert (wire w1 = wire w) as Hw1 by (subst w1; by destruct (negb (Quiet _))).
  assert (ts0 = if String.eqb (Entry_Timestamp entry) "" then time_Now (clockReads w)
                else default (time_Now (clockReads w))
                       (time_Parse_RFC3339 (Entry_Timestamp entry))) as Hts.
  { subst ts0. destruct (String.eqb (Entry_Timestamp entry) ""); simpl; [done|].
    by destruct (time_Parse_RFC3339 _). }
  split_and!.
  - unfold emitted. rewrite Hc.
    unfold langfuse.outbound in Ho. rewrite Hw1 in Ho.
    destruct e; simpl; rewrite Ho; subst m1; simpl; by rewrite Hts.
  - subst model. unfold extractModel.
    destruct (Z.of_nat (String.length (Entry_Message entry)) =? 0); [by left|].
    destruct (json_Unmarshal_MessageContent (Entry_Message entry)) as [mc|];
      [|by left].
    destruct (String.eqb (Message_Model mc) "") eqn:E1; [by left|].
    destruct (String.eqb (Message_Model mc) "<synthetic>") eqn:E2; [by left|].
    simpl. rewrite E1. right.
    apply String.eqb_neq in E1, E2. split_and!; eauto.
  - intros mc Hne Hmc H1 H2. subst model. unfold extractModel.
    rewrite length_zero_iff_empty.
    apply String.eqb_neq in Hne, H1, H2. rewrite Hne, Hmc, H1, H2. simpl.
    by rewrite H1.
Qed.




End events.

(** ** The ids a file adds *)

Section order.
Context `{langfuse.Transport} `{monitor.Runtime}.
Import monitor reading.

(** One line of the scanner loop: it is skipped, or it adds its id. *)
Lemma line_cases (line sid pp cid : string) (m : Monitor) (w : World) :
  let st1 := ProcessConversationFile_line sid pp cid (m, w) line in
  (st1 = (m, w)
   /\ forall rest, newIds (line :: rest) (processedMessages m)
                   = newIds rest (processedMessages m))
  \/ (exists id,
        processedMessages (fst st1) = <[id := true]> (processedMessages m)
        /\ options (fst st1) = options m
        /\ (client m = None <-> client (fst st1) = None)
        /\ (forall rest, newIds (line :: rest) (processedMessages m)
                         = id :: newIds rest (<[id := true]> (processedMessages m)))
        /\ (client m <> None -> DryRun (options m) = false ->
            exists ev, emitted (fst st1) (snd st1) = emitted m w ++ [ev]
                       /\ langfuse.Body_ID (langfuse.Body_ ev) = id)
        /\ (client m = None \/ DryRun (options m) = true ->
            emitted (fst st1) (snd st1) = emitted m w)).
Proof.
  unfold ProcessConversationFile_line. simpl.
  destruct (String.eqb (strings_TrimSpace line) ""); [by left|].
  destruct (json_Unmarshal_Entry line) as [entry|]; [|by left].
  destruct (ProcessMessage_guards entry sid pp cid m w) as [Heq|(Hk & Hid & Hf)].
  - left. split; [done|]. intros rest.
    assert ((String.eqb (Entry_Type entry) "user"
             || String.eqb (Entry_Type entry) "assistant")
            && negb (String.eqb (Entry_UUID entry) "")
            && negb (default false (processedMessages m !! Entry_UUID entry)) = false)
      as ->; [|done].
    apply not_true_is_false. intros Hall.
    apply andb_true_iff in Hall as [Hall Hp].
    apply andb_true_iff in Hall as [Hk Hid].
    apply negb_true_iff in Hp, Hid. apply String.eqb_neq in Hid.
    assert (Entry_Type entry = "user" \/ Entry_Type entry = "assistant") as Hk'.
    { apply orb_true_iff in Hk as [Hk|Hk]; apply String.eqb_eq in Hk; auto. }
    destruct (ProcessMessage_fresh_ledger entry sid pp cid m w Hk' Hid Hp) as (Hpm & _).
    rewrite Heq in Hpm. simpl in Hpm.
    assert (processedMessages m !! Entry_UUID entry = Some true) as Hl
      by (rewrite Hpm; apply lookup_insert_eq).
    by rewrite Hl in Hp.
  - right. exists (Entry_UUID entry).
    destruct (ProcessMessage_fresh_ledger entry sid pp cid m w Hk Hid Hf)
      as (Hpm & _ & Ho & _ & Hc & _).
    destruct (ProcessMessage_fresh_emitted entry sid pp cid m w Hk Hid Hf)
      as [Hlive Hdry].
    split_and!; try done.
    intros rest.
    assert ((String.eqb (Entry_Type entry) "user"
             || String.eqb (Entry_Type entry) "assistant")
            && negb (String.eqb (Entry_UUID entry) "")
            && negb (default false (processedMessages m !! Entry_UUID entry)) = true)
      as ->; [|done].
    apply andb_true_iff. split; [apply andb_true_iff; split|].
    + destruct Hk as [->| ->]; done.
    + apply negb_true_iff. by apply String.eqb_neq.
    + apply negb_true_iff. exact Hf.
Qed.

Lemma lines_loop_newIds (lines : list string) (sid pp cid : string) :
  forall (m : Monitor) (w : World),
    let st := fold_left (ProcessConversationFile_line sid pp cid) lines (m, w) in
    let ids := newIds lines (processedMessages m) in
    processedMessages (fst st)
    = fold_left (fun ledger id => <[id := true]> ledger) ids (processedMessages m)
    /\ (client m <> None -> DryRun (options m) = false ->
        map (fun ev => langfuse.Body_ID (langfuse.Body_ ev)) (emitted (fst st) (snd st))
        = map (fun ev => langfuse.Body_ID (langfuse.Body_ ev)) (emitted m w) ++ ids)
    /\ (client m = None \/ DryRun (options m) = true ->
        emitted (fst st) (snd st) = emitted m w).
Proof.
  induction lines as [|line lines IH]; intros m w.
  { simpl. split_and!; try done. intros _ _. by rewrite app_nil_r. }
  cbv zeta.
  change (fold_left (ProcessConversationFile_line sid pp cid) (line :: lines) (m, w))
    with (fold_left (ProcessConversationFile_line sid pp cid) lines
            (ProcessConversationFile_line sid pp cid (m, w) line)).
  destruct (line_cases line sid pp cid m w)
    as [[-> Hids]|(id & Hpm & Ho & Hc & Hids & Hlive & Hdry)]; rewrite Hids.
  { apply IH. }
  destruct (ProcessConversationFile_line sid pp cid (m, w) line) as [m1 w1].
  simpl in *.
  destruct (IH m1 w1) as (IH1 & IH2 & IH3). rewrite Hpm in IH1, IH2.
  split_and!.
  - exact IH1.
  - intros Hsome Hlivem.
    destruct (Hlive Hsome Hlivem) as (ev & Hev & Hid').
    rewrite IH2; [|tauto|congruence].
    rewrite Hev, map_app. simpl. rewrite Hid'. by rewrite <- app_assoc.
  - intros Hor. rewrite IH3; [by apply Hdry|].
    destruct Hor as [Hn|Hd]; [left; tauto|right; congruence].
Qed.

(** X13. [ProcessConversationFile] on a file that can be opened adds
    to the ledger the ids of the lines it reads that are not blank,
    decode as an entry of kind user or assistant and carry an id that
    is not empty and not yet in the ledger, each once. With a client
    and not in dry-run mode it emits one event for each, in the order
    of the lines; otherwise it emits nothing. *)
Theorem a_file_adds_its_new_ids_in_line_order
    (filepath content : string) (m : Monitor) (w : World) :
  rejected filepath = false ->
  files w !! filepath = Some content ->
  let st := ProcessConversationFile filepath m w in
  let ids := newIds (bufio.Scan (1024 * 1024) content) (processedMessages m) in
  processedMessages (fst st)
  = fold_left (fun ledger id => <[id := true]> ledger) ids (processedMessages m)
  /\ (client m <> None -> DryRun (options m) = false ->
      map (fun ev => langfuse.Body_ID (langfuse.Body_ ev)) (emitted (fst st) (snd st))
      = map (fun ev => langfuse.Body_ID (langfuse.Body_ ev)) (emitted m w) ++ ids)
  /\ (client m = None \/ DryRun (options m) = true ->
      emitted (fst st) (snd st) = emitted m w).
Proof.
  intros Hacc Hfile. cbv zeta.
  rewrite ProcessConversationFile_accepted by done. rewrite Hfile.
  match goal with
  | |- context [fold_left ?f ?l (?m1, w)] =>
      pose proof (lines_loop_newIds l
                    (default (sessionIDOf filepath) (conversationSessions m !! filepath))
                    (ReplaceAll
                       (nth (Z.to_nat (projectsIndex (Split filepath PathSeparator) 0 + 1))
                          (Split filepath PathSeparator) "") "-"%char "/"%char)
                    (TrimSuffix (List.last (Split filepath PathSeparator) "") ".jsonl")
                    m1 w) as Hloop
  end.
  cbv zeta in Hloop. simpl in Hloop. exact Hloop.
Qed.
End order.

(** ** Session ids and paths *)

Lemma md5_Sum_length (data : string) : length (md5.Sum data) = 16%nat.
Proof.
  unfold md5.Sum.
  destruct (md5.blocks _ _ _) as [[[a b] c] d]. reflexivity.
Qed.

Lemma EncodeToString_length (bs : list Z) :
  String.length (md5.EncodeToString bs) = (2 * length bs)%nat.
Proof. induction bs as [|b bs IH]; simpl; [done|]. rewrite IH. lia. Qed.

Lemma hexDigit_hex (x : Z) :
  md5.hexDigit x ∈ list_ascii_of_string "0123456789abcdef".
Proof.
  unfold md5.hexDigit. apply list_elem_of_In.
  destruct (Nat.lt_ge_cases (Z.to_nat x) 16) as [Hlt|Hge].
  - apply nth_In. simpl. lia.
  - rewrite nth_overflow by (simpl; lia). simpl. auto.
Qed.

Lemma EncodeToString_hex (bs : list Z) :
  Forall (fun c => c ∈ list_ascii_of_string "0123456789abcdef")
    (list_ascii_of_string (md5.EncodeToString bs)).
Proof.
  induction bs as [|b bs IH]; simpl; [constructor|].
  constructor; [apply hexDigit_hex|]. constructor; [apply hexDigit_hex|done].
Qed.

Section paths.
Context `{langfuse.Transport} `{monitor.Runtime}.
Import monitor.

(** X14. Every session id in the cache of a monitor created by [New]
    and used in any way is 32 characters long, each a lower-case
    hexadecimal digit. *)
Theorem session_ids_are_32_hex_digits (opts : Options) (cfg : Config)
    (m0 : Monitor) (w0 : World) (cs : list Call) (filepath sid : string) :
  New opts (inl cfg) = inl m0 ->
  conversationSessions (fst (calls cs (m0, w0))) !! filepath = Some sid ->
  String.length sid = 32%nat
  /\ Forall (fun c => c ∈ list_ascii_of_string "0123456789abcdef")
       (list_ascii_of_string sid).
Proof.
  intros Hnew Hsid.
  assert (cache_ok (fst (calls cs (m0, w0)))) as Hok
    by (apply calls_cache_ok; simpl; by eapply New_cache_ok).
  apply Hok in Hsid. subst sid. unfold sessionIDOf. cbv zeta. split.
  - rewrite EncodeToString_length, md5_Sum_length. done.
  - apply EncodeToString_hex.
Qed.

(** X15. [ProcessConversationFile] does nothing at all for a path
    with no segment "projects", and for a path with fewer than two
    segments after the first "projects". For an accepted path that
    cannot be opened it caches the session id and prints one error
    line; the ledger, the counters, the client and the wire stay as
    they are. *)
Theorem paths_outside_projects_are_ignored (filepath : string)
    (m : Monitor) (w : World) :
  ("projects" ∉ Split filepath PathSeparator ->
   ProcessConversationFile filepath m w = (m, w))
  /\ (forall pre post,
        Split filepath PathSeparator = pre ++ "projects" :: post ->
        "projects" ∉ pre -> (length post < 2)%nat ->
        ProcessConversationFile filepath m w = (m, w))
  /\ (rejected filepath = false -> files w !! filepath = None ->
      let st := ProcessConversationFile filepath m w in
      processedMessages (fst st) = processedMessages m
      /\ MessageStats (fst st) = MessageStats m
      /\ client (fst st) = client m /\ wire (snd st) = wire w
      /\ console (snd st)
         = console w ++ [RedError ("Error reading " +:+ filepath) None]
      /\ is_Some (conversationSessions (fst st) !! filepath)).
Proof.
  split_and!.
  - intros Hnotin. unfold ProcessConversationFile.
    by rewrite projectsIndex_absent.
  - intros pre post Hparts Hpre Hlen. unfold ProcessConversationFile.
    rewrite Hparts, projectsIndex_first by done.
    assert ((0 + len pre =? -1) || (0 + len pre >=? len (pre ++ "projects" :: post) - 2)
            = true) as ->; [|done].
    apply orb_true_iff. right. rewrite Z.geb_leb. apply Z.leb_le.
    unfold len. rewrite length_app. simpl. lia.
  - intros Hacc Hnone. rewrite ProcessConversationFile_accepted by done.
    rewrite Hnone. simpl. split_and!; try done.
    rewrite lookup_insert_eq. eauto.
Qed.
End paths.

(** ** Walks that are never stopped *)

Section walk_facts.
Import filepath tree.

(** A walk whose function always returns nil makes the calls of
    [visits], in order, and returns nil. *)
Lemma walk_visits {S : Type}
    (walkFn : string -> option bool -> option WalkErr -> S -> WalkRet * S) :
  (forall path info err s, fst (walkFn path info err s) = RetNil) ->
  forall n path s,
    walk walkFn path n s
    = (RetNil,
       fold_left (fun s v => snd (walkFn (fst (fst v)) (snd (fst v)) (snd v) s))
         (visits path n) s).
Proof.
  intros Hnil n. induction n as [| |readable entries Hall] using Node_tree_ind;
    intros path s.
  - simpl. rewrite <- (Hnil path None (Some LstatFailed) s). by destruct (walkFn _ _ _ _).
  - simpl. rewrite <- (Hnil path (Some false) None s). by destruct (walkFn _ _ _ _).
  - simpl.
    pose proof (Hnil path (Some true) (if readable then None else Some ReadDirFailed) s)
      as Hr.
    destruct (walkFn path (Some true) _ s) as [r s1]. simpl in Hr. subst r.
    destruct readable; simpl; [|done].
    clear s. revert s1.
    induction Hall as [|[name child] rest Hc Hrest IH]; intros s; [done|].
    simpl in Hc. rewrite fold_left_app.
    destruct child as [| |readable' entries'].
    + pose proof (Hnil (path +:+ "/" +:+ name) None (Some LstatFailed) s) as Hr.
      simpl. destruct (walkFn _ None _ s) as [r s']. simpl in Hr. subst r. simpl.
      apply IH.
    + rewrite (Hc (path +:+ "/" +:+ name) s). simpl. apply IH.
    + rewrite (Hc (path +:+ "/" +:+ name) s). simpl. apply IH.
Qed.

Lemma Walk_visits {S : Type}
    (walkFn : string -> option bool -> option WalkErr -> S -> WalkRet * S) :
  (forall path info err s, fst (walkFn path info err s) = RetNil) ->
  forall root n s,
    Walk walkFn root n s
    = (None,
       fold_left (fun s v => snd (walkFn (fst (fst v)) (snd (fst v)) (snd v) s))
         (visits root n) s).
Proof.
  intros Hnil root n s. unfold Walk.
  destruct n as [| |readable entries].
  - simpl. pose proof (Hnil root None (Some LstatFailed) s) as Hr.
    destruct (walkFn root None _ s) as [r s']. simpl in *. by subst r.
  - by rewrite walk_visits.
  - by rewrite walk_visits.
Qed.
End walk_facts.

(** ** The history pass and the registration of directories *)

Section history_facts.
Context `{langfuse.Transport} `{monitor.Runtime}.
Import monitor history.

(** The function of the history pass never stops the walk. *)
Lemma ProcessExistingHistory_fn_nil modTime cutoffTime path info err convs :
  fst (ProcessExistingHistory_fn modTime cutoffTime path info err convs)
  = filepath.RetNil.
Proof.
  unfold ProcessExistingHistory_fn. destruct err; [done|].
  destruct info as [isDir|]; [|done].
  destruct (negb isDir && _); [|done]. by destruct (_ >? _).
Qed.

(** What the function of the history pass collects from the calls of
    a walk. *)
Lemma history_collects modTime cutoffTime
    (vs : list (string * option bool * option filepath.WalkErr))
    (convs : list string) :
  fold_left (fun s v => snd (ProcessExistingHistory_fn modTime cutoffTime
                               (fst (fst v)) (snd (fst v)) (snd v) s)) vs convs
  = convs
    ++ List.filter (fun p => HasSuffix p ".jsonl" && (modTime p >? cutoffTime))
         (omap (fun v => match v with
                         | (p, Some false, None) => Some p
                         | _ => None
                         end) vs).
Proof.
  revert convs. induction vs as [|[[p info] err] vs IH]; intros convs; simpl.
  - by rewrite app_nil_r.
  - rewrite IH. unfold ProcessExistingHistory_fn.
    destruct err as [e|]; [by destruct info as [[|]|]|].
    destruct info as [[|]|]; simpl; try done.
    destruct (HasSuffix p ".jsonl"); simpl; [|done].
    destruct (modTime p >? cutoffTime); simpl; [|done].
    by rewrite <- app_assoc.
Qed.

Lemma fold_ProcessConversationFile (paths : list string) (st : Monitor * World) :
  fold_left (fun st filepath => ProcessConversationFile filepath (fst st) (snd st))
    paths st
  = calls (map CallProcessConversationFile paths) st.
Proof.
  revert st. induction paths as [|p paths IH]; intros st; [done|].
  simpl. by rewrite IH.
Qed.

(** [ProcessExistingHistory] as a list of
    [ProcessConversationFile] calls. *)
Lemma history_spec
    (sys : main.System) (modTime : string -> Time) (m : Monitor) (w : World) :
  let hours := HistoryHours (options m) in
  match GetClaudeProjectsDir (main.UserHomeDir sys) (main.Join sys) (main.Stat sys) with
  | inr err =>
      ProcessExistingHistory sys modTime m w = (Some err, [Processing hours], m, w)
  | inl projectsDir =>
      let cutoffTime := time_Now (clockReads w) + wrap64 (wrap64 (- hours) * Hour) in
      let recent :=
        List.filter (fun p => HasSuffix p ".jsonl" && (modTime p >? cutoffTime))
          (tree.regularFiles projectsDir (main.Tree sys projectsDir)) in
      let st := calls (map CallProcessConversationFile recent) (m, tick w) in
      ProcessExistingHistory sys modTime m w
      = (None,
         [Processing hours; Found (len recent);
          Processed (len recent)
            (wrap64 (messageCount_user (fst st) + messageCount_assistant (fst st)))
            (messageCount_user (fst st)) (messageCount_assistant (fst st))],
         fst st, snd st)
  end.
Proof.
  cbv zeta. unfold ProcessExistingHistory.
  destruct (GetClaudeProjectsDir _ _ _) as [projectsDir|err]; [|done].
  cbv zeta.
  rewrite (Walk_visits _ (ProcessExistingHistory_fn_nil modTime _)).
  rewrite history_collects. simpl.
  fold (tree.regularFiles projectsDir (main.Tree sys projectsDir)).
  rewrite fold_ProcessConversationFile.
  by destruct (calls _ _) as [m' w'].
Qed.
(** X16. [ProcessExistingHistory] fails exactly as
    [GetClaudeProjectsDir] does, having printed its first line only;
    the walk cannot fail. Otherwise it reads the clock once and
    processes, in the order of the walk, the regular files below the
    projects directory whose path ends in ".jsonl" and whose
    modification time is after the clock reading minus the history
    hours, and reports their number and the two counters. *)
Theorem history_processes_the_recent_conversations
    (sys : main.System) (modTime : string -> Time) (m : Monitor) (w : World) :
  let hours := HistoryHours (options m) in
  match GetClaudeProjectsDir (main.UserHomeDir sys) (main.Join sys) (main.Stat sys) with
  | inr err =>
      ProcessExistingHistory sys modTime m w = (Some err, [Processing hours], m, w)
  | inl projectsDir =>
      let cutoffTime := time_Now (clockReads w) + wrap64 (wrap64 (- hours) * Hour) in
      let recent :=
        List.filter (fun p => HasSuffix p ".jsonl" && (modTime p >? cutoffTime))
          (tree.regularFiles projectsDir (main.Tree sys projectsDir)) in
      let st := calls (map CallProcessConversationFile recent) (m, tick w) in
      ProcessExistingHistory sys modTime m w
      = (None,
         [Processing hours; Found (len recent);
          Processed (len recent)
            (wrap64 (messageCount_user (fst st) + messageCount_assistant (fst st)))
            (messageCount_user (fst st)) (messageCount_assistant (fst st))],
         fst st, snd st)
  end.
Proof. apply history_spec. Qed.
End history_facts.

Section start_registers.
Import filepath tree watcher.

(** What the function of [addRecursive] registers from the calls of a
    walk. *)
Lemma Start_collects (addOk : string -> bool)
    (vs : list (string * option bool * option WalkErr)) (w : Watcher) :
  let w' := fold_left (fun s v => snd (addRecursive_fn addOk
                                         (fst (fst v)) (snd (fst v)) (snd v) s)) vs w in
  watched w'
  = watched w
    ∪ list_to_set (List.filter addOk
                     (omap (fun v => match v with
                                     | (p, Some true, None) => Some p
                                     | _ => None
                                     end) vs))
  /\ rootDir w' = rootDir w /\ pendingFiles w' = pendingFiles w
  /\ debounceMs w' = debounceMs w.
Proof.
  revert w. induction vs as [|[[p info] err] vs IH]; intros w; simpl.
  - split; [by rewrite (right_id_L ∅ (∪))|done].
  - destruct (IH (snd (addRecursive_fn addOk p info err w))) as (Hw & Hr & Hp & Hd).
    rewrite Hw, Hr, Hp, Hd. clear IH Hw Hr Hp Hd.
    unfold addRecursive_fn, Add.
    destruct err as [e|]; [by destruct info as [[|]|]|].
    destruct info as [[|]|]; simpl; try done.
    destruct (addOk p) eqn:E; simpl; [|done].
    split; [|done].
    by rewrite (assoc_L (∪)), (comm_L (∪) (watched w) {[p]}).
Qed.

(** [Start] as a union over the directories the walk can read. *)
Lemma Start_spec
    (addOk : string -> bool) (tree : Node) (w : Watcher) :
  let w' := snd (Start addOk tree w) in
  watched w'
  = watched w ∪ list_to_set (List.filter addOk (readableDirs (rootDir w) tree))
  /\ pendingFiles w' = pendingFiles w
  /\ rootDir w' = rootDir w /\ debounceMs w' = debounceMs w.
Proof.
  cbv zeta. unfold Start, addRecursive.
  rewrite (Walk_visits _ (addRecursive_fn_nil addOk)).
  destruct (Start_collects addOk (visits (rootDir w) tree) w) as (Hw & Hr & Hp & Hd).
  simpl. by rewrite Hw, Hr, Hp, Hd.
Qed.
(** X17. [Start] registers exactly the directories the walk reaches
    and can read, the root included, that fsnotify accepts: files,
    missing paths, unreadable directories and everything below an
    unreadable directory are left out. It touches neither the debounce
    table nor the window. *)
Theorem Start_watches_the_readable_directories
    (addOk : string -> bool) (tree : Node) (w : Watcher) :
  let w' := snd (Start addOk tree w) in
  watched w'
  = watched w ∪ list_to_set (List.filter addOk (readableDirs (rootDir w) tree))
  /\ pendingFiles w' = pendingFiles w
  /\ rootDir w' = rootDir w /\ debounceMs w' = debounceMs w.
Proof. apply Start_spec. Qed.
End start_registers.

(** ** Where a dispatch comes from *)

Section dispatch_facts.
Import watcher.
Variable addOk : string -> bool.

Lemma dispatches_pos (path : string) (l : list string) :
  path ∈ l <-> (0 < dispatches path l)%nat.
Proof.
  unfold dispatches. rewrite list_elem_of_In. apply count_occ_In.
Qed.

(** A path that a run dispatches, or leaves in the table, was in the
    table before or was recorded by an event of the run. *)
Lemma run_origin (acts : list Activation) (path : string) :
  forall w,
    let r := run addOk acts w in
    path ∈ snd r \/ is_Some (pendingFiles (fst r) !! path) ->
    is_Some (pendingFiles w !! path)
    \/ exists a, a ∈ acts /\ records path a = true.
Proof.
  induction acts as [|a acts IH]; intros w; simpl.
  { intros [Hin|Hp]; [by apply elem_of_nil in Hin|by left]. }
  destruct (step addOk a w) as [w1 d1] eqn:Es.
  specialize (IH w1). destruct (run addOk acts w1) as [w2 d2]. simpl in *.
  intros Hor.
  assert (path ∈ d1 \/ is_Some (pendingFiles w1 !! path)
          \/ exists a', a' ∈ acts /\ records path a' = true) as Hcases.
  { destruct Hor as [Hin|Hp].
    - apply elem_of_app in Hin as [Hin|Hin]; [by left|].
      right. destruct (IH (or_introl Hin)); auto.
    - right. destruct (IH (or_intror Hp)); auto. }
  destruct Hcases as [Hd|[Hp|(a' & Hin & Hr)]].
  - destruct a as [event stat now| |now]; simpl in Es.
    + injection Es as _ <-. by apply elem_of_nil in Hd.
    + injection Es as _ <-. by apply elem_of_nil in Hd.
    + pose proof (tick_spec now w path) as (_ & _ & Hcount). rewrite Es in Hcount.
      simpl in Hcount. apply dispatches_pos in Hd. rewrite Hcount in Hd.
      unfold settled in Hd. left.
      destruct (pendingFiles w !! path); [eauto|lia].
  - destruct a as [event stat now| |now]; simpl in Es.
    + injection Es as <- _.
      pose proof (event_spec addOk event stat now w path) as [_ Hl].
      rewrite Hl in Hp.
      destruct (records path (FsEvent event stat now)) eqn:Er; [|by left].
      right. eexists. split; [by left|done].
    + injection Es as <- _. by left.
    + pose proof (tick_spec now w path) as (_ & Hl & _). rewrite Es in Hl.
      simpl in Hl. rewrite Hl in Hp. left.
      destruct (settled now w path); [by destruct Hp|done].
  - right. exists a'. split; [by right|done].
Qed.

(** X18. A watcher made by [New] and started dispatches only paths
    that end in ".jsonl" and for which an event with the Write or the
    Create bit arrived, other than the creation of a directory. *)
Theorem only_changed_jsonl_files_are_dispatched
    (root : string) (tree : filepath.Node) (acts : list Activation)
    (w0 : Watcher) (path : string) :
  New root true = inl w0 ->
  path ∈ snd (run addOk acts (snd (Start addOk tree w0))) ->
  HasSuffix path ".jsonl" = true
  /\ exists event stat now,
       FsEvent event stat now ∈ acts /\ Name event = path
       /\ (hasOp (Op event) Write = true \/ hasOp (Op event) Create = true)
       /\ ~ (hasOp (Op event) Create = true /\ stat = Some true).
Proof.
  intros Hnew Hin.
  destruct (run_origin acts path (snd (Start addOk tree w0)) (or_introl Hin))
    as [Hp|(a & Ha & Hr)].
  { destruct (Start_spec addOk tree w0) as (_ & Hpend & _).
    rewrite Hpend in Hp. unfold New in Hnew. simplify_eq. simpl in Hp.
    rewrite lookup_empty in Hp. by destruct Hp. }
  destruct a as [event stat now| |now]; simpl in Hr; try done.
  apply andb_true_iff in Hr as [Hr Hop].
  apply andb_true_iff in Hr as [Hr Hsuf].
  apply andb_true_iff in Hr as [Hname Hdir].
  apply String.eqb_eq in Hname. subst path. split; [done|].
  exists event, stat, now. split_and!; try done.
  - by apply orb_true_iff in Hop.
  - intros [Hc Hs]. subst stat. by rewrite Hc in Hdir.
Qed.
End dispatch_facts.

(** ** The watch list *)

Section watch_list.
Import watcher.
Variable addOk : string -> bool.

(** X19. The watch list only grows: after any run of events, errors
    and ticks it holds what it held and the paths of the events that
    created a directory and that fsnotify accepted, and nothing else.
    Removals and renames take nothing out, and a directory created
    later is registered alone, without what it contains. *)
Theorem the_watch_list_only_grows (acts : list Activation) (w : Watcher) :
  watched (fst (run addOk acts w))
  = watched w
    ∪ list_to_set
        (omap (fun a => match a with
                        | FsEvent event (Some true) _ =>
                            if hasOp (Op event) Create && addOk (Name event)
                            then Some (Name event) else None
                        | _ => None
                        end) acts)
  /\ rootDir (fst (run addOk acts w)) = rootDir w.
Proof.
  revert w. induction acts as [|a acts IH]; intros w.
  { simpl. by rewrite (right_id_L ∅ (∪)). }
  simpl run. destruct (step addOk a w) as [w1 d1] eqn:Es.
  specialize (IH w1). destruct (run addOk acts w1) as [w2 d2]. simpl fst in *.
  destruct IH as [-> ->].
  assert (watched w1
          = watched w
            ∪ match a with
              | FsEvent event (Some true) _ =>
                  if hasOp (Op event) Create && addOk (Name event)
                  then {[Name event]} else ∅
              | _ => ∅
              end
          /\ rootDir w1 = rootDir w) as [-> ->].
  { destruct a as [event stat now| |now]; simpl in Es.
    - injection Es as <- _. unfold processEvents_event, Add.
      destruct (hasOp (Op event) Create) eqn:Ec; simpl.
      + destruct stat as [[|]|]; simpl.
        * destruct (addOk (Name event)); simpl;
            [by rewrite (comm_L (∪))|by rewrite (right_id_L ∅ (∪))].
        * rewrite (right_id_L ∅ (∪)).
          destruct (negb _); [done|]. by destruct (_ || _).
        * rewrite (right_id_L ∅ (∪)).
          destruct (negb _); [done|]. by destruct (_ || _).
      + assert (watched (if negb (HasSuffix (Name event) ".jsonl") then w
                         else if hasOp (Op event) Write || false
                              then set_pendingFiles w
                                     (<[Name event := now]> (pendingFiles w))
                              else w) = watched w
                /\ rootDir (if negb (HasSuffix (Name event) ".jsonl") then w
                            else if hasOp (Op event) Write || false
                                 then set_pendingFiles w
                                        (<[Name event := now]> (pendingFiles w))
                                 else w) = rootDir w) as [-> ->]
          by (destruct (negb _); [done|]; by destruct (_ || _)).
        split; [|done]. destruct stat as [[|]|]; by rewrite (right_id_L ∅ (∪)).
    - injection Es as <- _. by rewrite (right_id_L ∅ (∪)).
    - unfold processPendingFiles_tick in Es.
      destruct (tick_loop now (map_to_list (pendingFiles w)) w []
                  (NoDup_fst_map_to_list _)) as (_ & Hr & Hw & _).
      rewrite Es in Hr, Hw. simpl in Hr, Hw.
      by rewrite Hr, Hw, (right_id_L ∅ (∪)). }
  split; [|done]. simpl omap.
  destruct a as [event [[|]|] now| |now]; simpl;
    rewrite ?(right_id_L ∅ (∪)); try done.
  destruct (hasOp (Op event) Create && addOk (Name event)); simpl.
  - by rewrite (assoc_L (∪)).
  - by rewrite (right_id_L ∅ (∪)).
Qed.
End watch_list.

(** ** The history pass, then the watcher *)

Section compose.
Context `{langfuse.Transport} `{monitor.Runtime}.
Import monitor history.

(** [ProcessConversationFile] reads files and writes none. *)
Lemma ProcessConversationFile_files (filepath : string) (m : Monitor) (w : World) :
  files (snd (ProcessConversationFile filepath m w)) = files w.
Proof.
  set (fs := files w).
  apply (ProcessConversationFile_keeps_state (fun st => files (snd st) = fs));
    simpl; try done.
  intros entry sid pp cid m' w' Hf. by rewrite ProcessMessage_files.
Qed.

Lemma history_calls_files (paths : list string) (st : Monitor * World) :
  files (snd (calls (map CallProcessConversationFile paths) st)) = files (snd st).
Proof.
  revert st. induction paths as [|p paths IH]; intros st; [done|].
  change (calls (map CallProcessConversationFile (p :: paths)) st)
    with (calls (map CallProcessConversationFile paths)
            (ProcessConversationFile p (fst st) (snd st))).
  rewrite IH. apply ProcessConversationFile_files.
Qed.

Lemma calls_app (cs1 cs2 : list Call) (st : Monitor * World) :
  calls (cs1 ++ cs2) st = calls cs2 (calls cs1 st).
Proof. unfold calls. apply fold_left_app. Qed.

(** X20. After [ProcessExistingHistory] has processed a recent
    conversation file that can be opened, the next call of
    [ProcessConversationFile] for it, as made by the watcher when the
    file has not changed, does nothing. *)
Theorem history_makes_the_first_dispatch_a_no_op
    (sys : main.System) (modTime : string -> Time) (m : Monitor) (w : World)
    (projectsDir filepath content : string) :
  GetClaudeProjectsDir (main.UserHomeDir sys) (main.Join sys) (main.Stat sys)
  = inl projectsDir ->
  filepath ∈ tree.regularFiles projectsDir (main.Tree sys projectsDir) ->
  HasSuffix filepath ".jsonl" = true ->
  time_Now (clockReads w) + wrap64 (wrap64 (- HistoryHours (options m)) * Hour)
  < modTime filepath ->
  files w !! filepath = Some content ->
  let r := ProcessExistingHistory sys modTime m w in
  fst (fst (fst r)) = None
  /\ ProcessConversationFile filepath (snd (fst r)) (snd r) = (snd (fst r), snd r).
Proof.
  intros Hdir Hin Hsuf Hrecent Hfile.
  pose proof (history_spec sys modTime m w) as Hspec. cbv zeta in Hspec.
  rewrite Hdir in Hspec. cbv zeta. rewrite Hspec. simpl. split; [done|].
  match goal with
  | |- context [calls (map CallProcessConversationFile ?l) _] => set (recent := l)
  end.
  assert (filepath ∈ recent) as Hsel.
  { subst recent. apply list_elem_of_In, filter_In. split; [by apply list_elem_of_In|].
    rewrite Hsuf. simpl. by apply Z.gtb_lt. }
  apply list_elem_of_split in Hsel as (pre & post & Hrec). rewrite Hrec.
  rewrite map_app, calls_app. simpl map.
  change (calls (CallProcessConversationFile filepath :: ?l) ?st)
    with (calls l (ProcessConversationFile filepath (fst st) (snd st))).
  set (st1 := calls (map CallProcessConversationFile pre) (m, tick w)).
  assert (files (snd st1) !! filepath = Some content) as Hf1
    by (subst st1; by rewrite history_calls_files).
  destruct (rejected filepath) eqn:Hrej.
  { unfold ProcessConversationFile at 1. unfold rejected in Hrej. by rewrite Hrej. }
  pose proof (reread_noop filepath content (fst st1) (snd st1)
                (map CallProcessConversationFile post) Hrej Hf1) as Hno.
  cbv zeta in Hno. rewrite Hno; [apply surjective_pairing|].
  by rewrite history_calls_files, ProcessConversationFile_files.
Qed.
End compose.

(** ** The configuration *)

Section config_facts.
Import monitor config.

(** The merge of the file's value followed by the override of the
    environment picks the first value that is not empty. *)
Lemma getEnvOrDefault_merge (env : Env) (envVar fileVal dflt : string) :
  getEnvOrDefault env envVar (merge fileVal dflt)
  = firstNonEmpty [Getenv env envVar; fileVal; dflt].
Proof.
  unfold getEnvOrDefault, merge. simpl.
  destruct (String.eqb (Getenv env envVar) ""); simpl; [|done].
  destruct (String.eqb fileVal "") eqn:E; simpl; [|done].
  destruct (String.eqb dflt "") eqn:E'; [|done]. by apply String.eqb_eq in E'.
Qed.

Lemma getEnvOrDefault_zero (env : Env) (envVar dflt : string) :
  getEnvOrDefault env envVar dflt = firstNonEmpty [Getenv env envVar; ""; dflt].
Proof. by rewrite <- getEnvOrDefault_merge. Qed.

(** [Load], field by field. *)
Lemma Load_fields (env : Env) :
  Load env
  = inl {| Host := firstNonEmpty [Getenv env "LANGFUSE_HOST"; Host (fileConfig env);
                                  "http://localhost:3001"];
           PublicKey := firstNonEmpty [Getenv env "LANGFUSE_PUBLIC_KEY";
                                       PublicKey (fileConfig env)];
           SecretKey := firstNonEmpty [Getenv env "LANGFUSE_SECRET_KEY";
                                       SecretKey (fileConfig env)];
           UserID := firstNonEmpty [Getenv env "CLAUDE_LANGFUSE_USER_ID";
                                    UserID (fileConfig env); getCurrentUsername env];
           Model := firstNonEmpty [Getenv env "CLAUDE_LANGFUSE_MODEL";
                                   Model (fileConfig env); "claude-code"];
           Source := firstNonEmpty [Getenv env "CLAUDE_LANGFUSE_SOURCE";
                                    Source (fileConfig env); "claude_code_monitor"];
           UserTraceName :=
             firstNonEmpty [Getenv env "CLAUDE_LANGFUSE_USER_TRACE_NAME";
                            UserTraceName (fileConfig env); "claude_code_user"];
           AssistantTraceName :=
             firstNonEmpty [Getenv env "CLAUDE_LANGFUSE_ASSISTANT_TRACE_NAME";
                            AssistantTraceName (fileConfig env); "claude_response"] |}.
Proof.
  unfold Load, fileConfig. cbv zeta.
  assert (forall envVar fileVal,
            getEnvOrDefault env envVar (merge fileVal "")
            = firstNonEmpty [Getenv env envVar; fileVal]) as Hkey.
  { intros envVar fileVal. rewrite getEnvOrDefault_merge. simpl.
    destruct (String.eqb _ ""); [|done]. by destruct (String.eqb fileVal ""). }
  assert (forall envVar,
            getEnvOrDefault env envVar "" = firstNonEmpty [Getenv env envVar; ""])
    as Hkey0.
  { intros envVar. unfold getEnvOrDefault. simpl.
    destruct (String.eqb (Getenv env envVar) "") eqn:E; [|done]. done. }
  destruct (ReadFileAt env (DefaultConfigFile env)) as [data| |];
    [destruct (Unmarshal env data) as [fileCfg|]|..];
    cbn [default zero Host PublicKey SecretKey UserID Model Source UserTraceName
         AssistantTraceName];
    rewrite ?getEnvOrDefault_merge, ?Hkey, ?Hkey0, <- ?getEnvOrDefault_zero; done.
Qed.
End config_facts.

Section config_claims.
Import monitor config.

Lemma firstNonEmpty_nonempty (l : list string) (s : string) :
  s ∈ l -> s <> "" -> firstNonEmpty l <> "".
Proof.
  intros Hin Hne. induction l as [|x l IH]; [by apply elem_of_nil in Hin|].
  simpl. destruct (String.eqb x "") eqn:E.
  - apply String.eqb_eq in E. subst x.
    apply elem_of_cons in Hin as [->|Hin]; [done|by apply IH].
  - by apply String.eqb_neq in E.
Qed.

(** X21. [Load] never fails, and each field of its result is the
    first non-empty value among the environment variable of the field,
    the field in the configuration file, and the default (the user
    name, or "unknown", for the user id; none for the two keys). A
    file that is missing, unreadable or not a configuration counts as
    one with empty fields. *)
Theorem Load_prefers_environment_then_file_then_default (env : Env) :
  Load env
  = inl {| Host := firstNonEmpty [Getenv env "LANGFUSE_HOST"; Host (fileConfig env);
                                  "http://localhost:3001"];
           PublicKey := firstNonEmpty [Getenv env "LANGFUSE_PUBLIC_KEY";
                                       PublicKey (fileConfig env)];
           SecretKey := firstNonEmpty [Getenv env "LANGFUSE_SECRET_KEY";
                                       SecretKey (fileConfig env)];
           UserID := firstNonEmpty [Getenv env "CLAUDE_LANGFUSE_USER_ID";
                                    UserID (fileConfig env); getCurrentUsername env];
           Model := firstNonEmpty [Getenv env "CLAUDE_LANGFUSE_MODEL";
                                   Model (fileConfig env); "claude-code"];
           Source := firstNonEmpty [Getenv env "CLAUDE_LANGFUSE_SOURCE";
                                    Source (fileConfig env); "claude_code_monitor"];
           UserTraceName :=
             firstNonEmpty [Getenv env "CLAUDE_LANGFUSE_USER_TRACE_NAME";
                            UserTraceName (fileConfig env); "claude_code_user"];
           AssistantTraceName :=
             firstNonEmpty [Getenv env "CLAUDE_LANGFUSE_ASSISTANT_TRACE_NAME";
                            AssistantTraceName (fileConfig env); "claude_response"] |}.
Proof. apply Load_fields. Qed.

(** X22. [New] on the result of [Load] cannot fail, and the monitor
    it returns has a host, a model, a source and two trace names that
    are not empty, an empty ledger and counters at zero; it has no
    client in dry-run mode and otherwise a client for the host and the
    keys of the configuration. *)
Theorem New_on_a_loaded_configuration_cannot_fail (env : Env) (opts : Options) :
  exists m,
    New opts (Load env) = inl m
    /\ Load env = inl (config m)
    /\ Host (config m) <> "" /\ Model (config m) <> "" /\ Source (config m) <> ""
    /\ UserTraceName (config m) <> "" /\ AssistantTraceName (config m) <> ""
    /\ (DryRun opts = true -> client m = None)
    /\ (DryRun opts = false ->
        client m = Some (langfuse.NewClient (Host (config m)) (PublicKey (config m))
                           (SecretKey (config m))))
    /\ processedMessages m = ∅ /\ MessageStats m = (0, 0).
Proof.
  rewrite Load_fields. eexists. split; [reflexivity|].
  cbn [config client processedMessages MessageStats messageCount_user
       messageCount_assistant Host Model Source UserTraceName AssistantTraceName
       PublicKey SecretKey].
  split_and!; try done.
  - apply (firstNonEmpty_nonempty _ "http://localhost:3001"); [|done].
    do 2 right. left.
  - apply (firstNonEmpty_nonempty _ "claude-code"); [|done]. do 2 right. left.
  - apply (firstNonEmpty_nonempty _ "claude_code_monitor"); [|done]. do 2 right. left.
  - apply (firstNonEmpty_nonempty _ "claude_code_user"); [|done]. do 2 right. left.
  - apply (firstNonEmpty_nonempty _ "claude_response"); [|done]. do 2 right. left.
  - by intros ->.
  - by intros ->.
Qed.

(** X23. [LoadFromFile] returns an error exactly when the
    configuration file exists and cannot be read or decoded. [Load]
    ignores such a file: it returns the defaults overridden by the
    environment, as it does when the file is missing, where
    [LoadFromFile] returns the empty configuration. *)
Theorem Load_ignores_a_file_that_LoadFromFile_rejects (env : Env) :
  let fromEnv :=
    {| Host := getEnvOrDefault env "LANGFUSE_HOST" "http://localhost:3001";
       PublicKey := getEnvOrDefault env "LANGFUSE_PUBLIC_KEY" "";
       SecretKey := getEnvOrDefault env "LANGFUSE_SECRET_KEY" "";
       UserID := getEnvOrDefault env "CLAUDE_LANGFUSE_USER_ID" (getCurrentUsername env);
       Model := getEnvOrDefault env "CLAUDE_LANGFUSE_MODEL" "claude-code";
       Source := getEnvOrDefault env "CLAUDE_LANGFUSE_SOURCE" "claude_code_monitor";
       UserTraceName :=
         getEnvOrDefault env "CLAUDE_LANGFUSE_USER_TRACE_NAME" "claude_code_user";
       AssistantTraceName :=
         getEnvOrDefault env "CLAUDE_LANGFUSE_ASSISTANT_TRACE_NAME" "claude_response" |} in
  ((exists e, LoadFromFile env = inr e) <->
   ReadFileAt env (DefaultConfigFile env) = FileError
   \/ exists data, ReadFileAt env (DefaultConfigFile env) = FileContent data
                   /\ Unmarshal env data = None)
  /\ ((exists e, LoadFromFile env = inr e) -> Load env = inl fromEnv)
  /\ (ReadFileAt env (DefaultConfigFile env) = FileNotExist ->
      LoadFromFile env = inl zero /\ Load env = inl fromEnv).
Proof.
  cbv zeta. unfold LoadFromFile, Load.
  destruct (ReadFileAt env (DefaultConfigFile env)) as [data| |] eqn:Er.
  - destruct (Unmarshal env data) as [cfg|] eqn:Eu.
    + split_and!; [|by intros [e ?]|done].
      split; [by intros [e ?]|]. intros [?|(d & ? & ?)]; [done|]. simplify_eq.
    + split_and!; [|done|done]. split; [|eauto]. intros _. right. eauto.
  - split_and!; [|by intros [e ?]|done].
    split; [by intros [e ?]|]. intros [?|(d & ? & ?)]; done.
  - split_and!; [|done|done]. split; eauto.
Qed.
End config_claims.

(** * The properties on concrete runs *)

(** A refused batch stays in the buffer: two events, an endpoint that
    answers 500. *)
Lemma flush_keeps_or_clears_witness :
  let c := reference.buffering [reference.traceEvent "m1"; reference.traceEvent "m2"] in
  let r := @langfuse.Flush reference.refusing c [] in
  (exists p, snd r = [] ++ [p] /\ langfuse.post_reply p = langfuse.Response 500)
  /\ fst (fst r) = Some (ErrAPIStatus 500)
  /\ snd (fst r) = c
  /\ length (langfuse.events (snd (fst r))) = 2%nat.
Proof.
  cbv zeta.
  set (c := reference.buffering [reference.traceEvent "m1"; reference.traceEvent "m2"]).
  destruct (@flush_keeps_or_clears reference.refusing c []) as (_ & Hfail & _ & _).
  destruct (@langfuse.Flush reference.refusing c []) as [[err c'] w'] eqn:E.
  pose proof E as E'. vm_compute in E'.
  injection E' as Herr Hc Hw. simpl.
  destruct (Hfail err c' w'
              {| langfuse.post_request :=
                   langfuse.requestOf c "batch: trace-create m1, trace-create m2";
                 langfuse.post_batch := langfuse.events c;
                 langfuse.post_reply := langfuse.Response 500 |}
              eq_refl) as (_ & Hsame & Hev).
  - rewrite <- Hw. vm_compute. reflexivity.
  - right. exists 500. split; [reflexivity|lia].
  - split.
    + eexists. split; [rewrite <- Hw; vm_compute; reflexivity|reflexivity].
    + split; [by rewrite <- Herr|]. split; [exact Hsame|].
      rewrite Hev. reflexivity.
Defined.

(** The tenth event reaches the threshold: with nine events buffered
    and an endpoint that cannot be reached, [CreateTrace] is the flush of
    the ten events, which fails and keeps all ten. *)
Lemma enqueue_flushes_at_threshold_witness :
  let c := reference.buffering reference.nineEvents in
  let t := {| langfuse.Trace_ID := "m10"; langfuse.Trace_Name := "claude_code_user";
              langfuse.Trace_SessionID := "session-1"; langfuse.Trace_UserID := "unknown";
              langfuse.Trace_Metadata := ∅; langfuse.Trace_Input := "Hello";
              langfuse.Trace_Timestamp := 1704067200000000000 |} in
  let c1 := langfuse.set_events c (langfuse.events c ++ [reference.traceEvent "m10"]) in
  langfuse.batchSize c = 10
  /\ 10 <= len (langfuse.events c1)
  /\ @langfuse.CreateTrace reference.unreachable t c []
     = @langfuse.flushLocked reference.unreachable c1 []
  /\ fst (fst (@langfuse.CreateTrace reference.unreachable t c [])) = Some ErrSendRequest
  /\ length (langfuse.events (snd (fst (@langfuse.CreateTrace reference.unreachable t c []))))
     = 10%nat.
Proof.
  cbv zeta.
  set (c := reference.buffering reference.nineEvents).
  destruct (@enqueue_flushes_at_threshold reference.unreachable c [] eq_refl) as [Ht _].
  split; [reflexivity|]. split; [vm_compute; discriminate|].
  split.
  - apply (Ht _). vm_compute. discriminate.
  - split; vm_compute; reflexivity.
Defined.

(** A system entry is ignored, as in the repository's test. *)
Lemma ProcessMessage_rejects_other_kinds_and_empty_ids_witness :
  let m := reference.started reference.dryRun in
  let w := reference.world ∅ in
  let st := @monitor.ProcessMessage reference.accepting reference.runtime
              reference.systemEntry "session-1" "/test/project" "conv-1" m w in
  ((monitor.Entry_Type reference.systemEntry <> "user"
    /\ monitor.Entry_Type reference.systemEntry <> "assistant")
   \/ monitor.Entry_UUID reference.systemEntry = "")
  /\ st = (m, w)
  /\ monitor.MessageStats (fst st) = (0, 0).
Proof.
  cbv zeta.
  assert ((monitor.Entry_Type reference.systemEntry <> "user"
           /\ monitor.Entry_Type reference.systemEntry <> "assistant")
          \/ monitor.Entry_UUID reference.systemEntry = "") as Hk
    by (left; split; discriminate).
  split; [exact Hk|].
  destruct (@ProcessMessage_rejects_other_kinds_and_empty_ids
              reference.accepting reference.runtime reference.systemEntry
              "session-1" "/test/project" "conv-1"
              (reference.started reference.dryRun) (reference.world ∅) Hk)
    as (Heq & _ & Hstats & _).
  split; [exact Heq|]. rewrite Hstats. reflexivity.
Defined.

(** A live monitor processes the user entry of the repository's test
    twice: one insertion, one count, one trace with the entry's id. *)
Lemma ProcessMessage_twice_processes_once_witness :
  let m := reference.started reference.live in
  let w := reference.world ∅ in
  let st1 := @monitor.ProcessMessage reference.accepting reference.runtime
               reference.userEntry "session-1" "/test/project" "conv-1" m w in
  let st2 := @monitor.ProcessMessage reference.accepting reference.runtime
               reference.userEntry "session-1" "/test/project" "conv-1"
               (fst st1) (snd st1) in
  (monitor.Entry_Type reference.userEntry = "user"
   \/ monitor.Entry_Type reference.userEntry = "assistant")
  /\ monitor.Entry_UUID reference.userEntry <> ""
  /\ monitor.processed m (monitor.Entry_UUID reference.userEntry) = false
  /\ st2 = st1
  /\ monitor.MessageStats (fst st2) = (1, 0)
  /\ map (fun ev => langfuse.Body_ID (langfuse.Body_ ev))
       (@monitor.emitted (fst st2) (snd st2)) = ["test-uuid-123"].
Proof.
  cbv zeta.
  destruct (@ProcessMessage_twice_processes_once reference.accepting reference.runtime
              reference.userEntry "session-1" "/test/project" "conv-1"
              (reference.started reference.live) (reference.world ∅)
              (or_introl eq_refl) ltac:(discriminate) eq_refl)
    as (_ & Hsame & Hstats & _ & _).
  split; [left; reflexivity|]. split; [discriminate|]. split; [reflexivity|].
  split; [exact Hsame|]. split; [rewrite Hstats; reflexivity|].
  vm_compute. reflexivity.
Defined.

(** C1 as stated fails in dry-run mode: the monitor of the repository's
    deduplication test processes the entry, marks and counts it, and
    emits no event at all, where the specification has exactly one. *)
Lemma dry_run_emits_no_event :
  let m := reference.started reference.dryRun in
  let w := reference.world ∅ in
  let st1 := @monitor.ProcessMessage reference.accepting reference.runtime
               reference.userEntry "session-1" "/test/project" "conv-1" m w in
  let st2 := @monitor.ProcessMessage reference.accepting reference.runtime
               reference.userEntry "session-1" "/test/project" "conv-1"
               (fst st1) (snd st1) in
  monitor.Entry_Type reference.userEntry = "user"
  /\ monitor.Entry_UUID reference.userEntry = "test-uuid-123"
  /\ monitor.processed (fst st2) "test-uuid-123" = true
  /\ monitor.MessageStats (fst st2) = (1, 0)
  /\ @monitor.emitted (fst st2) (snd st2) = []
  /\ length (@monitor.emitted (fst st2) (snd st2)) <> 1%nat.
Proof.
  cbv zeta. repeat split; try (vm_compute; reflexivity). vm_compute. discriminate.
Qed.

(** A delivery that fails still leaves the entry marked and counted:
    nine events are buffered, the endpoint cannot be reached, and the
    user entry is the tenth. The flush fails, the error is printed, and a
    second call for the same id changes nothing. *)
Lemma ledger_insertion_precedes_delivery_witness :
  let m := monitor.set_client (reference.started reference.live)
             (Some (reference.buffering reference.nineEvents)) in
  let w := reference.world ∅ in
  let st1 := @monitor.ProcessMessage reference.unreachable reference.runtime
               reference.userEntry "session-1" "/test/project" "conv-1" m w in
  monitor.processed m "test-uuid-123" = false
  /\ monitor.console (snd st1)
     = [monitor.RedError "Error creating trace" (Some ErrSendRequest)]
  /\ monitor.processed (fst st1) "test-uuid-123" = true
  /\ monitor.MessageStats (fst st1) = (1, 0)
  /\ @monitor.ProcessMessage reference.unreachable reference.runtime
       reference.userEntry "session-2" "/other/project" "conv-2" (fst st1) (snd st1)
     = st1.
Proof.
  cbv zeta.
  destruct (@ledger_insertion_precedes_delivery reference.unreachable reference.runtime)
    as [_ Hfresh].
  destruct (Hfresh reference.userEntry "session-1" "/test/project" "conv-1"
              (monitor.set_client (reference.started reference.live)
                 (Some (reference.buffering reference.nineEvents)))
              (reference.world ∅)
              (or_introl eq_refl) ltac:(discriminate) eq_refl)
    as (_ & Hin & Hstats & Hlater).
  split; [reflexivity|]. split; [vm_compute; reflexivity|].
  split; [exact Hin|]. split; [rewrite Hstats; reflexivity|].
  exact (Hlater [] reference.userEntry "session-2" "/other/project" "conv-2" eq_refl).
Defined.

(** The tool_use payload of the repository's test. *)
Lemma extractContent_by_cases_witness :
  let block :=
    {| monitor.Block_Type := "tool_use"; monitor.Block_Text := "";
       monitor.Block_Name := "Read";
       monitor.Block_Input := reference.text "{'file_path':'/test.js'}";
       monitor.Block_Content := ""; monitor.Block_ToolUseID := "" |} in
  let msgContent :=
    {| monitor.Message_Text := ""; monitor.Message_Content := [block];
       monitor.Message_Model := "" |} in
  reference.toolUsePayload <> ""
  /\ @monitor.json_Unmarshal_string reference.runtime reference.toolUsePayload = None
  /\ @monitor.json_Unmarshal_MessageContent reference.runtime reference.toolUsePayload
     = Some msgContent
  /\ @monitor.extractContent reference.runtime reference.toolUsePayload
     = "[Tool: Read]" +:+ newline +:+ "{" +:+ newline
       +:+ reference.text "  'file_path': '/test.js'" +:+ newline +:+ "}".
Proof.
  cbv zeta.
  destruct (@extractContent_by_cases reference.runtime reference.toolUsePayload)
    as (_ & Hobject & _).
  split; [discriminate|]. split; [vm_compute; reflexivity|].
  split; [vm_compute; reflexivity|].
  match goal with
  | |- _ = ?text =>
      destruct (Hobject
                  {| monitor.Message_Text := "";
                     monitor.Message_Content :=
                       [{| monitor.Block_Type := "tool_use"; monitor.Block_Text := "";
                           monitor.Block_Name := "Read";
                           monitor.Block_Input := reference.text "{'file_path':'/test.js'}";
                           monitor.Block_Content := ""; monitor.Block_ToolUseID := "" |}];
                     monitor.Message_Model := "" |})
        as [Hparts _]
  end.
  - discriminate.
  - vm_compute. reflexivity.
  - vm_compute. reflexivity.
  - rewrite Hparts; [vm_compute; reflexivity|discriminate|vm_compute; discriminate].
Defined.

(** The path and the session id of the repository's test of session ids. *)
Lemma session_identity_is_derived_from_the_path_witness :
  let filepath :=
    "/tmp/projects/Users-test-Documents-github-myproject/conv-abc-123.jsonl" in
  let m0 := reference.started reference.dryRun in
  let w0 := reference.world ∅ in
  @monitor.New reference.dryRun (inl reference.defaults) = inl m0
  /\ Split filepath PathSeparator
     = [""; "tmp"] ++ ("projects" :: "Users-test-Documents-github-myproject"
                                  :: ([] ++ ["conv-abc-123.jsonl"]))
  /\ ("projects" ∉ [""; "tmp"])
  /\ monitor.conversationSessions
       (fst (@monitor.ProcessConversationFile reference.accepting reference.runtime
               filepath m0 w0))
     !! filepath = Some "1cbebcc5ad9910b61feb92fccc4aab15".
Proof.
  cbv zeta.
  assert ("projects" ∉ [""; "tmp"]) as Hnotin.
  { intros Hin. apply elem_of_cons in Hin as [Hin|Hin]; [discriminate|].
    apply elem_of_cons in Hin as [Hin|Hin]; [discriminate|].
    by apply elem_of_nil in Hin. }
  split; [reflexivity|]. split; [vm_compute; reflexivity|]. split; [exact Hnotin|].
  destruct (@session_identity_is_derived_from_the_path
              reference.accepting reference.runtime
              reference.dryRun reference.defaults
              (reference.started reference.dryRun) (reference.world ∅) []
              "/tmp/projects/Users-test-Documents-github-myproject/conv-abc-123.jsonl"
              [""; "tmp"] [] "Users-test-Documents-github-myproject"
              "conv-abc-123.jsonl" eq_refl eq_refl Hnotin)
    as (_ & Hcache & _ & _).
  unfold monitor.calls in Hcache. simpl fold_left in Hcache.
  simpl fst in Hcache. simpl snd in Hcache.
  rewrite Hcache. vm_compute. reflexivity.
Defined.

(** The file of the repository's test: an invalid line, then a valid
    user entry. One user message is counted. *)
Lemma malformed_and_blank_lines_are_skipped_witness :
  let content := "invalid json" +:+ newline +:+ reference.validUserLine in
  let w := reference.world {[reference.conversationPath := content]} in
  let m := reference.started reference.dryRun in
  monitor.rejected reference.conversationPath = false
  /\ monitor.files w !! reference.conversationPath = Some content
  /\ bufio.Scan (1024 * 1024) content = ["invalid json"; reference.validUserLine]
  /\ @monitor.json_Unmarshal_Entry reference.runtime "invalid json" = None
  /\ monitor.MessageStats
       (fst (@monitor.ProcessConversationFile reference.accepting reference.runtime
               reference.conversationPath m w))
     = (1, 0).
Proof.
  cbv zeta.
  destruct (@malformed_and_blank_lines_are_skipped
              reference.accepting reference.runtime
              reference.conversationPath
              ("invalid json" +:+ newline +:+ reference.validUserLine)
              (reference.started reference.dryRun)
              (reference.world
                 {[reference.conversationPath :=
                     "invalid json" +:+ newline +:+ reference.validUserLine]}))
    as (_ & _ & Hcount).
  - vm_compute. reflexivity.
  - vm_compute. reflexivity.
  - split; [vm_compute; reflexivity|]. split; [vm_compute; reflexivity|].
    split; [vm_compute; reflexivity|]. split; [vm_compute; reflexivity|].
    destruct (Hcount "invalid json" reference.validUserLine
                {| monitor.Entry_Type := "user"; monitor.Entry_UUID := "valid-msg";
                   monitor.Entry_ParentUUID := "";
                   monitor.Entry_Timestamp := "2024-01-01T00:00:00Z";
                   monitor.Entry_Message := reference.text "'Hello'";
                   monitor.Entry_GitBranch := ""; monitor.Entry_Cwd := "";
                   monitor.Entry_RequestID := "" |}) as [Hstats _].
    + vm_compute. reflexivity.
    + right. vm_compute. reflexivity.
    + vm_compute. discriminate.
    + vm_compute. reflexivity.
    + reflexivity.
    + discriminate.
    + reflexivity.
    + rewrite Hstats. reflexivity.
Defined.

(** A burst of three writes within 300 ms, then ticks every 100 ms: the
    file is dispatched once, at the first tick 500 ms after the last
    write. *)
Lemma debounce_dispatches_once_per_settled_burst_witness :
  let ms := watcher.Millisecond in
  let write t :=
    watcher.FsEvent {| watcher.Name := "/p/conv.jsonl"; watcher.Op := watcher.Write |}
      (Some false) (t * ms) in
  let burst := [write 0; write 150; write 300] in
  let ticks := map (fun t => watcher.Tick (t * ms)) [400; 500; 600; 700; 800; 900] in
  let w1 := fst (watcher.run (fun _ => true) burst reference.watching) in
  watcher.debounceMs w1 = 500 * ms
  /\ watcher.pendingFiles w1 !! "/p/conv.jsonl" = Some (300 * ms)
  /\ snd (watcher.run (fun _ => true) burst reference.watching) = []
  /\ watcher.dispatches "/p/conv.jsonl" (snd (watcher.run (fun _ => true) ticks w1)) = 1%nat
  /\ snd (watcher.run (fun _ => true) (burst ++ ticks) reference.watching)
     = ["/p/conv.jsonl"].
Proof.
  cbv zeta.
  set (w1 := fst (watcher.run (fun _ => true)
                    [watcher.FsEvent {| watcher.Name := "/p/conv.jsonl";
                                        watcher.Op := watcher.Write |}
                       (Some false) (0 * watcher.Millisecond);
                     watcher.FsEvent {| watcher.Name := "/p/conv.jsonl";
                                        watcher.Op := watcher.Write |}
                       (Some false) (150 * watcher.Millisecond);
                     watcher.FsEvent {| watcher.Name := "/p/conv.jsonl";
                                        watcher.Op := watcher.Write |}
                       (Some false) (300 * watcher.Millisecond)]
                    reference.watching)).
  assert (watcher.debounceMs w1 = 500 * watcher.Millisecond) as Hwin
    by (vm_compute; reflexivity).
  destruct (debounce_dispatches_once_per_settled_burst (fun _ => true) w1
              "/p/conv.jsonl" Hwin) as (_ & _ & Hquiet & _).
  split; [exact Hwin|]. split; [vm_compute; reflexivity|].
  split; [vm_compute; reflexivity|]. split; [|vm_compute; reflexivity].
  match goal with
  | |- watcher.dispatches _ (snd (watcher.run _ ?ticks w1)) = _ =>
      destruct (Hquiet ticks) as (_ & _ & Honce)
  end.
  - intros a Ha. simpl in Ha.
    repeat (apply elem_of_cons in Ha as [->|Ha]; [reflexivity|]).
    by apply elem_of_nil in Ha.
  - apply (Honce (300 * watcher.Millisecond) (800 * watcher.Millisecond)).
    + vm_compute. reflexivity.
    + simpl. do 4 right. left.
    + vm_compute. discriminate.
Defined.

(** C9 as stated fails in both directions. [Start] on a root that does
    not exist returns no error. A projects directory that exists but
    cannot be opened does not stop the start. A projects directory that
    exists and can be read does not save the start when no watch handle
    can be created. *)
Lemma start_survives_a_missing_root :
  fst (watcher.Start (fun _ => true) filepath.Missing reference.watching) = None
  /\ main.Stat reference.denied reference.projectsDir = os.StatError
  /\ main.Tree reference.denied reference.projectsDir = filepath.Missing
  /\ main.start_watching reference.denied = inl reference.watching
  /\ main.Stat reference.healthy reference.projectsDir = os.StatOk true
  /\ (exists w, main.start_watching reference.healthy = inl w)
  /\ main.Stat reference.noHandle reference.projectsDir = os.StatOk true
  /\ main.start_watching reference.noHandle = inr ErrNewWatcher.
Proof.
  repeat split; try (vm_compute; reflexivity).
  eexists. vm_compute. reflexivity.
Qed.

(** C7 as stated fails on a line of 1 MiB: the file holds one malformed
    line, of 1,048,576 bytes, followed by one valid user entry, and the
    reader stops at the first line; no user message is counted and the
    entry is not processed. *)
Lemma overlong_line_ends_the_reading :
  let long := reference.filler (Z.to_nat (1024 * 1024)) "x" in
  let content := long +:+ newline +:+ reference.validUserLine in
  let w := reference.world {[reference.conversationPath := content]} in
  let m := reference.started reference.dryRun in
  let m' := fst (@monitor.ProcessConversationFile reference.accepting reference.runtime
                   reference.conversationPath m w) in
  Z.of_nat (String.length long) = 1024 * 1024
  /\ bufio.lines content = [long; reference.validUserLine]
  /\ @monitor.json_Unmarshal_Entry reference.runtime long = None
  /\ (exists entry,
        @monitor.json_Unmarshal_Entry reference.runtime reference.validUserLine
        = Some entry
        /\ monitor.Entry_Type entry = "user" /\ monitor.Entry_UUID entry = "valid-msg")
  /\ monitor.MessageStats m' = (0, 0)
  /\ monitor.processed m' "valid-msg" = false.
Proof.
  cbv zeta.
  set (n := Z.to_nat (1024 * 1024)).
  assert (Z.of_nat n = 1024 * 1024) as Hn by (subst n; rewrite Z2Nat.id; lia).
  clearbody n.
  destruct (@overlong_first_line reference.accepting reference.runtime
              reference.conversationPath (reference.started reference.dryRun)
              (reference.world
                 {[reference.conversationPath :=
                     reference.filler n "x" +:+ newline +:+ reference.validUserLine]})
              n "x"%char reference.validUserLine) as [Hstats Hledger].
  - vm_compute. reflexivity.
  - unfold reference.world. cbn [monitor.files]. apply lookup_singleton_eq.
  - discriminate.
  - lia.
  - split_and!.
    + by rewrite length_filler.
    + unfold bufio.lines, newline.
      change (String (ascii_of_nat 10) "" +:+ reference.validUserLine)
        with (String (ascii_of_nat 10) reference.validUserLine).
      rewrite Split_filler by discriminate.
      replace (Split reference.validUserLine (ascii_of_nat 10))
        with [reference.validUserLine] by (vm_compute; reflexivity).
      reflexivity.
    + destruct n as [|n]; [lia|].
      change (reference.parse (reference.filler (S n) "x") ≫= reference.decodeEntry
              = None).
      unfold reference.parse. simpl reference.filler. simpl list_ascii_of_string.
      by destruct (2 * _ + 2)%nat.
    + exists {| monitor.Entry_Type := "user"; monitor.Entry_UUID := "valid-msg";
                monitor.Entry_ParentUUID := "";
                monitor.Entry_Timestamp := "2024-01-01T00:00:00Z";
                monitor.Entry_Message := reference.text "'Hello'";
                monitor.Entry_GitBranch := ""; monitor.Entry_Cwd := "";
                monitor.Entry_RequestID := "" |}.
      split; [vm_compute; reflexivity|]. split; reflexivity.
    + rewrite Hstats. reflexivity.
    + unfold monitor.processed. rewrite Hledger. reflexivity.
Qed.

(** C4 as stated fails on an object with a member of another JSON type
    than its field. In the first payload the content array holds a text
    block and a tool_result block whose content is an array: the
    payload does not decode and the text is empty, where the
    specification has the text of the first block. In the second the
    content member is a string: the flat text field is not used. *)
Lemma mistyped_member_gives_empty_text :
  let blocks :=
    reference.text
      "{'content':[{'type':'text','text':'hi'},{'type':'tool_result','content':[]}]}" in
  let flat := reference.text "{'text':'flat','content':'hello'}" in
  (exists raw first second,
     reference.parse blocks
     = Some (reference.JObject [("content", (raw, reference.JArray [first; second]))])
     /\ reference.decodeBlock first
        = Some {| monitor.Block_Type := "text"; monitor.Block_Text := "hi";
                  monitor.Block_Name := ""; monitor.Block_Input := "";
                  monitor.Block_Content := ""; monitor.Block_ToolUseID := "" |}
     /\ reference.decodeBlock second = None)
  /\ @monitor.json_Unmarshal_string reference.runtime blocks = None
  /\ @monitor.json_Unmarshal_MessageContent reference.runtime blocks = None
  /\ @monitor.extractContent reference.runtime blocks = ""
  /\ (exists raw1 raw2,
        reference.parse flat
        = Some (reference.JObject [("text", (raw1, reference.JString "flat"));
                                   ("content", (raw2, reference.JString "hello"))]))
  /\ @monitor.json_Unmarshal_string reference.runtime flat = None
  /\ @monitor.json_Unmarshal_MessageContent reference.runtime flat = None
  /\ @monitor.extractContent reference.runtime flat = "".
Proof.
  cbv zeta. split.
  { destruct (reference.parse _) as [j|] eqn:E; vm_compute in E; [|discriminate].
    injection E as <-. do 3 eexists. split; [reflexivity|]. split; reflexivity. }
  do 3 (split; [vm_compute; reflexivity|]).
  split; [|split_and!; vm_compute; reflexivity].
  destruct (reference.parse _) as [j|] eqn:E; vm_compute in E; [|discriminate].
  injection E as <-. do 2 eexists. reflexivity.
Qed.

(** ** Further properties on concrete runs *)

(** The environment wins over the file, the file over the defaults. *)
Example Load_on_a_file_and_an_environment :
  config.Load scenario.environment
  = inl {| monitor.Host := "http://test:3000"; monitor.PublicKey := "pk-file";
           monitor.SecretKey := "sk-test"; monitor.UserID := "dev";
           monitor.Model := "claude-file"; monitor.Source := "claude_code_monitor";
           monitor.UserTraceName := "claude_code_user";
           monitor.AssistantTraceName := "claude_response" |}.
Proof. vm_compute. reflexivity. Qed.

(** One event is buffered and the remote end accepts it. *)
Lemma successful_flush_leaves_nothing_pending_witness :
  let c := reference.buffering [reference.traceEvent "m1"] in
  let r := @langfuse.Flush reference.accepting c [] in
  fst (fst r) = None
  /\ length (snd r) = 1%nat
  /\ langfuse.EventCount (snd (fst r)) = 0
  /\ @langfuse.Flush reference.accepting (snd (fst r)) (snd r) = (None, snd (fst r), snd r).
Proof.
  cbv zeta.
  assert (fst (fst (@langfuse.Flush reference.accepting
                      (reference.buffering [reference.traceEvent "m1"]) [])) = None)
    as Hok by (vm_compute; reflexivity).
  destruct (@successful_flush_leaves_nothing_pending reference.accepting
              (reference.buffering [reference.traceEvent "m1"]) [] Hok)
    as (Hcount & Hagain & _).
  split; [exact Hok|]. split; [vm_compute; reflexivity|].
  split; [exact Hcount|exact Hagain].
Defined.

(** Twelve traces with a remote end that accepts: ten leave with the
    tenth, two stay. *)
Lemma healthy_endpoint_bounds_the_buffer_witness :
  let c := @langfuse.NewClient "http://localhost:3001" "pk" "sk" in
  langfuse.batchSize c = 10 /\ langfuse.EventCount c < 10
  /\ 0 <= langfuse.EventCount
            (fst (@session.ops reference.accepting scenario.twelveTraces (c, []))) < 10
  /\ langfuse.EventCount
       (fst (@session.ops reference.accepting scenario.twelveTraces (c, []))) = 2.
Proof.
  cbv zeta. split; [reflexivity|]. split; [reflexivity|]. split.
  - apply (@healthy_endpoint_bounds_the_buffer reference.accepting).
    + intros evs. discriminate.
    + intros url. reflexivity.
    + intros n req. exists 200. split; [reflexivity|lia].
    + reflexivity.
    + reflexivity.
  - vm_compute. reflexivity.
Defined.

(** Twelve traces with a remote end that cannot be reached: three
    requests fail, from the tenth trace on, and all twelve stay. *)
Lemma unreachable_endpoint_keeps_every_event_witness :
  let c := @langfuse.NewClient "http://localhost:3001" "pk" "sk" in
  let st := @session.ops reference.unreachable scenario.twelveTraces (c, []) in
  (forall n req, @langfuse.http_Do reference.unreachable n req = langfuse.TransportError)
  /\ langfuse.events (fst st) = omap session.enqueues scenario.twelveTraces
  /\ length (langfuse.events (fst st)) = 12%nat
  /\ length (snd st) = 3%nat
  /\ langfuse.delivered (snd st) = [].
Proof.
  cbv zeta.
  assert (forall n req,
            @langfuse.http_Do reference.unreachable n req = langfuse.TransportError)
    as Hdown by reflexivity.
  destruct (@unreachable_endpoint_keeps_every_event reference.unreachable
              scenario.twelveTraces
              (@langfuse.NewClient "http://localhost:3001" "pk" "sk") [] Hdown)
    as [Hev Hdel].
  split; [exact Hdown|]. split; [exact Hev|].
  split; [rewrite Hev; reflexivity|]. split; [vm_compute; reflexivity|exact Hdel].
Defined.

(** The user entry processed twice by a live monitor: one event. *)
Lemma no_id_is_emitted_twice_witness :
  let m0 := reference.started reference.live in
  let w0 := reference.world ∅ in
  let st := @monitor.calls reference.accepting reference.runtime scenario.twice (m0, w0) in
  let ids := map (fun ev => langfuse.Body_ID (langfuse.Body_ ev))
               (@monitor.emitted (fst st) (snd st)) in
  @monitor.New reference.live (inl reference.defaults) = inl m0
  /\ monitor.wire w0 = []
  /\ ids = ["test-uuid-123"]
  /\ NoDup ids.
Proof.
  cbv zeta.
  destruct (@no_id_is_emitted_twice reference.accepting reference.runtime
              reference.live reference.defaults
              (reference.started reference.live) (reference.world ∅) scenario.twice
              eq_refl eq_refl) as [Hnd _].
  split; [reflexivity|]. split; [reflexivity|].
  split; [vm_compute; reflexivity|exact Hnd].
Defined.

(** The same in dry-run mode: counted once, nothing sent. *)
Lemma dry_run_never_sends_witness :
  let m0 := reference.started reference.dryRun in
  let w0 := reference.world ∅ in
  let st := @monitor.calls reference.accepting reference.runtime scenario.twice (m0, w0) in
  @monitor.New reference.dryRun (inl reference.defaults) = inl m0
  /\ monitor.DryRun reference.dryRun = true
  /\ monitor.wire (snd st) = []
  /\ @monitor.emitted (fst st) (snd st) = []
  /\ monitor.MessageStats (fst st) = (1, 0).
Proof.
  cbv zeta.
  destruct (@dry_run_never_sends reference.accepting reference.runtime
              reference.dryRun reference.defaults
              (reference.started reference.dryRun) (reference.world ∅) scenario.twice
              eq_refl eq_refl) as (_ & Hw & He).
  split; [reflexivity|]. split; [reflexivity|].
  split; [exact Hw|]. split; [exact He|vm_compute; reflexivity].
Defined.

(** One id in the ledger, one message counted. *)
Lemma counters_count_the_ledger_witness :
  let m0 := reference.started reference.live in
  let m := fst (@monitor.calls reference.accepting reference.runtime scenario.twice
                  (m0, reference.world ∅)) in
  @monitor.New reference.live (inl reference.defaults) = inl m0
  /\ size (monitor.processedMessages m) = 1%nat
  /\ fst (monitor.MessageStats m) + snd (monitor.MessageStats m) = 1.
Proof.
  cbv zeta.
  destruct (@counters_count_the_ledger reference.accepting reference.runtime
              reference.live reference.defaults
              (reference.started reference.live) (reference.world ∅) scenario.twice
              eq_refl) as [_ Hsum].
  assert (size (monitor.processedMessages
                  (fst (@monitor.calls reference.accepting reference.runtime
                          scenario.twice
                          (reference.started reference.live, reference.world ∅))))
          = 1%nat) as Hsize by (vm_compute; reflexivity).
  split; [reflexivity|]. split; [exact Hsize|].
  destruct Hsum as (_ & _ & Hsum); [rewrite Hsize; reflexivity|].
  rewrite Hsum, Hsize. reflexivity.
Defined.

(** A file with one user entry, read twice. *)
Lemma reading_a_file_again_changes_nothing_witness :
  let w := reference.world {[reference.conversationPath := reference.validUserLine]} in
  let m := reference.started reference.live in
  let st := @monitor.ProcessConversationFile reference.accepting reference.runtime
              reference.conversationPath m w in
  monitor.rejected reference.conversationPath = false
  /\ monitor.files w !! reference.conversationPath = Some reference.validUserLine
  /\ monitor.MessageStats (fst st) = (1, 0)
  /\ @monitor.ProcessConversationFile reference.accepting reference.runtime
       reference.conversationPath (fst st) (snd st) = st.
Proof.
  cbv zeta.
  assert (monitor.rejected reference.conversationPath = false) as Hacc
    by (vm_compute; reflexivity).
  assert (monitor.files
            (reference.world {[reference.conversationPath := reference.validUserLine]})
            !! reference.conversationPath = Some reference.validUserLine) as Hfile
    by (vm_compute; reflexivity).
  split; [exact Hacc|]. split; [exact Hfile|]. split; [vm_compute; reflexivity|].
  apply (@reading_a_file_again_changes_nothing reference.accepting reference.runtime
           reference.conversationPath reference.validUserLine
           (reference.started reference.live)
           (reference.world {[reference.conversationPath := reference.validUserLine]})
           [] Hacc Hfile).
  vm_compute. reflexivity.
Defined.

(** The user entry of the repository's tests on a live monitor. *)
Lemma user_entry_becomes_a_trace_witness :
  let m := reference.started reference.live in
  let w := reference.world ∅ in
  let st := @monitor.ProcessMessage reference.accepting reference.runtime
              reference.userEntry "session-1" "/test/project" "conv-1" m w in
  monitor.client m = Some (@langfuse.NewClient "http://localhost:3001" "" "")
  /\ map (fun ev => (langfuse.Type_ ev, langfuse.Body_ID (langfuse.Body_ ev)))
       (@monitor.emitted (fst st) (snd st))
     = [("trace-create", "test-uuid-123")]
  /\ (exists t, @monitor.emitted (fst st) (snd st)
                = [{| langfuse.Type_ := "trace-create";
                      langfuse.Body_ := langfuse.BodyTrace t |}]
                /\ langfuse.Trace_Input t = "Test message"
                /\ langfuse.Trace_SessionID t = "session-1"
                /\ langfuse.Trace_Timestamp t = 1704067200000000000).
Proof.
  cbv zeta.
  pose proof (@user_entry_becomes_a_trace reference.accepting reference.runtime
                reference.userEntry "session-1" "/test/project" "conv-1"
                (reference.started reference.live) (reference.world ∅)
                (@langfuse.NewClient "http://localhost:3001" "" "")
                eq_refl eq_refl eq_refl ltac:(discriminate) eq_refl) as Hev.
  cbv zeta in Hev.
  split; [reflexivity|]. split; [rewrite Hev; vm_compute; reflexivity|].
  eexists. split; [rewrite Hev; reflexivity|].
  split; [vm_compute; reflexivity|]. split; [reflexivity|vm_compute; reflexivity].
Defined.

(** An assistant entry whose payload names its model. *)
Lemma assistant_entry_becomes_a_generation_witness :
  let m := reference.started reference.live in
  let w := reference.world ∅ in
  let st := @monitor.ProcessMessage reference.accepting reference.runtime
              scenario.assistantEntry "session-1" "/test/project" "conv-1" m w in
  monitor.client m = Some (@langfuse.NewClient "http://localhost:3001" "" "")
  /\ exists g, @monitor.emitted (fst st) (snd st)
               = [{| langfuse.Type_ := "generation-create";
                     langfuse.Body_ := langfuse.BodyGeneration g |}]
               /\ langfuse.Generation_ID g = "reply-1"
               /\ langfuse.Generation_TraceID g = "test-uuid-123"
               /\ langfuse.Generation_Model g = "claude-opus-4"
               /\ langfuse.Generation_Output g = "Hi there"
               /\ langfuse.Generation_StartTime g = langfuse.Generation_EndTime g.
Proof.
  cbv zeta.
  destruct (@assistant_entry_becomes_a_generation reference.accepting reference.runtime
                scenario.assistantEntry "session-1" "/test/project" "conv-1"
                (reference.started reference.live) (reference.world ∅)
                (@langfuse.NewClient "http://localhost:3001" "" "")
                eq_refl eq_refl eq_refl ltac:(discriminate) eq_refl)
    as (model & Hev & _ & Hmodel).
  split; [reflexivity|].
  eexists. split; [rewrite Hev; reflexivity|]. simpl.
  split; [reflexivity|]. split; [reflexivity|]. split; [|split; [|reflexivity]].
  - apply (Hmodel {| monitor.Message_Text := "";
                     monitor.Message_Content :=
                       [{| monitor.Block_Type := "text"; monitor.Block_Text := "Hi there";
                           monitor.Block_Name := ""; monitor.Block_Input := "";
                           monitor.Block_Content := ""; monitor.Block_ToolUseID := "" |}];
                     monitor.Message_Model := "claude-opus-4" |}).
    + vm_compute. discriminate.
    + vm_compute. reflexivity.
    + discriminate.
    + discriminate.
  - vm_compute. reflexivity.
Defined.

(** The session id cached for the path of the repository's test. *)
Lemma session_ids_are_32_hex_digits_witness :
  let m0 := reference.started reference.dryRun in
  let cs := [monitor.CallProcessConversationFile reference.conversationPath] in
  let m := fst (@monitor.calls reference.accepting reference.runtime cs
                  (m0, reference.world ∅)) in
  @monitor.New reference.dryRun (inl reference.defaults) = inl m0
  /\ (exists sid, monitor.conversationSessions m !! reference.conversationPath = Some sid
                  /\ String.length sid = 32%nat).
Proof.
  cbv zeta. split; [reflexivity|].
  destruct (monitor.conversationSessions
              (fst (@monitor.calls reference.accepting reference.runtime
                      [monitor.CallProcessConversationFile reference.conversationPath]
                      (reference.started reference.dryRun, reference.world ∅)))
              !! reference.conversationPath) as [sid|] eqn:E;
    [|vm_compute in E; discriminate].
  exists sid. split; [reflexivity|].
  apply (@session_ids_are_32_hex_digits reference.accepting reference.runtime
           reference.dryRun reference.defaults (reference.started reference.dryRun)
           (reference.world ∅)
           [monitor.CallProcessConversationFile reference.conversationPath]
           reference.conversationPath sid eq_refl E).
Defined.

(** A write to a conversation file, dispatched at the tick 500 ms later. *)
Lemma only_changed_jsonl_files_are_dispatched_witness :
  let w1 := snd (watcher.Start (fun _ => true)
                   (main.Tree reference.healthy reference.projectsDir)
                   reference.watching) in
  watcher.New reference.projectsDir true = inl reference.watching
  /\ snd (watcher.run (fun _ => true) scenario.writeThenTicks w1)
     = [scenario.conversation]
  /\ HasSuffix scenario.conversation ".jsonl" = true.
Proof.
  cbv zeta.
  assert (snd (watcher.run (fun _ => true) scenario.writeThenTicks
                 (snd (watcher.Start (fun _ => true)
                         (main.Tree reference.healthy reference.projectsDir)
                         reference.watching)))
          = [scenario.conversation]) as Hrun by (vm_compute; reflexivity).
  split; [reflexivity|]. split; [exact Hrun|].
  apply (only_changed_jsonl_files_are_dispatched (fun _ => true)
           reference.projectsDir (main.Tree reference.healthy reference.projectsDir)
           scenario.writeThenTicks reference.watching scenario.conversation eq_refl).
  rewrite Hrun. left.
Defined.

(** The history pass on a projects directory with one recent
    conversation, followed by the watcher's call for that file. *)
Lemma history_makes_the_first_dispatch_a_no_op_witness :
  let w := reference.world {[scenario.conversation := reference.validUserLine]} in
  let m := reference.started reference.live in
  let r := @history.ProcessExistingHistory reference.accepting reference.runtime
             reference.healthy scenario.modTime m w in
  tree.regularFiles reference.projectsDir
    (main.Tree reference.healthy reference.projectsDir) = [scenario.conversation]
  /\ fst (fst r)
     = (None, [history.Processing 24; history.Found 1; history.Processed 1 1 1 0])
  /\ @monitor.ProcessConversationFile reference.accepting reference.runtime
       scenario.conversation (snd (fst r)) (snd r) = (snd (fst r), snd r).
Proof.
  cbv zeta.
  assert (tree.regularFiles reference.projectsDir
            (main.Tree reference.healthy reference.projectsDir)
          = [scenario.conversation]) as Hfiles by (vm_compute; reflexivity).
  split; [exact Hfiles|]. split; [vm_compute; reflexivity|].
  apply (@history_makes_the_first_dispatch_a_no_op
           reference.accepting reference.runtime reference.healthy scenario.modTime
           (reference.started reference.live)
           (reference.world {[scenario.conversation := reference.validUserLine]})
           reference.projectsDir scenario.conversation reference.validUserLine).
  - vm_compute. reflexivity.
  - rewrite Hfiles. left.
  - vm_compute. reflexivity.
  - vm_compute. reflexivity.
  - vm_compute. reflexivity.
Defined.

(** A file of four lines on a live monitor: two new ids, in line order. *)
Lemma a_file_adds_its_new_ids_in_line_order_witness :
  let w := reference.world {[reference.conversationPath := scenario.fourLines]} in
  let m := reference.started reference.live in
  let st := @monitor.ProcessConversationFile reference.accepting reference.runtime
              reference.conversationPath m w in
  monitor.rejected reference.conversationPath = false
  /\ monitor.files w !! reference.conversationPath = Some scenario.fourLines
  /\ @reading.newIds reference.runtime
       (bufio.Scan (1024 * 1024) scenario.fourLines) (monitor.processedMessages m)
     = ["valid-msg"; "second-msg"]
  /\ map (fun ev => langfuse.Body_ID (langfuse.Body_ ev))
       (@monitor.emitted (fst st) (snd st)) = ["valid-msg"; "second-msg"]
  /\ monitor.MessageStats (fst st) = (2, 0).
Proof.
  cbv zeta.
  assert (monitor.rejected reference.conversationPath = false) as Hacc
    by (vm_compute; reflexivity).
  assert (monitor.files
            (reference.world {[reference.conversationPath := scenario.fourLines]})
            !! reference.conversationPath = Some scenario.fourLines) as Hfile
    by (vm_compute; reflexivity).
  assert (@reading.newIds reference.runtime
            (bufio.Scan (1024 * 1024) scenario.fourLines)
            (monitor.processedMessages (reference.started reference.live))
          = ["valid-msg"; "second-msg"]) as Hids by (vm_compute; reflexivity).
  destruct (@a_file_adds_its_new_ids_in_line_order
              reference.accepting reference.runtime
              reference.conversationPath scenario.fourLines
              (reference.started reference.live)
              (reference.world {[reference.conversationPath := scenario.fourLines]})
              Hacc Hfile) as (_ & Hlive & _).
  split; [exact Hacc|]. split; [exact Hfile|]. split; [exact Hids|].
  split; [|vm_compute; reflexivity].
  rewrite Hlive; [|discriminate|reflexivity]. rewrite Hids. reflexivity.
Defined.
